(** * plot_results.py: convergence and error analytics of the Monte Carlo
      pi estimator, and the three presentation paths around them.

    The script is a sequence of numpy / pandas / matplotlib calls.  The
    embedding follows the script line by line:

    - float64 values are read as the real numbers they denote, extended
      with the IEEE special values (module [Np]), and every arithmetic
      operation as the exact one: this is the exact-arithmetic reading of
      the script.  Rounding, overflow and underflow are not part of it (the
      conversion of a sample count to float64 included, which is exact up
      to 2^53); the special values are, because the script relies on them
      (log of zero, division by zero, the standard deviation of a single
      row).  Statements about computed numbers hold in this reading and
      say so;
    - module [Binary64] evaluates the same expressions in IEEE binary64,
      with the kernel's primitive floats, for the inputs on which rounding
      makes the script depart from the exact reading;
    - the dtype pandas gives the Sample_Count column is part of the model:
      numpy's [sqrt] and [log] raise TypeError on a column of Python
      objects;
    - printing and plotting are recorded in an explicit [World] (lines sent
      to stdout, figures shown or saved) threaded through a small
      state-and-exception monad.  [plt.show] and [plt.savefig] are recorded
      as events: rendering and saving are taken to succeed, and what
      matplotlib makes of an output name, or of figures an earlier call
      left open in the same process, is outside the model. *)

From Stdlib Require Import Floats String.
From Stdlib Require Import Reals Lra Lia ZArith Bool List Sorted.
Import ListNotations.

Set Implicit Arguments.

(* ===================================================================== *)
(** ** numpy / pandas numerics over the extended reals *)
(* ===================================================================== *)

Module Np.

Local Open Scope R_scope.

(** A float64 result: a finite number, an infinity, or not-a-number. *)
Inductive npfloat : Type :=
| Fin (r : R)
| PInf
| NInf
| NaN.

(** [np.pi] is the double 0x1.921fb54442d18p+1, an exact dyadic rational. *)
Definition np_pi : R := 884279719003555 / 281474976710656.

(** [np.log]: minus infinity at zero, nan below (both with a RuntimeWarning
    only). *)
Definition np_log (x : R) : npfloat :=
  if Rlt_dec 0 x then Fin (ln x)
  else if Req_dec_T x 0 then NInf
  else NaN.

(** [np.sqrt]: nan below zero. *)
Definition np_sqrt (x : R) : npfloat :=
  if Rle_dec 0 x then Fin (sqrt x) else NaN.

(** Unary minus. *)
Definition np_neg (v : npfloat) : npfloat :=
  match v with
  | Fin r => Fin (- r)
  | PInf => NInf
  | NInf => PInf
  | NaN => NaN
  end.

(** [v / d] for a finite non-zero constant [d > 0]. *)
Definition np_div_pos (v : npfloat) (d : R) : npfloat :=
  match v with
  | Fin r => Fin (r / d)
  | other => other
  end.

(** [1.0 / v].  Signed zeros are not distinguished: a zero divisor stands
    for +0.0. *)
Definition np_recip (v : npfloat) : npfloat :=
  match v with
  | Fin r => if Req_dec_T r 0 then PInf else Fin (1 / r)
  | PInf | NInf => Fin 0
  | NaN => NaN
  end.

Definition np_add (a b : npfloat) : npfloat :=
  match a, b with
  | NaN, _ | _, NaN => NaN
  | Fin x, Fin y => Fin (x + y)
  | PInf, NInf | NInf, PInf => NaN
  | PInf, _ | _, PInf => PInf
  | NInf, _ | _, NInf => NInf
  end.

Definition inf_of_sign (positive : bool) : npfloat :=
  if positive then PInf else NInf.

Definition np_mul (a b : npfloat) : npfloat :=
  match a, b with
  | NaN, _ | _, NaN => NaN
  | Fin x, Fin y => Fin (x * y)
  | Fin x, PInf | PInf, Fin x =>
      if Req_dec_T x 0 then NaN else inf_of_sign (if Rlt_dec 0 x then true else false)
  | Fin x, NInf | NInf, Fin x =>
      if Req_dec_T x 0 then NaN else inf_of_sign (if Rlt_dec 0 x then false else true)
  | PInf, PInf | NInf, NInf => PInf
  | PInf, NInf | NInf, PInf => NInf
  end.

(** The finite values of a column, when all of them are finite. *)
Fixpoint all_finite (l : list npfloat) : option (list R) :=
  match l with
  | [] => Some []
  | Fin r :: t =>
      match all_finite t with
      | Some rs => Some (r :: rs)
      | None => None
      end
  | _ :: _ => None
  end.

(** *** Reductions of a column *)

Definition sum (l : list R) : R := fold_right Rplus 0 l.

Definition sq (x : R) : R := x * x.

(** [Series.min()] / [Series.max()]: nan on an empty column. *)
Definition col_min (l : list R) : npfloat :=
  match l with
  | [] => NaN
  | x :: t => Fin (fold_left Rmin t x)
  end.

Definition col_max (l : list R) : npfloat :=
  match l with
  | [] => NaN
  | x :: t => Fin (fold_left Rmax t x)
  end.

(** [Series.mean()]: sum over count, nan on an empty column. *)
Definition col_mean (l : list R) : npfloat :=
  match l with
  | [] => NaN
  | _ => Fin (sum l / INR (length l))
  end.

(** [Series.std()], default [ddof=1]: pandas sets the result to nan when
    the count does not exceed [ddof]; otherwise the two-pass formula
    [sqrt (sum ((avg - x)^2) / (count - 1))]. *)
Definition col_std (l : list R) : npfloat :=
  if (length l <=? 1)%nat then NaN
  else
    let avg := sum l / INR (length l) in
    Fin (sqrt (sum (map (fun x => sq (avg - x)) l) / (INR (length l) - 1))).

(** *** First-degree least squares *)

Definition points := list (R * R).

Definition Sx (p : points) : R := sum (map fst p).
Definition Sy (p : points) : R := sum (map snd p).
Definition Sxx (p : points) : R := sum (map (fun q => fst q * fst q) p).
Definition Sxy (p : points) : R := sum (map (fun q => fst q * snd q) p).
Definition Syy (p : points) : R := sum (map (fun q => snd q * snd q) p).
Definition npts (p : points) : R := INR (length p).

(** Determinant of the normal equations. *)
Definition det (p : points) : R := npts p * Sxx p - Sx p * Sx p.

(** Sum of squared residuals of the line [y = a x + b]. *)
Definition ssr (p : points) (a b : R) : R :=
  sum (map (fun q => sq (snd q - (a * fst q + b))) p).

(** Solution of the normal equations (slope first, as [np.polyfit] orders
    its coefficients). *)
Definition normal_equations (p : points) : R * R :=
  let slope := (npts p * Sxy p - Sx p * Sy p) / det p in
  (slope, (Sy p - slope * Sx p) / npts p).

(** Exceptions the script can meet. *)
Inductive exn : Type :=
| FileNotFoundError
| EmptyDataError
| IndexError
| LinAlgError
| TypeError
| SystemExit (code : Z).

Inductive result (A : Type) : Type :=
| Returned (a : A)
| Raised (e : exn).
Arguments Raised {A} e.

(** [np.polyfit(x, y, 1)] in exact arithmetic.

    numpy scales the columns of the Vandermonde matrix [[x_i, 1]] by their
    Euclidean norms and hands the system to LAPACK's least-squares driver:
    - an empty [x] is rejected with a TypeError;
    - a non-finite abscissa, or a column of zeros (whose norm is zero),
      leaves nan in the scaled matrix and the driver fails to converge
      (LinAlgError);
    - a non-finite ordinate yields nan coefficients;
    - a constant non-zero abscissa makes the matrix rank deficient: numpy
      emits a RankWarning and returns the minimum-norm solution of the
      scaled system, [ybar / (2 x0)] and [ybar / 2];
    - otherwise the unique solution of the normal equations. *)
Definition polyfit1 (x y : list npfloat) : result (npfloat * npfloat) :=
  match x with
  | [] => Raised TypeError
  | _ :: _ =>
      match all_finite x with
      | None => Raised LinAlgError
      | Some xs =>
          if Req_dec_T (sum (map sq xs)) 0 then Raised LinAlgError
          else
            match all_finite y with
            | None => Returned (NaN, NaN)
            | Some ys =>
                let p := combine xs ys in
                if Req_dec_T (det p) 0 then
                  let ybar := Sy p / npts p in
                  let xbar := Sx p / npts p in
                  Returned (Fin (ybar / (2 * xbar)), Fin (ybar / 2))
                else
                  let c := normal_equations p in
                  Returned (Fin (fst c), Fin (snd c))
            end
      end
  end.

(** [np.polyval(coeffs, x)]: Horner's scheme started from zero. *)
Definition polyval (coeffs : list npfloat) (x : npfloat) : npfloat :=
  fold_left (fun acc c => np_add (np_mul acc x) c) coeffs (Fin 0).

End Np.

Import Np.

(* ===================================================================== *)
(** ** Data model *)
(* ===================================================================== *)

(** One row of the CSV file: the three columns the script reads. *)
Record Observation : Type := {
  Sample_Count : Z;
  Pi_Estimate : R;
  Error : R
}.

(** The data frame returned by [pd.read_csv], in row order. *)
Definition DataFrame := list Observation.

(** What a path holds, as far as the script distinguishes it: nothing, a
    file without any column to parse (zero bytes), or a table. *)
Inductive FileState : Type :=
| Missing
| EmptyFile
| Table (df : DataFrame).

Definition FileSystem := string -> FileState.

(** [pd.read_csv(csv_file)] *)
Definition read_csv (fs : FileSystem) (csv_file : string) : result DataFrame :=
  match fs csv_file with
  | Missing => Raised FileNotFoundError
  | EmptyFile => Raised EmptyDataError
  | Table df => Returned df
  end.

(** [Path(csv_file).exists()] *)
Definition path_exists (fs : FileSystem) (csv_file : string) : bool :=
  match fs csv_file with
  | Missing => false
  | _ => true
  end.

(** [series.iloc[-1]]: IndexError on an empty column. *)
Definition iloc_last (A : Type) (col : list A) : result A :=
  match col with
  | [] => Raised IndexError
  | x :: t => Returned (last t x)
  end.

(** The dtype of the Sample_Count column.  The parser stores the counts as
    int64 when all of them fit, as uint64 when all of them are
    non-negative and fit, and leaves Python objects in the column
    otherwise. *)
Definition int64_column (col : list Z) : bool :=
  forallb (fun n => (- 2 ^ 63 <=? n)%Z && (n <? 2 ^ 63)%Z) col.

Definition uint64_column (col : list Z) : bool :=
  forallb (fun n => (0 <=? n)%Z && (n <? 2 ^ 64)%Z) col.

Definition numeric_column (col : list Z) : bool :=
  int64_column col || uint64_column col.

(** A numpy ufunc ([np.sqrt], [np.log]) applied to the Sample_Count column:
    [values] on a numeric column, TypeError on a column of objects. *)
Definition ufunc_on_counts (A : Type) (col : list Z) (values : A) : result A :=
  if numeric_column col then Returned values else Raised TypeError.

(* ===================================================================== *)
(** ** Derived columns *)
(* ===================================================================== *)

(** The columns below are the exact-arithmetic reading of the float64
    computation: a count enters at its integer value and [sqrt], [ln], the
    products and the quotients are the real operations. *)

Section Analytics.

Local Open Scope R_scope.

Variable df : DataFrame.

Definition counts : list Z := map Sample_Count df.
Definition estimates : list R := map Pi_Estimate df.
Definition errors : list R := map Error df.

(** [(df['Error'] / np.pi) * 100] *)
Definition relative_error : list R :=
  map (fun e => (e / np_pi) * 100) errors.

(** [1.0 / np.sqrt(df['Sample_Count'])], on a numeric column *)
Definition theoretical_error : list npfloat :=
  map (fun n => np_recip (np_sqrt (IZR n))) counts.

(** [np.log(df['Sample_Count'])], on a numeric column *)
Definition log_samples : list npfloat :=
  map (fun n => np_log (IZR n)) counts.

(** [np.log(df['Error'])] *)
Definition log_errors : list npfloat :=
  map np_log errors.

(** The divisor [df['Sample_Count'] * df['Error']**2] of one row. *)
Definition efficiency_divisor (o : Observation) : R :=
  IZR (Sample_Count o) * (Error o * Error o).

(** [1.0 / (df['Sample_Count'] * df['Error']**2)]: a zero divisor gives an
    infinity, whose sign is that of the sample count (the square is +0.0).
    In exact arithmetic the divisor is zero only when the count or the
    error is. *)
Definition efficiency : list npfloat :=
  map (fun o =>
         if Req_dec_T (efficiency_divisor o) 0
         then inf_of_sign (0 <=? Sample_Count o)%Z
         else Fin (1 / efficiency_divisor o)) df.

End Analytics.

(* ===================================================================== *)
(** ** Output: printed lines and figures *)
(* ===================================================================== *)

(** Format specifications used by the f-strings of the script. *)
Inductive Fmt : Type :=
| Fmt_2e      (* :.2e  *)
| Fmt_3f      (* :.3f  *)
| Fmt_6f      (* :.6f  *)
| Fmt_10f     (* :.10f *)
| Fmt_comma.  (* :,    *)

(** An f-string is a sequence of literal text and formatted values. *)
Inductive Piece : Type :=
| Str (s : string)
| Int (z : Z)
| Val (v : npfloat) (fmt : Fmt).

Definition Line := list Piece.

Definition nl : string := String (Ascii.ascii_of_nat 10) EmptyString.

Fixpoint str_repeat (s : string) (n : nat) : string :=
  match n with
  | O => EmptyString
  | S k => (s ++ str_repeat s k)%string
  end.

(** ["="*60] *)
Definition rule : string := str_repeat "=" 60.

(** What is drawn in one sub-plot. *)
Inductive Artist : Type :=
| Semilogx (x : list Z) (y : list npfloat) (label : Line)
| Plot (x y : list npfloat) (label : Line)
| Scatter (x y : list npfloat)
| Axhline (y : R) (label : Line)
| Axvline (x : R) (label : Line)
| Hist (data : list R) (bins : Z)
| AxesText (text : list Line).

Record Panel : Type := {
  title : Line;
  artists : list Artist
}.

Record Figure : Type := {
  figsize : Z * Z;
  panels : list Panel
}.

(** [plt.show()] or [plt.savefig(path)] of the current figure. *)
Inductive Action : Type :=
| Show (fig : Figure)
| SaveFig (path : string) (fig : Figure).

(** Everything the process has emitted so far. *)
Record World : Type := {
  stdout : list Line;
  display : list Action
}.

Definition empty_world : World := {| stdout := []; display := [] |}.

(* ===================================================================== *)
(** ** State and exceptions *)
(* ===================================================================== *)

Definition M (A : Type) : Type := World -> result A * World.

Definition ret (A : Type) (a : A) : M A := fun w => (Returned a, w).

Definition raise (A : Type) (e : exn) : M A := fun w => (Raised e, w).
Arguments raise {A} e.

Definition bind (A B : Type) (m : M A) (k : A -> M B) : M B :=
  fun w =>
    match m w with
    | (Returned a, w') => k a w'
    | (Raised e, w') => (Raised e, w')
    end.

(** A pure computation that may raise. *)
Definition lift (A : Type) (r : result A) : M A :=
  fun w => (r, w).

Declare Scope py_scope.
Delimit Scope py_scope with py.
Notation "x <- m ;; k" := (bind m (fun x => k))
  (at level 61, m at next level, right associativity) : py_scope.
Notation "m ;; k" := (bind m (fun _ => k))
  (at level 61, right associativity) : py_scope.

(** [print(line)] *)
Definition print (l : Line) : M unit :=
  fun w => (Returned tt, {| stdout := stdout w ++ [l]; display := display w |}).

(** [plt.show()] / [plt.savefig(path, ...)] *)
Definition emit (a : Action) : M unit :=
  fun w => (Returned tt, {| stdout := stdout w; display := display w ++ [a] |}).

(** Truth value of an optional command-line string ([if output_file:]). *)
Definition is_set (o : option string) : bool :=
  match o with
  | Some s => negb (String.eqb s EmptyString)
  | None => false
  end.

Definition str_of (o : option string) : string :=
  match o with
  | Some s => s
  | None => "None"
  end.

Definition msg_not_found (csv_file : string) : Line :=
  [Str ("Error: File '" ++ csv_file ++ "' not found.")%string].

Definition msg_empty (csv_file : string) : Line :=
  [Str ("Error: File '" ++ csv_file ++ "' is empty.")%string].

(* ===================================================================== *)
(** ** The three presentation paths *)
(* ===================================================================== *)

Section Program.

Local Open Scope py_scope.
Local Open Scope string_scope.

Variable fs : FileSystem.

(** [plot_convergence(csv_file, output_file=None)] *)
Definition plot_convergence (csv_file : string) (output_file : option string)
  : M unit :=
  match read_csv fs csv_file with
  | Raised FileNotFoundError => print (msg_not_found csv_file)
  | Raised EmptyDataError => print (msg_empty csv_file)
  | Raised e => raise e
  | Returned df =>
      (* Main convergence plot *)
      let p1 := {| title := [Str "Monte Carlo π Convergence"];
                   artists := [Semilogx (counts df) (map Fin (estimates df))
                                        [Str "Estimated π"];
                               Axhline np_pi [Str "Actual π"]] |} in
      (* Error plot *)
      let p2 := {| title := [Str "Absolute Error vs Sample Count"];
                   artists := [Semilogx (counts df) (map Fin (errors df)) []] |} in
      (* Relative error plot *)
      let relative_error := relative_error df in
      let p3 := {| title := [Str "Relative Error vs Sample Count"];
                   artists := [Semilogx (counts df) (map Fin relative_error) []] |} in
      (* Histogram of estimates (if we have enough data points) *)
      let p4 :=
        if (10 <? List.length df)%nat then
          {| title := [Str "Distribution of π Estimates"];
             artists := [Hist (estimates df)
                              (Z.min 20 (Z.of_nat (List.length df) / 5));
                         Axvline np_pi [Str "Actual π"]] |}
        else
          {| title := [Str "Distribution of π Estimates"];
             artists := [AxesText [[Str "Not enough data points"];
                                   [Str "for histogram"]]] |} in
      let fig := {| figsize := (12, 8)%Z; panels := [p1; p2; p3; p4] |} in
      if is_set output_file then
        emit (SaveFig (str_of output_file) fig);;
        print [Str "Plot saved to "; Str (str_of output_file)]
      else
        emit (Show fig)
  end.

(** [plot_error_analysis(csv_file, output_file=None)] *)
Definition plot_error_analysis (csv_file : string) (output_file : option string)
  : M unit :=
  match read_csv fs csv_file with
  | Raised FileNotFoundError => print (msg_not_found csv_file)
  | Raised e => raise e
  | Returned df =>
      (* Error convergence, with the theoretical bound 1/sqrt(n) *)
      theoretical_error <-
        lift (ufunc_on_counts (counts df) (theoretical_error df));;
      let p1 := {| title := [Str "Error Convergence Analysis"];
                   artists := [Semilogx (counts df) (map Fin (errors df))
                                        [Str "Absolute Error"];
                               Semilogx (counts df) theoretical_error
                                        [Str "Theoretical Bound (1/√n)"]] |} in
      (* Relative error *)
      let relative_error := relative_error df in
      let p2 := {| title := [Str "Relative Error"];
                   artists := [Semilogx (counts df) (map Fin relative_error) []] |} in
      (* Error vs estimate scatter *)
      let p3 := {| title := [Str "Error vs Estimate"];
                   artists := [Scatter (map Fin (estimates df))
                                       (map Fin (errors df))] |} in
      (* Convergence rate analysis *)
      p4 <- (if (1 <? List.length df)%nat then
               log_samples <-
                 lift (ufunc_on_counts (counts df) (log_samples df));;
               let log_errors := log_errors df in
               coeffs <- lift (polyfit1 log_samples log_errors);;
               let convergence_rate := np_neg (fst coeffs) in
               ret {| title := [Str "Convergence Rate Analysis"; Str nl;
                                Str "Rate: "; Val convergence_rate Fmt_3f];
                      artists :=
                        [Scatter log_samples log_errors;
                         Plot log_samples
                              (map (polyval [fst coeffs; snd coeffs]) log_samples)
                              [Str "Slope: "; Val convergence_rate Fmt_3f]] |}
             else ret {| title := []; artists := [] |});;
      (* Statistical summary *)
      final_estimate <- lift (iloc_last (estimates df));;
      final_error <- lift (iloc_last (errors df));;
      final_rel_error <- lift (iloc_last relative_error);;
      let stats_text :=
        [ [];
          [Str "    Statistical Summary:"];
          [Str "    "];
          [Str "    Final Estimate: "; Val (Fin final_estimate) Fmt_10f];
          [Str "    Actual π: "; Val (Fin np_pi) Fmt_10f];
          [Str "    Final Error: "; Val (Fin final_error) Fmt_2e];
          [Str "    Final Rel. Error: "; Val (Fin final_rel_error) Fmt_6f; Str "%"];
          [Str "    "];
          [Str "    Min Error: "; Val (col_min (errors df)) Fmt_2e];
          [Str "    Max Error: "; Val (col_max (errors df)) Fmt_2e];
          [Str "    Mean Error: "; Val (col_mean (errors df)) Fmt_2e];
          [Str "    Std Error: "; Val (col_std (errors df)) Fmt_2e];
          [Str "    "] ] in
      let p5 := {| title := [Str "Statistical Summary"];
                   artists := [AxesText stats_text] |} in
      (* Sample efficiency *)
      let efficiency := efficiency df in
      let p6 := {| title := [Str "Sample Efficiency"];
                   artists := [Semilogx (counts df) efficiency []] |} in
      let fig := {| figsize := (15, 10)%Z; panels := [p1; p2; p3; p4; p5; p6] |} in
      if is_set output_file then
        emit (SaveFig (str_of output_file) fig);;
        print [Str "Error analysis plot saved to "; Str (str_of output_file)]
      else
        emit (Show fig)
  end.

(** [create_summary_report(csv_file)] *)
Definition create_summary_report (csv_file : string) : M unit :=
  match read_csv fs csv_file with
  | Raised FileNotFoundError => print (msg_not_found csv_file)
  | Raised e => raise e
  | Returned df =>
      print [Str (nl ++ rule)];;
      print [Str "MONTE CARLO π ESTIMATION SUMMARY REPORT"];;
      print [Str rule];;
      final_estimate <- lift (iloc_last (estimates df));;
      final_error <- lift (iloc_last (errors df));;
      let relative_error := ((final_error / np_pi) * 100)%R in
      print [Str "File: "; Str csv_file];;
      print [Str "Total data points: "; Int (Z.of_nat (List.length df))];;
      print [Str "Sample range: "; Val (col_min (map IZR (counts df))) Fmt_comma;
             Str " to "; Val (col_max (map IZR (counts df))) Fmt_comma];;
      print [];;
      print [Str "FINAL RESULTS:"];;
      print [Str "  Estimated π: "; Val (Fin final_estimate) Fmt_10f];;
      print [Str "  Actual π:    "; Val (Fin np_pi) Fmt_10f];;
      print [Str "  Absolute Error: "; Val (Fin final_error) Fmt_2e];;
      print [Str "  Relative Error: "; Val (Fin relative_error) Fmt_6f; Str "%"];;
      print [];;
      print [Str "ERROR STATISTICS:"];;
      print [Str "  Minimum Error: "; Val (col_min (errors df)) Fmt_2e];;
      print [Str "  Maximum Error: "; Val (col_max (errors df)) Fmt_2e];;
      print [Str "  Mean Error:    "; Val (col_mean (errors df)) Fmt_2e];;
      print [Str "  Std Deviation: "; Val (col_std (errors df)) Fmt_2e];;
      print [];;
      print [Str "ESTIMATE STATISTICS:"];;
      print [Str "  Minimum Estimate: "; Val (col_min (estimates df)) Fmt_10f];;
      print [Str "  Maximum Estimate: "; Val (col_max (estimates df)) Fmt_10f];;
      print [Str "  Mean Estimate:    "; Val (col_mean (estimates df)) Fmt_10f];;
      print [Str "  Std Deviation:    "; Val (col_std (estimates df)) Fmt_10f];;
      print [];;
      (* Convergence analysis *)
      (if (1 <? List.length df)%nat then
         log_samples <- lift (ufunc_on_counts (counts df) (log_samples df));;
         let log_errors := log_errors df in
         coeffs <- lift (polyfit1 log_samples log_errors);;
         let convergence_rate := np_neg (fst coeffs) in
         print [Str "CONVERGENCE ANALYSIS:"];;
         print [Str "  Convergence Rate: "; Val convergence_rate Fmt_3f];;
         print [Str "  Theoretical Rate: 0.500 (Monte Carlo)"];;
         print [Str "  Rate Ratio: "; Val (np_div_pos convergence_rate 0.5) Fmt_3f];;
         print []
       else ret tt);;
      print [Str rule]
  end.

(** The [-t/--type] choices. *)
Inductive Mode : Type := convergence | error | summary.

(** The parsed command line. *)
Record Args : Type := {
  csv_file : string;
  output : option string;
  type : Mode;
  no_display : bool
}.

(** [main()], after argument parsing. *)
Definition main (args : Args) : M unit :=
  (if negb (path_exists fs (csv_file args)) then
     print (msg_not_found (csv_file args));;
     raise (SystemExit 1)
   else ret tt);;
  match type args with
  | convergence => plot_convergence (csv_file args) (output args)
  | error => plot_error_analysis (csv_file args) (output args)
  | summary => create_summary_report (csv_file args)
  end;;
  if is_set (output args) && negb (no_display args) then
    print [Str nl; Str "Plot saved to: "; Str (str_of (output args))];;
    print [Str "You can also view it with: display"; Str " ";
           Str (str_of (output args))]
  else ret tt.

End Program.

(** Exit status of the process: zero on normal return, the code given to
    [sys.exit], one after an uncaught exception. *)
Definition exit_status (A : Type) (r : result A) : Z :=
  match r with
  | Returned _ => 0
  | Raised (SystemExit c) => c
  | Raised _ => 1
  end.

(** Running the script from a fresh process. *)
Definition run (fs : FileSystem) (args : Args) : Z * World :=
  let (r, w) := main fs args empty_world in (exit_status r, w).

(* ===================================================================== *)
(** ** Efficiency and statistics in IEEE binary64 *)
(* ===================================================================== *)

Module Binary64.

Local Open Scope float_scope.

(** Conversion of an integer column to float64 (exact below 2^53). *)
Definition of_int64 (n : Z) : float :=
  if (n <? 0)%Z then - of_uint63 (Uint63.of_Z (- n))
  else of_uint63 (Uint63.of_Z n).

(** The double nearest to 0.1, which is what parsing the text 0.1 gives. *)
Definition one_tenth : float := 0x1.999999999999ap-4.

(** One entry of [1.0 / (df['Sample_Count'] * df['Error']**2)]; numpy
    evaluates the square as [error * error]. *)
Definition efficiency (sample_count : Z) (error : float) : float :=
  1 / (of_int64 sample_count * (error * error)).

(** Sum of a short column, accumulated from left to right.  Float addition
    is commutative, so on a column of three equal values every order of
    summation gives this result. *)
Definition fsum (l : list float) : float := fold_left PrimFloat.add l 0.

(** [Series.mean()]: pandas divides the sum by the count. *)
Definition mean (l : list float) : float :=
  fsum l / of_int64 (Z.of_nat (List.length l)).

(** [Series.std()], [ddof=1].  pandas computes the variance in two passes,
    [avg = sum / count] and then [sum ((avg - values) ** 2) / (count - ddof)],
    takes its square root, and answers nan when the count does not exceed
    [ddof]. *)
Definition std (l : list float) : float :=
  if (List.length l <=? 1)%nat then nan
  else
    let avg := mean l in
    PrimFloat.sqrt (fsum (map (fun x => (avg - x) * (avg - x)) l)
                    / (of_int64 (Z.of_nat (List.length l)) - 1)).

(** [Series.min()] / [Series.max()] of a non-empty column without nan. *)
Definition min (l : list float) : float :=
  match l with
  | [] => nan
  | x :: t => fold_left (fun m y => if y <? m then y else m) t x
  end.

Definition max (l : list float) : float :=
  match l with
  | [] => nan
  | x :: t => fold_left (fun m y => if m <? y then y else m) t x
  end.

(** One entry of [1.0 / np.sqrt(df['Sample_Count'])]. *)
Definition theoretical_error (sample_count : Z) : float :=
  1 / PrimFloat.sqrt (of_int64 sample_count).

(** The double nearest to 1e-162. *)
Definition tiny : float := 0x1.ccb0536608d61p-539.

(** The real number a finite double denotes (zero for the others). *)
Definition value (x : float) : R :=
  match Prim2SF x with
  | S754_finite s m e =>
      let v := if (0 <=? e)%Z then IZR (Zpos m * 2 ^ e)
               else (IZR (Zpos m) / IZR (2 ^ (- e)))%R in
      if s then (- v)%R else v
  | _ => 0%R
  end.

End Binary64.

(* ===================================================================== *)
(** ** Vocabulary of the specification *)
(* ===================================================================== *)

(** An Observation Series: positive sample counts in increasing order. *)
Record ObservationSeries (df : DataFrame) : Prop := {
  counts_positive : Forall (fun o => (0 < Sample_Count o)%Z) df;
  counts_increasing : StronglySorted Z.lt (counts df)
}.

Definition errors_positive (df : DataFrame) : Prop :=
  Forall (fun o => (0 < Error o)%R) df.

(** Sample counts that float64 holds exactly: at most 2^53 in magnitude. *)
Definition counts_exact_in_float64 (df : DataFrame) : Prop :=
  Forall (fun o => (Z.abs (Sample_Count o) <= 2 ^ 53)%Z) df.

(** Data on which the fit is defined: positive counts, not all of them
    one, and positive errors.  The logarithms are then finite and the
    abscissae not all zero. *)
Definition fit_defined (df : DataFrame) : Prop :=
  Forall (fun o => (0 < Sample_Count o)%Z) df /\
  errors_positive df /\
  Exists (fun o => Sample_Count o <> 1%Z) df.

(** Tables that [plot_error_analysis] and [create_summary_report] take to
    their end: at least one row, counts that fit a 64-bit integer column
    and, from two rows on, data on which the fit is defined. *)
Definition analysable (df : DataFrame) : Prop :=
  df <> [] /\
  numeric_column (counts df) = true /\
  ((2 <= List.length df)%nat -> fit_defined df).

(** The regression data: ln(error) as a function of ln(sample_count). *)
Definition log_log_points (df : DataFrame) : points :=
  map (fun o => (ln (IZR (Sample_Count o)), ln (Error o))) df.

(** The line [y = a x + b] is an ordinary-least-squares fit of the points:
    no line has a smaller sum of squared residuals. *)
Definition least_squares_line (p : points) (a b : R) : Prop :=
  forall a' b' : R, (ssr p a b <= ssr p a' b')%R.

(** Descriptive statistics, as the specification words them. *)
Definition is_minimum (l : list R) (m : R) : Prop :=
  In m l /\ forall x, In x l -> (m <= x)%R.

Definition is_maximum (l : list R) (m : R) : Prop :=
  In m l /\ forall x, In x l -> (x <= m)%R.

Definition is_mean (l : list R) (m : R) : Prop :=
  (m * INR (List.length l) = sum l)%R.

(** Sample standard deviation: the non-negative root of the squared
    deviations from the mean divided by [n - 1]. *)
Definition is_sample_std (l : list R) (s : R) : Prop :=
  (0 <= s)%R /\
  exists m, is_mean l m /\
    (s * s * (INR (List.length l) - 1) = sum (map (fun x => sq (x - m)) l))%R.

(* ===================================================================== *)
(** ** Expected output *)
(* ===================================================================== *)

(** Sub-plot number [k] (counted from 1, as [plt.subplot] does). *)
Definition subplot (k : nat) (fig : Figure) : option Panel :=
  nth_error (panels fig) (k - 1).

(** The lines of the summary report up to the convergence section. *)
Definition report_head (csv_file : string) (df : DataFrame)
  (final_estimate final_error : R) : list Line :=
  [ [Str (nl ++ rule)];
    [Str "MONTE CARLO π ESTIMATION SUMMARY REPORT"];
    [Str rule];
    [Str "File: "; Str csv_file];
    [Str "Total data points: "; Int (Z.of_nat (List.length df))];
    [Str "Sample range: "; Val (col_min (map IZR (counts df))) Fmt_comma;
     Str " to "; Val (col_max (map IZR (counts df))) Fmt_comma];
    [];
    [Str "FINAL RESULTS:"];
    [Str "  Estimated π: "; Val (Fin final_estimate) Fmt_10f];
    [Str "  Actual π:    "; Val (Fin np_pi) Fmt_10f];
    [Str "  Absolute Error: "; Val (Fin final_error) Fmt_2e];
    [Str "  Relative Error: "; Val (Fin (final_error / np_pi * 100)%R) Fmt_6f;
     Str "%"];
    [];
    [Str "ERROR STATISTICS:"];
    [Str "  Minimum Error: "; Val (col_min (errors df)) Fmt_2e];
    [Str "  Maximum Error: "; Val (col_max (errors df)) Fmt_2e];
    [Str "  Mean Error:    "; Val (col_mean (errors df)) Fmt_2e];
    [Str "  Std Deviation: "; Val (col_std (errors df)) Fmt_2e];
    [];
    [Str "ESTIMATE STATISTICS:"];
    [Str "  Minimum Estimate: "; Val (col_min (estimates df)) Fmt_10f];
    [Str "  Maximum Estimate: "; Val (col_max (estimates df)) Fmt_10f];
    [Str "  Mean Estimate:    "; Val (col_mean (estimates df)) Fmt_10f];
    [Str "  Std Deviation:    "; Val (col_std (estimates df)) Fmt_10f];
    [] ]%string.

(** The CONVERGENCE ANALYSIS section for a given rate. *)
Definition report_convergence (convergence_rate : npfloat) : list Line :=
  [ [Str "CONVERGENCE ANALYSIS:"];
    [Str "  Convergence Rate: "; Val convergence_rate Fmt_3f];
    [Str "  Theoretical Rate: 0.500 (Monte Carlo)"];
    [Str "  Rate Ratio: "; Val (np_div_pos convergence_rate 0.5) Fmt_3f];
    [] ]%string.

(** The sub-plot of the convergence-rate analysis for given coefficients. *)
Definition rate_panel (df : DataFrame) (coeffs : npfloat * npfloat) : Panel :=
  {| title := [Str "Convergence Rate Analysis"; Str nl; Str "Rate: ";
               Val (np_neg (fst coeffs)) Fmt_3f];
     artists :=
       [Scatter (log_samples df) (log_errors df);
        Plot (log_samples df)
             (map (polyval [fst coeffs; snd coeffs]) (log_samples df))
             [Str "Slope: "; Val (np_neg (fst coeffs)) Fmt_3f]] |}%string.

(** A sub-plot in which nothing was drawn. *)
Definition empty_panel : Panel := {| title := []; artists := [] |}.

(** The placeholder drawn instead of the histogram. *)
Definition histogram_placeholder : Panel :=
  {| title := [Str "Distribution of π Estimates"];
     artists := [AxesText [[Str "Not enough data points"];
                           [Str "for histogram"]]] |}%string.

(** The two lines [main] prints after the dispatch when an output file is
    given and display is not suppressed. *)
Definition trailer (args : Args) : list Line :=
  (if is_set (output args) && negb (no_display args)
  then [ [Str nl; Str "Plot saved to: "; Str (str_of (output args))];
         [Str "You can also view it with: display"; Str " ";
          Str (str_of (output args))] ]
  else [])%string.

(** Where a figure goes: saved under the output name when there is one,
    shown otherwise. *)
Definition routed (out : option string) (fig : Figure) : Action :=
  if is_set out then SaveFig (str_of out) fig else Show fig.

(** The first sub-plot of the figure of [plot_convergence]. *)
Definition convergence_panel (df : DataFrame) : Panel :=
  {| title := [Str "Monte Carlo π Convergence"];
     artists := [Semilogx (counts df) (map Fin (estimates df))
                          [Str "Estimated π"];
                 Axhline np_pi [Str "Actual π"]] |}%string.

(** The first sub-plot of the figure of [plot_error_analysis]. *)
Definition error_panel (df : DataFrame) : Panel :=
  {| title := [Str "Error Convergence Analysis"];
     artists := [Semilogx (counts df) (map Fin (errors df))
                          [Str "Absolute Error"];
                 Semilogx (counts df) (theoretical_error df)
                          [Str "Theoretical Bound (1/√n)"]] |}%string.

(** The selected output of a run on the table [df], and nothing else: in
    convergence mode the 12 x 8 figure of four sub-plots that opens with
    the convergence curve, in error mode the 15 x 10 figure of six
    sub-plots that opens with the error curve and its bound, either of
    them saved under the output name or shown; in summary mode no figure
    and the report, from its title to its closing rule, followed only by
    the closing lines of [main]. *)
Definition selected_output_produced (args : Args) (df : DataFrame)
  (w : World) : Prop :=
  match type args with
  | convergence =>
      exists fig,
        display w = [routed (output args) fig] /\
        figsize fig = (12, 8)%Z /\ List.length (panels fig) = 4%nat /\
        subplot 1 fig = Some (convergence_panel df)
  | error =>
      exists fig,
        display w = [routed (output args) fig] /\
        figsize fig = (15, 10)%Z /\ List.length (panels fig) = 6%nat /\
        subplot 1 fig = Some (error_panel df)
  | summary =>
      display w = [] /\
      exists final_estimate final_error convergence_section,
        stdout w =
          report_head (csv_file args) df final_estimate final_error
          ++ convergence_section ++ [[Str rule]] ++ trailer args
  end.

(** [np.log(df['Sample_Count'])] with the conversion of the counts to
    float64 made explicit; the logarithm is still the exact one. *)
Definition log_samples_of_doubles (df : DataFrame) : list npfloat :=
  map (fun n => np_log (Binary64.value (Binary64.of_int64 n))) (counts df).

(* ===================================================================== *)
(** ** Sample inputs *)
(* ===================================================================== *)

(** Two rows whose errors follow [1 / sqrt n]. *)
Definition sample_rows : DataFrame :=
  [ {| Sample_Count := 10; Pi_Estimate := 3; Error := 1 / sqrt 10 |};
    {| Sample_Count := 100; Pi_Estimate := 3.1; Error := 1 / sqrt 100 |} ]%R.

(** A file system in which every path is in the given state. *)
Definition sample_files (state : FileState) : FileSystem := fun _ => state.

(** Two rows that repeat one estimate and one error. *)
Definition repeated_rows : DataFrame :=
  [ {| Sample_Count := 10; Pi_Estimate := 3; Error := 0.5 |};
    {| Sample_Count := 100; Pi_Estimate := 3; Error := 0.5 |} ]%R.

(** A command line on the file [results.csv], without output file. *)
Definition sample_args (m : Mode) : Args :=
  {| csv_file := "results.csv"; output := None; type := m;
     no_display := false |}.

(** A single row. *)
Definition single_row : DataFrame :=
  [ {| Sample_Count := 10; Pi_Estimate := 3; Error := 0.5 |} ]%R.

(** A valid row followed by a row whose error is zero. *)
Definition zero_error_rows : DataFrame :=
  [ {| Sample_Count := 10; Pi_Estimate := 3; Error := 0.5 |};
    {| Sample_Count := 100; Pi_Estimate := 3.25; Error := 0 |} ]%R.


(** Two rows of doubles whose errors are exactly [1 / sqrt n]. *)
Definition square_rows : DataFrame :=
  [ {| Sample_Count := 4; Pi_Estimate := 3; Error := 0.5 |};
    {| Sample_Count := 16; Pi_Estimate := 3.25; Error := 0.25 |} ]%R.

(** Two neighbouring counts above 2^53, with one error. *)
Definition adjacent_large_rows (error : R) : DataFrame :=
  [ {| Sample_Count := 2 ^ 53; Pi_Estimate := 3; Error := error |};
    {| Sample_Count := 2 ^ 53 + 1; Pi_Estimate := 3; Error := error |} ].

(** A row whose count fits no 64-bit integer type. *)
Definition oversized_row : DataFrame :=
  [ {| Sample_Count := 2 ^ 64; Pi_Estimate := 3; Error := 0.5 |} ]%R.

(* ===================================================================== *)
(** ** Further vocabulary *)
(* ===================================================================== *)

(** The command line with the [--no-display] flag set to [b]. *)
Definition with_no_display (b : bool) (args : Args) : Args :=
  {| csv_file := csv_file args; output := output args; type := type args;
     no_display := b |}.

(** The table with every error multiplied by [k]. *)
Definition scale_errors (k : R) (df : DataFrame) : DataFrame :=
  map (fun o => {| Sample_Count := Sample_Count o;
                   Pi_Estimate := Pi_Estimate o;
                   Error := (k * Error o)%R |}) df.

(** The computation ends with [r] after appending [lines] to stdout and
    [acts] to the display, whatever was emitted before. *)
Definition emits {A : Type} (m : M A) (r : result A) (lines : list Line)
  (acts : list Action) : Prop :=
  forall w, m w = (r, {| stdout := stdout w ++ lines;
                         display := display w ++ acts |}).

(** The text box of the fifth sub-plot of [plot_error_analysis]. *)
Definition stats_panel (df : DataFrame)
  (final_estimate final_error final_rel_error : R) : Panel :=
  {| title := [Str "Statistical Summary"];
     artists :=
       [AxesText
          [ [];
            [Str "    Statistical Summary:"];
            [Str "    "];
            [Str "    Final Estimate: "; Val (Fin final_estimate) Fmt_10f];
            [Str "    Actual π: "; Val (Fin np_pi) Fmt_10f];
            [Str "    Final Error: "; Val (Fin final_error) Fmt_2e];
            [Str "    Final Rel. Error: "; Val (Fin final_rel_error) Fmt_6f;
             Str "%"];
            [Str "    "];
            [Str "    Min Error: "; Val (col_min (errors df)) Fmt_2e];
            [Str "    Max Error: "; Val (col_max (errors df)) Fmt_2e];
            [Str "    Mean Error: "; Val (col_mean (errors df)) Fmt_2e];
            [Str "    Std Error: "; Val (col_std (errors df)) Fmt_2e];
            [Str "    "] ]] |}%string.

(** Cross products of the deviations: [n Sxy - Sx Sy]. *)
Definition cov (p : points) : R := (npts p * Sxy p - Sx p * Sy p)%R.

(** Points whose ordinate falls whenever the abscissa grows. *)
Definition falling (p : points) : Prop :=
  forall q r, In q p -> In r p -> (fst q < fst r)%R -> (snd r < snd q)%R.

(** How far the fitted slope moves, at most, when every ordinate moves by
    one unit: [sum |n x_i - Sx| / det]. *)
Definition slope_sensitivity (p : points) : R :=
  (sum (map (fun q => Rabs (npts p * fst q - Sx p)) p) / det p)%R.

(** Five rows on the decades from 10 to 100000, with the given errors. *)
Definition decade_rows (e1 e2 e3 e4 e5 : R) : DataFrame :=
  [ {| Sample_Count := 10; Pi_Estimate := 3; Error := e1 |};
    {| Sample_Count := 100; Pi_Estimate := 3; Error := e2 |};
    {| Sample_Count := 1000; Pi_Estimate := 3; Error := e3 |};
    {| Sample_Count := 10000; Pi_Estimate := 3; Error := e4 |};
    {| Sample_Count := 100000; Pi_Estimate := 3; Error := e5 |} ].

(** The decades with, for each count [n], the double nearest to
    [1 / sqrt n]. *)
Definition nearest_inverse_sqrt_rows : DataFrame :=
  decade_rows (5696652996790543 / 18014398509481984)
              (3602879701896397 / 36028797018963968)
              (2278661198716217 / 72057594037927936)
              (5764607523034235 / 576460752303423488)
              (3645857917945947 / 1152921504606846976)%R.

(* ===================================================================== *)
(** ** Least squares: the normal equations minimise the residuals *)
(* ===================================================================== *)

Unset Implicit Arguments.

Section LeastSquares.

Local Open Scope R_scope.

Lemma sum_cons (x : R) (l : list R) : sum (x :: l) = x + sum l.
Proof. reflexivity. Qed.

Lemma npts_cons (q : R * R) (p : points) : npts (q :: p) = npts p + 1.
Proof. unfold npts. simpl List.length. now rewrite S_INR. Qed.

Lemma npts_nonneg (p : points) : 0 <= npts p.
Proof. unfold npts. apply pos_INR. Qed.

Lemma sum_sq_nonneg {A : Type} (f : A -> R) (l : list A) :
  0 <= sum (map (fun x => sq (f x)) l).
Proof.
  induction l as [|x l IH]; simpl.
  - lra.
  - unfold sq at 1. nra.
Qed.

Lemma sum_sq_pos {A : Type} (f : A -> R) (l : list A) (x : A) :
  In x l -> f x <> 0 -> 0 < sum (map (fun x => sq (f x)) l).
Proof.
  induction l as [|y l IH]; simpl; intros Hin Hx.
  - contradiction.
  - pose proof (sum_sq_nonneg f l) as Hl.
    destruct Hin as [-> | Hin].
    + unfold sq at 1. nra.
    + specialize (IH Hin Hx). unfold sq at 1. nra.
Qed.

(** The residual sum is a quadratic form in the two coefficients. *)
Lemma ssr_expand (p : points) (a b : R) :
  ssr p a b =
  Syy p - 2 * a * Sxy p - 2 * b * Sy p
  + a * a * Sxx p + 2 * a * b * Sx p + npts p * (b * b).
Proof.
  induction p as [|[x y] p IH].
  - unfold ssr, Syy, Sxy, Sy, Sxx, Sx, npts. simpl. ring.
  - rewrite npts_cons.
    unfold ssr, Syy, Sxy, Sy, Sxx, Sx in *. simpl map. rewrite !sum_cons.
    rewrite IH. unfold sq. simpl fst. simpl snd. ring.
Qed.

Lemma ssr_nonneg (p : points) (a b : R) : 0 <= ssr p a b.
Proof.
  unfold ssr. apply (sum_sq_nonneg (fun q : R * R => snd q - (a * fst q + b))).
Qed.

(** Adding a point grows the determinant by the squared distances of its
    abscissa to the others. *)
Lemma det_cons (q : R * R) (p : points) :
  det (q :: p) = det p + sum (map (fun r => sq (fst r - fst q)) p).
Proof.
  assert (E : sum (map (fun r : R * R => sq (fst r - fst q)) p) =
              Sxx p - 2 * fst q * Sx p + npts p * (fst q * fst q)).
  { induction p as [|r p IH].
    - unfold Sxx, Sx, npts. simpl. ring.
    - rewrite npts_cons. unfold Sxx, Sx in *. simpl map. rewrite !sum_cons.
      rewrite IH. unfold sq. ring. }
  rewrite E. unfold det. rewrite npts_cons.
  unfold Sxx, Sx. simpl map. rewrite !sum_cons. ring.
Qed.

Lemma det_nonneg (p : points) : 0 <= det p.
Proof.
  induction p as [|q p IH].
  - unfold det, Sxx, Sx, npts. simpl. lra.
  - rewrite det_cons.
    pose proof (sum_sq_nonneg (fun r : R * R => fst r - fst q) p). lra.
Qed.

(** Two different abscissae make the system full rank. *)
Lemma det_pos (p : points) (q r : R * R) :
  In q p -> In r p -> fst q <> fst r -> 0 < det p.
Proof.
  destruct p as [|h p]; [contradiction|].
  intros Hq Hr Hne. rewrite det_cons.
  pose proof (det_nonneg p) as Hd.
  assert (Hex : exists s, In s p /\ fst s - fst h <> 0).
  { destruct (Req_dec_T (fst q) (fst h)) as [Eq | Nq].
    - destruct Hr as [<- | Hr]; [congruence|].
      exists r. split; [exact Hr|]. rewrite <- Eq. lra.
    - destruct Hq as [<- | Hq]; [congruence|].
      exists q. split; [exact Hq|]. lra. }
  destruct Hex as (s & Hs & Hne').
  pose proof (sum_sq_pos (fun r : R * R => fst r - fst h) p s Hs Hne'). lra.
Qed.

Lemma det_pos_npts (p : points) : 0 < det p -> 0 < npts p.
Proof.
  destruct p as [|q p].
  - unfold det, Sxx, Sx, npts. simpl. lra.
  - intros _. rewrite npts_cons. pose proof (npts_nonneg p). lra.
Qed.

Lemma det_pos_Sxx (p : points) : 0 < det p -> 0 < Sxx p.
Proof.
  intros Hd. pose proof (det_pos_npts p Hd) as Hn.
  unfold det in Hd. nra.
Qed.

(** The coefficients returned for a full-rank system satisfy both normal
    equations. *)
Lemma normal_equations_sound (p : points) :
  0 < det p ->
  let c := normal_equations p in
  fst c * Sxx p + snd c * Sx p = Sxy p /\
  fst c * Sx p + snd c * npts p = Sy p.
Proof.
  intros Hd. pose proof (det_pos_npts p Hd) as Hn.
  unfold normal_equations. simpl.
  set (a := (npts p * Sxy p - Sx p * Sy p) / det p).
  assert (Ha : a * det p = npts p * Sxy p - Sx p * Sy p).
  { unfold a. field. lra. }
  split.
  - unfold det in Ha.
    apply Rmult_eq_reg_l with (npts p); [|lra].
    replace (npts p * (a * Sxx p + (Sy p - a * Sx p) / npts p * Sx p))
      with (a * (npts p * Sxx p - Sx p * Sx p) + Sx p * Sy p) by (field; lra).
    rewrite Ha. ring.
  - field. lra.
Qed.

(** Distance of any line to the fitted one, in residual terms. *)
Lemma ssr_gap (p : points) (a b : R) :
  0 < det p ->
  let c := normal_equations p in
  ssr p a b - ssr p (fst c) (snd c) =
  Sxx p * sq (a - fst c) + 2 * Sx p * (a - fst c) * (b - snd c)
  + npts p * sq (b - snd c).
Proof.
  intros Hd c. destruct (normal_equations_sound p Hd) as [E1 E2].
  fold c in E1, E2. rewrite !ssr_expand, <- E1, <- E2. unfold sq. ring.
Qed.

Lemma quadratic_gap (n sx sxx da db : R) :
  0 < n -> 0 < n * sxx - sx * sx ->
  0 <= sxx * sq da + 2 * sx * da * db + n * sq db /\
  (sxx * sq da + 2 * sx * da * db + n * sq db <= 0 -> da = 0 /\ db = 0).
Proof.
  intros Hn Hd. unfold sq.
  assert (E : n * (sxx * (da * da) + 2 * sx * da * db + n * (db * db)) =
              (n * db + sx * da) * (n * db + sx * da)
              + (n * sxx - sx * sx) * (da * da)) by ring.
  set (Q := sxx * (da * da) + 2 * sx * da * db + n * (db * db)) in *.
  set (A := (n * db + sx * da) * (n * db + sx * da)) in *.
  assert (H0 : 0 <= da * da) by apply Rle_0_sqr.
  assert (H1 : 0 <= A) by apply Rle_0_sqr.
  assert (H2 : 0 <= (n * sxx - sx * sx) * (da * da))
    by (apply Rmult_le_pos; lra).
  assert (HQ : 0 <= Q).
  { apply Rmult_le_reg_l with n; [exact Hn|]. rewrite E. lra. }
  split; [exact HQ|].
  intros Hle.
  assert (HQ0 : Q = 0) by lra.
  rewrite HQ0, Rmult_0_r in E.
  assert (Hz : (n * sxx - sx * sx) * (da * da) = 0) by lra.
  assert (HA : A = 0) by lra.
  apply Rmult_integral in Hz. destruct Hz as [Hz | Hz]; [lra|].
  assert (Hda : da = 0).
  { apply Rmult_integral in Hz. now destruct Hz. }
  split; [exact Hda|].
  unfold A in HA. apply Rmult_integral in HA.
  assert (Hdb : n * db + sx * da = 0) by (now destruct HA).
  rewrite Hda, Rmult_0_r, Rplus_0_r in Hdb.
  apply Rmult_integral in Hdb. destruct Hdb; lra.
Qed.

(** The fitted line minimises the sum of squared residuals... *)
Lemma normal_equations_minimal (p : points) (a b : R) :
  0 < det p ->
  ssr p (fst (normal_equations p)) (snd (normal_equations p)) <= ssr p a b.
Proof.
  intros Hd. pose proof (ssr_gap p a b Hd) as G. cbv zeta in G.
  destruct (quadratic_gap (npts p) (Sx p) (Sxx p)
              (a - fst (normal_equations p)) (b - snd (normal_equations p))
              (det_pos_npts p Hd) Hd) as [Hq _].
  lra.
Qed.

(** ... and is the only line that does. *)
Lemma normal_equations_unique (p : points) (a b : R) :
  0 < det p ->
  ssr p a b <= ssr p (fst (normal_equations p)) (snd (normal_equations p)) ->
  a = fst (normal_equations p) /\ b = snd (normal_equations p).
Proof.
  intros Hd Hle. pose proof (ssr_gap p a b Hd) as G. cbv zeta in G.
  destruct (quadratic_gap (npts p) (Sx p) (Sxx p)
              (a - fst (normal_equations p)) (b - snd (normal_equations p))
              (det_pos_npts p Hd) Hd) as [_ Hq].
  destruct Hq as [H1 H2]; [lra|]. split; lra.
Qed.

End LeastSquares.

(* ===================================================================== *)
(** ** The regression as the script runs it *)
(* ===================================================================== *)

Section Regression.

Local Open Scope R_scope.

Lemma all_finite_Fin (l : list R) : all_finite (map Fin l) = Some l.
Proof.
  induction l as [|x l IH]; simpl.
  - reflexivity.
  - now rewrite IH.
Qed.

Lemma combine_map_map {A : Type} (f g : A -> R) (l : list A) :
  combine (map f l) (map g l) = map (fun x => (f x, g x)) l.
Proof.
  induction l as [|x l IH]; simpl; [reflexivity | now rewrite IH].
Qed.

Lemma np_log_pos (x : R) : 0 < x -> np_log x = Fin (ln x).
Proof.
  intros Hx. unfold np_log. destruct (Rlt_dec 0 x); [reflexivity | contradiction].
Qed.


(** With positive sample counts every [np.log(Sample_Count)] is finite. *)
Lemma log_samples_finite (df : DataFrame) :
  Forall (fun o => (0 < Sample_Count o)%Z) df ->
  log_samples df = map Fin (map (fun o => ln (IZR (Sample_Count o))) df).
Proof.
  unfold log_samples, counts. rewrite !map_map.
  induction 1 as [|o df Ho _ IH]; simpl; [reflexivity|].
  rewrite IH, np_log_pos; [reflexivity|]. now apply IZR_lt.
Qed.

(** With positive errors every [np.log(Error)] is finite. *)
Lemma log_errors_finite (df : DataFrame) :
  errors_positive df ->
  log_errors df = map Fin (map (fun o => ln (Error o)) df).
Proof.
  unfold log_errors, errors, errors_positive. rewrite !map_map.
  induction 1 as [|o df Ho _ IH]; simpl; [reflexivity|].
  now rewrite IH, np_log_pos.
Qed.

(** Two rows whose sample counts differ give two different abscissae. *)
Lemma log_log_det_pos (df : DataFrame) (o1 o2 : Observation) :
  Forall (fun o => (0 < Sample_Count o)%Z) df ->
  In o1 df -> In o2 df -> Sample_Count o1 <> Sample_Count o2 ->
  0 < det (log_log_points df).
Proof.
  intros Hpos H1 H2 Hne.
  rewrite Forall_forall in Hpos.
  apply det_pos with
    (q := (ln (IZR (Sample_Count o1)), ln (Error o1)))
    (r := (ln (IZR (Sample_Count o2)), ln (Error o2))).
  - unfold log_log_points.
    apply (in_map (fun o => (ln (IZR (Sample_Count o)), ln (Error o)))), H1.
  - unfold log_log_points.
    apply (in_map (fun o => (ln (IZR (Sample_Count o)), ln (Error o)))), H2.
  - simpl. intros E. apply Hne, eq_IZR.
    apply ln_inv; [apply IZR_lt, Hpos, H1 | apply IZR_lt, Hpos, H2 | exact E].
Qed.

(** In an Observation Series of two rows or more, the first two sample
    counts differ. *)
Lemma series_two_counts (df : DataFrame) :
  ObservationSeries df -> (2 <= List.length df)%nat ->
  exists o1 o2, In o1 df /\ In o2 df /\ Sample_Count o1 <> Sample_Count o2.
Proof.
  intros [_ Hs] Hlen.
  destruct df as [|o1 [|o2 df]]; simpl in Hlen; try lia.
  exists o1, o2. repeat split; simpl; auto.
  unfold counts in Hs. simpl in Hs.
  inversion Hs as [|? ? _ Hall]; subst.
  inversion Hall; subst. lia.
Qed.


(** [np.polyfit] on finite columns: past the emptiness check. *)
Lemma polyfit1_finite (xs : list R) (y : list npfloat) :
  xs <> [] ->
  polyfit1 (map Fin xs) y =
  if Req_dec_T (sum (map sq xs)) 0 then Raised LinAlgError
  else
    match all_finite y with
    | None => Returned (NaN, NaN)
    | Some ys =>
        if Req_dec_T (det (combine xs ys)) 0 then
          Returned (Fin (Sy (combine xs ys) / npts (combine xs ys)
                         / (2 * (Sx (combine xs ys) / npts (combine xs ys)))),
                    Fin (Sy (combine xs ys) / npts (combine xs ys) / 2))
        else
          Returned (Fin (fst (normal_equations (combine xs ys))),
                    Fin (snd (normal_equations (combine xs ys))))
    end.
Proof.
  intros Hne. unfold polyfit1.
  remember (map Fin xs) as X eqn:EX.
  destruct X as [|v X].
  - destruct xs; [contradiction | discriminate].
  - rewrite EX, all_finite_Fin. reflexivity.
Qed.

Lemma log_log_Sxx (df : DataFrame) :
  sum (map sq (map (fun o => ln (IZR (Sample_Count o))) df)) =
  Sxx (log_log_points df).
Proof. unfold Sxx, log_log_points. rewrite !map_map. reflexivity. Qed.

(** On positive data with two different sample counts, [np.polyfit]
    returns the solution of the normal equations of the log-log points. *)
Lemma polyfit1_log_log (df : DataFrame) (o1 o2 : Observation) :
  Forall (fun o => (0 < Sample_Count o)%Z) df ->
  errors_positive df ->
  In o1 df -> In o2 df -> Sample_Count o1 <> Sample_Count o2 ->
  polyfit1 (log_samples df) (log_errors df) =
  Returned (Fin (fst (normal_equations (log_log_points df))),
            Fin (snd (normal_equations (log_log_points df)))).
Proof.
  intros Hpos Herr H1 H2 Hne.
  pose proof (log_log_det_pos df o1 o2 Hpos H1 H2 Hne) as Hd.
  pose proof (det_pos_Sxx _ Hd) as Hxx.
  rewrite (log_samples_finite df Hpos), (log_errors_finite df Herr).
  rewrite polyfit1_finite by (destruct df; [contradiction | discriminate]).
  rewrite all_finite_Fin, combine_map_map, log_log_Sxx.
  fold (log_log_points df).
  destruct (Req_dec_T (Sxx (log_log_points df)) 0) as [E | _]; [lra|].
  destruct (Req_dec_T (det (log_log_points df)) 0) as [E | _]; [lra|].
  reflexivity.
Qed.

End Regression.

(* ===================================================================== *)
(** ** What the three functions emit on a loaded table *)
(* ===================================================================== *)

Section Emitted.

Local Open Scope string_scope.
Local Open Scope list_scope.

Variable fs : FileSystem.

(** Running the monad without touching the data.  The projections of the
    world are reduced along the way, which keeps the term linear in the
    number of prints. *)
Ltac run_monad :=
  cbv beta iota zeta delta [bind lift print emit ret raise stdout display].

Ltac read_world :=
  cbv beta iota delta [stdout display].

(** [plot_convergence] on a table: one figure with four sub-plots, shown
    or saved; nothing can raise. *)
Lemma plot_convergence_table (csv_file : string) (out : option string)
  (df : DataFrame) (w : World) :
  fs csv_file = Table df ->
  exists w' fig,
    plot_convergence fs csv_file out w = (Returned tt, w') /\
    display w' =
      display w ++ [if is_set out then SaveFig (str_of out) fig else Show fig] /\
    stdout w' =
      stdout w ++ (if is_set out
                   then [[Str "Plot saved to "; Str (str_of out)]] else []) /\
    List.length (panels fig) = 4%nat /\
    subplot 3 fig =
      Some {| title := [Str "Relative Error vs Sample Count"];
              artists := [Semilogx (counts df)
                                   (map Fin (relative_error df)) []] |} /\
    subplot 4 fig =
      Some (if (10 <? List.length df)%nat
            then {| title := [Str "Distribution of π Estimates"];
                    artists := [Hist (estimates df)
                                     (Z.min 20 (Z.of_nat (List.length df) / 5));
                                Axvline np_pi [Str "Actual π"]] |}
            else {| title := [Str "Distribution of π Estimates"];
                    artists := [AxesText [[Str "Not enough data points"];
                                          [Str "for histogram"]]] |}) /\
    figsize fig = (12, 8)%Z /\
    subplot 1 fig = Some (convergence_panel df).
Proof.
  intros Hfs. unfold plot_convergence, read_csv. rewrite Hfs.
  destruct (is_set out); run_monad.
  - do 2 eexists. split; [reflexivity|]. read_world.
    repeat split; reflexivity.
  - do 2 eexists. split; [reflexivity|]. read_world.
    repeat split; try reflexivity. now rewrite app_nil_r.
Qed.

(** [plot_error_analysis] on a non-empty table with a numeric count column
    for which the fit, when it is attempted, returns coefficients: one
    figure with six sub-plots. *)
Lemma plot_error_analysis_table (csv_file : string) (out : option string)
  (df : DataFrame) (c : npfloat * npfloat) (w : World) :
  fs csv_file = Table df ->
  df <> [] ->
  numeric_column (counts df) = true ->
  ((1 <? List.length df)%nat = true ->
   polyfit1 (log_samples df) (log_errors df) = Returned c) ->
  exists w' fig,
    plot_error_analysis fs csv_file out w = (Returned tt, w') /\
    display w' =
      display w ++ [if is_set out then SaveFig (str_of out) fig else Show fig] /\
    stdout w' =
      stdout w ++ (if is_set out
                   then [[Str "Error analysis plot saved to ";
                          Str (str_of out)]] else []) /\
    List.length (panels fig) = 6%nat /\
    subplot 2 fig =
      Some {| title := [Str "Relative Error"];
              artists := [Semilogx (counts df)
                                   (map Fin (relative_error df)) []] |} /\
    subplot 4 fig =
      Some (if (1 <? List.length df)%nat then rate_panel df c else empty_panel) /\
    subplot 6 fig =
      Some {| title := [Str "Sample Efficiency"];
              artists := [Semilogx (counts df) (efficiency df) []] |} /\
    figsize fig = (15, 10)%Z /\
    subplot 1 fig = Some (error_panel df).
Proof.
  intros Hfs Hne Hnum Hfit. unfold plot_error_analysis, read_csv. rewrite Hfs.
  destruct df as [|o df]; [contradiction|].
  assert (Hest : iloc_last (estimates (o :: df)) =
                 Returned (last (estimates df) (Pi_Estimate o))) by reflexivity.
  assert (Herr : iloc_last (errors (o :: df)) =
                 Returned (last (errors df) (Error o))) by reflexivity.
  assert (Hrel : iloc_last (relative_error (o :: df)) =
                 Returned (last (relative_error df)
                             (Error o / np_pi * 100)%R)) by reflexivity.
  unfold ufunc_on_counts. rewrite Hnum.
  destruct (1 <? List.length (o :: df))%nat eqn:Hlen.
  - run_monad. rewrite (Hfit eq_refl), Hest, Herr, Hrel.
    destruct (is_set out); run_monad.
    + do 2 eexists. split; [reflexivity|]. read_world.
      repeat split; reflexivity.
    + do 2 eexists. split; [reflexivity|]. read_world.
      repeat split; try reflexivity. now rewrite app_nil_r.
  - rewrite Hest, Herr, Hrel.
    destruct (is_set out); run_monad.
    + do 2 eexists. split; [reflexivity|]. read_world.
      repeat split; reflexivity.
    + do 2 eexists. split; [reflexivity|]. read_world.
      repeat split; try reflexivity. now rewrite app_nil_r.
Qed.

(** [plot_error_analysis] on a table whose count column is not numeric:
    [np.sqrt] raises before anything is printed or drawn. *)
Lemma plot_error_analysis_objects (csv_file : string) (out : option string)
  (df : DataFrame) (w : World) :
  fs csv_file = Table df ->
  numeric_column (counts df) = false ->
  plot_error_analysis fs csv_file out w = (Raised TypeError, w).
Proof.
  intros Hfs Hnum. unfold plot_error_analysis, read_csv. rewrite Hfs.
  unfold ufunc_on_counts. rewrite Hnum. reflexivity.
Qed.

(** [create_summary_report] on a non-empty table: the statistics are
    printed before the fit is attempted, whatever the fit does. *)
Lemma create_summary_report_head (csv_file : string) (df : DataFrame)
  (w : World) :
  fs csv_file = Table df ->
  df <> [] ->
  exists r w' final_estimate final_error rest,
    create_summary_report fs csv_file w = (r, w') /\
    iloc_last (estimates df) = Returned final_estimate /\
    iloc_last (errors df) = Returned final_error /\
    stdout w' =
      stdout w ++ report_head csv_file df final_estimate final_error ++ rest.
Proof.
  intros Hfs Hne. unfold create_summary_report, read_csv. rewrite Hfs.
  destruct df as [|o df]; [contradiction|].
  assert (Hest : iloc_last (estimates (o :: df)) =
                 Returned (last (estimates df) (Pi_Estimate o))) by reflexivity.
  assert (Herr : iloc_last (errors (o :: df)) =
                 Returned (last (errors df) (Error o))) by reflexivity.
  rewrite !Hest, !Herr. unfold ufunc_on_counts.
  destruct (1 <? List.length (o :: df))%nat eqn:Hlen.
  - destruct (numeric_column (counts (o :: df))).
    + run_monad.
      destruct (polyfit1 (log_samples (o :: df)) (log_errors (o :: df)))
        as [c | e] eqn:Hfit; run_monad.
      * do 4 eexists. exists (report_convergence (np_neg (fst c)) ++ [[Str rule]]).
        split; [reflexivity|]. split; [reflexivity|]. split; [reflexivity|].
        read_world. unfold report_head, report_convergence.
        rewrite <- !app_assoc. reflexivity.
      * do 4 eexists. exists []. split; [reflexivity|].
        split; [reflexivity|]. split; [reflexivity|].
        read_world. unfold report_head.
        rewrite <- !app_assoc. reflexivity.
    + run_monad.
      do 4 eexists. exists []. split; [reflexivity|].
      split; [reflexivity|]. split; [reflexivity|].
      read_world. unfold report_head.
      rewrite <- !app_assoc. reflexivity.
  - run_monad.
    do 4 eexists. exists [[Str rule]]. split; [reflexivity|].
    split; [reflexivity|]. split; [reflexivity|].
    read_world. unfold report_head.
    rewrite <- !app_assoc. reflexivity.
Qed.

(** [create_summary_report] on a non-empty table for which the logarithms
    and the fit, when they are attempted, succeed: the complete report. *)
Lemma create_summary_report_table (csv_file : string) (df : DataFrame)
  (c : npfloat * npfloat) (w : World) :
  fs csv_file = Table df ->
  df <> [] ->
  ((1 <? List.length df)%nat = true ->
   numeric_column (counts df) = true /\
   polyfit1 (log_samples df) (log_errors df) = Returned c) ->
  exists w' final_estimate final_error,
    create_summary_report fs csv_file w = (Returned tt, w') /\
    iloc_last (estimates df) = Returned final_estimate /\
    iloc_last (errors df) = Returned final_error /\
    display w' = display w /\
    stdout w' =
      stdout w ++ report_head csv_file df final_estimate final_error
      ++ (if (1 <? List.length df)%nat
          then report_convergence (np_neg (fst c)) else [])
      ++ [[Str rule]].
Proof.
  intros Hfs Hne Hfit. unfold create_summary_report, read_csv. rewrite Hfs.
  destruct df as [|o df]; [contradiction|].
  assert (Hest : iloc_last (estimates (o :: df)) =
                 Returned (last (estimates df) (Pi_Estimate o))) by reflexivity.
  assert (Herr : iloc_last (errors (o :: df)) =
                 Returned (last (errors df) (Error o))) by reflexivity.
  rewrite !Hest, !Herr. unfold ufunc_on_counts.
  destruct (1 <? List.length (o :: df))%nat eqn:Hlen.
  - destruct (Hfit eq_refl) as [Hnum Hc]. rewrite Hnum. run_monad.
    rewrite Hc. run_monad.
    do 3 eexists. split; [reflexivity|].
    split; [reflexivity|]. split; [reflexivity|]. split; [reflexivity|].
    read_world. unfold report_head, report_convergence.
    rewrite <- !app_assoc. reflexivity.
  - run_monad.
    do 3 eexists. split; [reflexivity|].
    split; [reflexivity|]. split; [reflexivity|]. split; [reflexivity|].
    read_world. unfold report_head.
    rewrite <- !app_assoc. reflexivity.
Qed.

End Emitted.

(* ===================================================================== *)
(** ** Descriptive statistics of a column *)
(* ===================================================================== *)

Section Statistics.

Local Open Scope R_scope.

Lemma fold_left_Rmin (l : list R) (a : R) :
  let m := fold_left Rmin l a in
  (m = a \/ In m l) /\ m <= a /\ forall x, In x l -> m <= x.
Proof.
  revert a. induction l as [|y l IH]; intros a; simpl.
  - repeat split; [now left | lra | contradiction].
  - destruct (IH (Rmin a y)) as (Hin & Hle & Hall).
    pose proof (Rmin_l a y). pose proof (Rmin_r a y).
    repeat split.
    + destruct Hin as [E | Hin]; [|now right; right].
      rewrite E. unfold Rmin. destruct (Rle_dec a y); [now left | right; now left].
    + lra.
    + intros x [<- | Hx]; [lra | now apply Hall].
Qed.

Lemma fold_left_Rmax (l : list R) (a : R) :
  let m := fold_left Rmax l a in
  (m = a \/ In m l) /\ a <= m /\ forall x, In x l -> x <= m.
Proof.
  revert a. induction l as [|y l IH]; intros a; simpl.
  - repeat split; [now left | lra | contradiction].
  - destruct (IH (Rmax a y)) as (Hin & Hle & Hall).
    pose proof (Rmax_l a y). pose proof (Rmax_r a y).
    repeat split.
    + destruct Hin as [E | Hin]; [|now right; right].
      rewrite E. unfold Rmax. destruct (Rle_dec a y); [right; now left | now left].
    + lra.
    + intros x [<- | Hx]; [lra | now apply Hall].
Qed.

Lemma col_min_spec (l : list R) :
  l <> [] -> exists m, col_min l = Fin m /\ is_minimum l m.
Proof.
  destruct l as [|a l]; [contradiction|]. intros _.
  destruct (fold_left_Rmin l a) as (Hin & Hle & Hall).
  exists (fold_left Rmin l a). split; [reflexivity|]. split.
  - destruct Hin as [E | Hin]; [left; now symmetry | now right].
  - intros x [<- | Hx]; [exact Hle | now apply Hall].
Qed.

Lemma col_max_spec (l : list R) :
  l <> [] -> exists m, col_max l = Fin m /\ is_maximum l m.
Proof.
  destruct l as [|a l]; [contradiction|]. intros _.
  destruct (fold_left_Rmax l a) as (Hin & Hle & Hall).
  exists (fold_left Rmax l a). split; [reflexivity|]. split.
  - destruct Hin as [E | Hin]; [left; now symmetry | now right].
  - intros x [<- | Hx]; [exact Hle | now apply Hall].
Qed.

Lemma length_INR_pos {A : Type} (l : list A) : l <> [] -> 0 < INR (List.length l).
Proof.
  destruct l; [contradiction|]. intros _. simpl List.length.
  rewrite S_INR. pose proof (pos_INR (List.length l)). lra.
Qed.

Lemma col_mean_spec (l : list R) :
  l <> [] -> exists m, col_mean l = Fin m /\ is_mean l m.
Proof.
  intros Hne. pose proof (length_INR_pos l Hne) as Hn.
  exists (sum l / INR (List.length l)). split.
  - destruct l; [contradiction | reflexivity].
  - unfold is_mean. field. lra.
Qed.

Lemma col_std_spec (l : list R) :
  (2 <= List.length l)%nat -> exists s, col_std l = Fin s /\ is_sample_std l s.
Proof.
  intros Hlen.
  assert (Hne : l <> []) by (destruct l; [simpl in Hlen; lia | discriminate]).
  pose proof (length_INR_pos l Hne) as Hn.
  assert (Hn1 : 0 < INR (List.length l) - 1).
  { apply le_INR in Hlen. simpl in Hlen. lra. }
  unfold col_std.
  destruct (List.length l <=? 1)%nat eqn:E; [apply Nat.leb_le in E; lia|].
  set (avg := sum l / INR (List.length l)).
  set (v := sum (map (fun x => sq (avg - x)) l) / (INR (List.length l) - 1)).
  assert (Hv : 0 <= v).
  { unfold v. apply Rmult_le_pos.
    - apply (sum_sq_nonneg (fun x => avg - x)).
    - left. now apply Rinv_0_lt_compat. }
  exists (sqrt v). split; [reflexivity|]. split; [apply sqrt_pos|].
  exists avg. split.
  - unfold is_mean, avg. field. lra.
  - rewrite sqrt_sqrt by exact Hv. unfold v.
    replace (map (fun x => sq (x - avg)) l) with (map (fun x => sq (avg - x)) l).
    + field. lra.
    + apply map_ext. intros x. unfold sq. ring.
Qed.

Lemma sum_constant (l : list R) (v : R) :
  (forall x, In x l -> x = v) -> sum l = INR (List.length l) * v.
Proof.
  induction l as [|y l IH]; intros H.
  - simpl. ring.
  - simpl List.length. rewrite S_INR, sum_cons, IH, (H y).
    + ring.
    + now left.
    + intros x Hx. apply H. now right.
Qed.

(** A column that repeats one value, in exact arithmetic. *)
Lemma constant_column (l : list R) (v : R) :
  (2 <= List.length l)%nat ->
  (forall x, In x l -> x = v) ->
  col_min l = Fin v /\ col_max l = Fin v /\
  col_mean l = Fin v /\ col_std l = Fin 0.
Proof.
  intros Hlen Hall.
  assert (Hne : l <> []) by (destruct l; [simpl in Hlen; lia | discriminate]).
  pose proof (length_INR_pos l Hne) as Hn.
  assert (Havg : sum l / INR (List.length l) = v).
  { rewrite (sum_constant l v Hall). field. lra. }
  repeat split.
  - destruct (col_min_spec l Hne) as (m & E & Hin & _).
    now rewrite E, (Hall m Hin).
  - destruct (col_max_spec l Hne) as (m & E & Hin & _).
    now rewrite E, (Hall m Hin).
  - destruct l; [contradiction|]. unfold col_mean. now rewrite Havg.
  - unfold col_std.
    destruct (List.length l <=? 1)%nat eqn:E; [apply Nat.leb_le in E; lia|].
    rewrite Havg.
    assert (Hz : sum (map (fun x => sq (v - x)) l) = 0).
    { rewrite (sum_constant (map (fun x => sq (v - x)) l) 0); [ring|].
      intros y Hy. apply in_map_iff in Hy. destruct Hy as (x & <- & Hx).
      rewrite (Hall x Hx). unfold sq. ring. }
    rewrite Hz. unfold Rdiv. rewrite Rmult_0_l, sqrt_0. reflexivity.
Qed.

End Statistics.

(* ===================================================================== *)
(** ** Valid series: the fit succeeds *)
(* ===================================================================== *)

Section ValidSeries.

Local Open Scope R_scope.

Lemma series_nonempty (df : DataFrame) :
  (1 <= List.length df)%nat -> df <> [].
Proof. destruct df; simpl; [lia | discriminate]. Qed.

(** On an Observation Series with positive errors the fit, when attempted,
    returns the solution of the normal equations. *)
Lemma series_fit (df : DataFrame) :
  ObservationSeries df -> errors_positive df ->
  (1 <? List.length df)%nat = true ->
  polyfit1 (log_samples df) (log_errors df) =
  Returned (Fin (fst (normal_equations (log_log_points df))),
            Fin (snd (normal_equations (log_log_points df)))).
Proof.
  intros Hs He Hlen. apply Nat.ltb_lt in Hlen.
  destruct (series_two_counts df Hs Hlen) as (o1 & o2 & H1 & H2 & Hne).
  destruct Hs as [Hpos _].
  exact (polyfit1_log_log df o1 o2 Hpos He H1 H2 Hne).
Qed.

Lemma series_det_pos (df : DataFrame) :
  ObservationSeries df -> (2 <= List.length df)%nat ->
  0 < det (log_log_points df).
Proof.
  intros Hs Hlen.
  destruct (series_two_counts df Hs Hlen) as (o1 & o2 & H1 & H2 & Hne).
  destruct Hs as [Hpos _].
  exact (log_log_det_pos df o1 o2 Hpos H1 H2 Hne).
Qed.

(** Counts that float64 holds exactly fit the int64 dtype. *)
Lemma exact_counts_numeric (df : DataFrame) :
  counts_exact_in_float64 df -> numeric_column (counts df) = true.
Proof.
  intros H. unfold numeric_column.
  replace (int64_column (counts df)) with true; [reflexivity|].
  symmetry. unfold int64_column, counts. apply forallb_forall.
  intros n Hn. apply in_map_iff in Hn. destruct Hn as (o & <- & Ho).
  unfold counts_exact_in_float64 in H. rewrite Forall_forall in H.
  specialize (H o Ho).
  apply andb_true_iff. split; [apply Z.leb_le | apply Z.ltb_lt]; lia.
Qed.

(** The fit as [create_summary_report] needs it: logarithms, then
    coefficients. *)
Lemma series_report_fit (df : DataFrame) :
  ObservationSeries df -> errors_positive df ->
  numeric_column (counts df) = true ->
  (1 <? List.length df)%nat = true ->
  numeric_column (counts df) = true /\
  polyfit1 (log_samples df) (log_errors df) =
  Returned (Fin (fst (normal_equations (log_log_points df))),
            Fin (snd (normal_equations (log_log_points df)))).
Proof.
  intros Hs He Hnum Hlen. split; [exact Hnum | now apply series_fit].
Qed.

(** Where the fit is defined, [np.polyfit] returns coefficients. *)
Lemma fit_defined_returns (df : DataFrame) :
  fit_defined df ->
  exists c, polyfit1 (log_samples df) (log_errors df) = Returned c.
Proof.
  intros (Hpos & He & Hex).
  rewrite (log_samples_finite df Hpos), (log_errors_finite df He).
  apply Exists_exists in Hex. destruct Hex as (o & Ho & Hn).
  rewrite polyfit1_finite by (destruct df; [contradiction | discriminate]).
  rewrite all_finite_Fin.
  assert (Hxx : sum (map sq (map (fun o => ln (IZR (Sample_Count o))) df)) <> 0).
  { rewrite map_map.
    assert (0 < sum (map (fun o => sq (ln (IZR (Sample_Count o)))) df)); [|lra].
    apply (sum_sq_pos (fun o => ln (IZR (Sample_Count o))) df o Ho).
    intros E. apply Hn, eq_IZR. rewrite Forall_forall in Hpos.
    apply ln_inv; [apply IZR_lt, Hpos, Ho | lra | now rewrite ln_1]. }
  destruct (Req_dec_T _ 0) as [E | _]; [contradiction|].
  destruct (Req_dec_T _ 0); eexists; reflexivity.
Qed.

Lemma analysable_fit (df : DataFrame) :
  analysable df ->
  exists c, (1 <? List.length df)%nat = true ->
            polyfit1 (log_samples df) (log_errors df) = Returned c.
Proof.
  intros (_ & _ & Hfit).
  destruct (le_lt_dec 2 (List.length df)) as [L | L].
  - destruct (fit_defined_returns df (Hfit L)) as (c & Hc).
    exists c. intros _. exact Hc.
  - exists (NaN, NaN). intros H. apply Nat.ltb_lt in H. lia.
Qed.

(** A non-empty Observation Series with positive errors and counts that
    fit a 64-bit integer column is analysable. *)
Lemma series_analysable (df : DataFrame) :
  df <> [] -> ObservationSeries df -> errors_positive df ->
  numeric_column (counts df) = true -> analysable df.
Proof.
  intros Hne Hs He Hnum. split; [exact Hne|]. split; [exact Hnum|].
  intros Hlen. split; [exact (@counts_positive df Hs)|]. split; [exact He|].
  destruct (series_two_counts df Hs Hlen) as (o1 & o2 & H1 & H2 & Hne12).
  apply Exists_exists.
  destruct (Z.eq_dec (Sample_Count o1) 1) as [E1 | N1].
  - exists o2. split; [exact H2 | congruence].
  - exists o1. split; [exact H1 | exact N1].
Qed.

Lemma sqrt_4 : sqrt 4 = 2.
Proof. replace 4 with (2 * 2) by lra. apply sqrt_square. lra. Qed.

Lemma sqrt_16 : sqrt 16 = 4.
Proof. replace 16 with (4 * 4) by lra. apply sqrt_square. lra. Qed.

Lemma square_rows_series : ObservationSeries square_rows.
Proof.
  split.
  - repeat constructor; simpl; lia.
  - unfold counts, square_rows. simpl. repeat constructor; lia.
Qed.

Lemma square_rows_errors : errors_positive square_rows.
Proof. unfold errors_positive, square_rows. repeat constructor; simpl; lra. Qed.

Lemma square_rows_exact : counts_exact_in_float64 square_rows.
Proof.
  unfold counts_exact_in_float64, square_rows.
  repeat constructor; simpl; lia.
Qed.

Lemma square_rows_analysable : analysable square_rows.
Proof.
  apply series_analysable;
    [discriminate | exact square_rows_series | exact square_rows_errors
    | reflexivity].
Qed.

Lemma square_rows_inverse_sqrt (o : Observation) :
  In o square_rows -> Error o = 1 / sqrt (IZR (Sample_Count o)).
Proof.
  intros [<- | [<- | []]]; simpl.
  - rewrite sqrt_4. lra.
  - rewrite sqrt_16. lra.
Qed.

Lemma sample_rows_series : ObservationSeries sample_rows.
Proof.
  split.
  - repeat constructor; simpl; lia.
  - unfold counts, sample_rows. simpl. repeat constructor; lia.
Qed.

Lemma sample_rows_errors : errors_positive sample_rows.
Proof.
  unfold errors_positive, sample_rows.
  repeat constructor; simpl;
    apply Rdiv_lt_0_compat; try lra; apply sqrt_lt_R0; lra.
Qed.

End ValidSeries.

(* ===================================================================== *)
(** ** Load failures *)
(* ===================================================================== *)

Section LoadFailures.

Local Open Scope string_scope.
Local Open Scope list_scope.

(** All three functions catch FileNotFoundError: the message names the
    file, nothing else is emitted, and the function returns. *)
Lemma missing_file_reported (fs : FileSystem) (f : string)
  (out : option string) (w : World) :
  fs f = Missing ->
  let w' := {| stdout := stdout w ++ [msg_not_found f]; display := display w |} in
  plot_convergence fs f out w = (Returned tt, w') /\
  plot_error_analysis fs f out w = (Returned tt, w') /\
  create_summary_report fs f w = (Returned tt, w').
Proof.
  intros H. unfold plot_convergence, plot_error_analysis, create_summary_report,
    read_csv. rewrite H. repeat split; reflexivity.
Qed.

(** C1 (the code departs from the claim).  A file without any column to
    parse makes [pd.read_csv] raise EmptyDataError.  [plot_convergence]
    catches it, prints the message naming the file and returns without a
    figure; [plot_error_analysis] and [create_summary_report] handle
    FileNotFoundError only, so the exception propagates past them. *)
Theorem empty_file_escapes_two_loaders (fs : FileSystem) (f : string)
  (out : option string) (w : World) :
  fs f = EmptyFile ->
  plot_convergence fs f out w =
    (Returned tt, {| stdout := stdout w ++ [msg_empty f]; display := display w |}) /\
  plot_error_analysis fs f out w = (Raised EmptyDataError, w) /\
  create_summary_report fs f w = (Raised EmptyDataError, w).
Proof.
  intros H. unfold plot_convergence, plot_error_analysis, create_summary_report,
    read_csv. rewrite H. repeat split; reflexivity.
Qed.

Lemma empty_file_escapes_two_loaders_witness :
  sample_files EmptyFile "results.csv" = EmptyFile /\
  plot_error_analysis (sample_files EmptyFile) "results.csv" None empty_world =
    (Raised EmptyDataError, empty_world) /\
  create_summary_report (sample_files EmptyFile) "results.csv" empty_world =
    (Raised EmptyDataError, empty_world).
Proof.
  split; [reflexivity|].
  apply (empty_file_escapes_two_loaders (sample_files EmptyFile) "results.csv"
           None empty_world).
  reflexivity.
Defined.

End LoadFailures.

(* ===================================================================== *)
(** ** Convergence rate *)
(* ===================================================================== *)

Section ConvergenceRate.

Local Open Scope string_scope.
Local Open Scope list_scope.
Local Open Scope R_scope.

(** *** Neighbouring counts above 2^53 *)

(** 2^53 + 1 is not a double: the conversion rounds it to 2^53. *)
Lemma value_of_2_53 :
  Binary64.value (Binary64.of_int64 (2 ^ 53)) = IZR (2 ^ 53).
Proof.
  unfold Binary64.value.
  replace (Prim2SF (Binary64.of_int64 (2 ^ 53)))
    with (S754_finite false 4503599627370496 1) by (vm_compute; reflexivity).
  apply f_equal. reflexivity.
Qed.

Lemma value_of_2_53_plus_1 :
  Binary64.value (Binary64.of_int64 (2 ^ 53 + 1)) = IZR (2 ^ 53).
Proof.
  unfold Binary64.value.
  replace (Prim2SF (Binary64.of_int64 (2 ^ 53 + 1)))
    with (S754_finite false 4503599627370496 1) by (vm_compute; reflexivity).
  apply f_equal. reflexivity.
Qed.

Lemma ln_2_pos : 0 < ln 2.
Proof. rewrite <- ln_1. apply ln_increasing; lra. Qed.

Lemma IZR_2_pow (n : nat) : IZR (2 ^ Z.of_nat n) = 2 ^ n.
Proof. now rewrite <- pow_IZR. Qed.

Lemma ln_2_53 : ln (IZR (2 ^ 53)) = 53 * ln 2.
Proof.
  change (2 ^ 53)%Z with (2 ^ Z.of_nat 53)%Z.
  rewrite IZR_2_pow, ln_pow by lra.
  replace (INR 53) with 53 by (simpl; lra). reflexivity.
Qed.

(** What the abscissa column becomes on two neighbouring counts above
    2^53: one value twice. *)
Lemma log_samples_of_adjacent_large_rows (error : R) :
  log_samples_of_doubles (adjacent_large_rows error) =
  [Fin (53 * ln 2); Fin (53 * ln 2)].
Proof.
  unfold log_samples_of_doubles, adjacent_large_rows, counts.
  cbn [map Sample_Count].
  rewrite value_of_2_53, value_of_2_53_plus_1.
  rewrite np_log_pos by (apply IZR_lt; reflexivity).
  now rewrite ln_2_53.
Qed.

(** [np.polyfit] on two points that share their abscissa: the
    minimum-norm solution. *)
Lemma polyfit1_constant_pair (x y1 y2 : R) :
  x <> 0 ->
  polyfit1 [Fin x; Fin x] [Fin y1; Fin y2] =
  Returned (Fin ((y1 + y2) / (4 * x)), Fin ((y1 + y2) / 4)).
Proof.
  intros Hx. unfold polyfit1. cbn [all_finite map].
  destruct (Req_dec_T (sum [sq x; sq x]) 0) as [E | _].
  { exfalso. unfold sum, sq in E. simpl in E. nra. }
  cbn [combine].
  destruct (Req_dec_T (det [(x, y1); (x, y2)]) 0) as [_ | N].
  - unfold Sy, Sx, npts. cbn [map fst snd List.length sum fold_right INR].
    f_equal. f_equal; f_equal; field; lra.
  - exfalso. apply N. unfold det, npts, Sxx, Sx.
    cbn [map fst snd List.length sum fold_right INR]. ring.
Qed.

Lemma adjacent_large_rows_series (error : R) :
  ObservationSeries (adjacent_large_rows error).
Proof.
  split.
  - repeat constructor; simpl; lia.
  - unfold counts, adjacent_large_rows. simpl. repeat constructor; lia.
Qed.

(** C2, as stated, fails on a valid series whose counts float64 cannot
    tell apart.  The rows (2^53, 0.5) and (2^53 + 1, 0.5) have one
    least-squares line, the flat one, so the claimed rate is zero; but both
    counts become the double 2^53, [np.polyfit] receives one abscissa
    twice, and the minimum-norm solution it returns has a negative slope,
    that is a positive rate (about 0.009). *)
Lemma adjacent_counts_above_2_53_share_one_abscissa :
  ObservationSeries (adjacent_large_rows 0.5) /\
  errors_positive (adjacent_large_rows 0.5) /\
  Binary64.of_int64 (2 ^ 53 + 1) = Binary64.of_int64 (2 ^ 53) /\
  least_squares_line (log_log_points (adjacent_large_rows 0.5)) 0 (ln 0.5) /\
  (forall a b,
     least_squares_line (log_log_points (adjacent_large_rows 0.5)) a b ->
     a = 0 /\ b = ln 0.5) /\
  exists slope intercept,
    polyfit1 (log_samples_of_doubles (adjacent_large_rows 0.5))
             (log_errors (adjacent_large_rows 0.5)) =
      Returned (Fin slope, Fin intercept) /\
    slope < 0 /\
    np_neg (Fin slope) <> np_neg (Fin 0).
Proof.
  pose proof (adjacent_large_rows_series 0.5) as Hs.
  assert (He : errors_positive (adjacent_large_rows 0.5))
    by (repeat constructor; simpl; lra).
  assert (Hd : 0 < det (log_log_points (adjacent_large_rows 0.5)))
    by (apply series_det_pos; [exact Hs | simpl; lia]).
  assert (Hline : ssr (log_log_points (adjacent_large_rows 0.5)) 0 (ln 0.5) = 0).
  { unfold ssr, sq, log_log_points, adjacent_large_rows. simpl. ring. }
  split; [exact Hs|]. split; [exact He|]. split; [reflexivity|].
  split; [|split].
  - intros a b. rewrite Hline. apply ssr_nonneg.
  - intros a b Hab.
    destruct (normal_equations_unique _ a b Hd) as [Ea Eb]; [apply Hab|].
    destruct (normal_equations_unique _ 0 (ln 0.5) Hd) as [E0 E1].
    { rewrite Hline. apply ssr_nonneg. }
    split; congruence.
  - rewrite log_samples_of_adjacent_large_rows.
    unfold log_errors, errors, adjacent_large_rows. cbn [map Error].
    rewrite np_log_pos by lra.
    pose proof ln_2_pos as H2.
    assert (Hhalf : ln 0.5 < 0).
    { rewrite <- ln_1. apply ln_increasing; lra. }
    rewrite polyfit1_constant_pair by lra.
    do 2 eexists. split; [reflexivity|].
    assert (Hneg : (ln 0.5 + ln 0.5) / (4 * (53 * ln 2)) < 0).
    { unfold Rdiv.
      assert (0 < / (4 * (53 * ln 2))) by (apply Rinv_0_lt_compat; lra).
      nra. }
    split; [exact Hneg|].
    simpl. intros E. injection E as E. lra.
Qed.

(** C2, amended: in exact arithmetic, on counts float64 holds exactly.  On
    an Observation Series of two rows or more with positive errors and
    counts of at most 2^53, the log-log points have exactly one
    least-squares line, and the rate that [plot_error_analysis] writes in
    the title of its fourth sub-plot and that [create_summary_report]
    prints in its convergence section is the negated slope of that line
    (rendering and saving taken to succeed). *)
Theorem convergence_rate_is_negated_ols_slope (fs : FileSystem) (f : string)
  (out : option string) (df : DataFrame) (w : World) :
  fs f = Table df ->
  ObservationSeries df ->
  errors_positive df ->
  (2 <= List.length df)%nat ->
  counts_exact_in_float64 df ->
  exists slope intercept,
    least_squares_line (log_log_points df) slope intercept /\
    (forall a b, least_squares_line (log_log_points df) a b ->
                 a = slope /\ b = intercept) /\
    (exists w' fig p,
        plot_error_analysis fs f out w = (Returned tt, w') /\
        display w' =
          display w ++ [if is_set out then SaveFig (str_of out) fig else Show fig] /\
        subplot 4 fig = Some p /\
        title p = [Str "Convergence Rate Analysis"; Str nl; Str "Rate: ";
                   Val (Fin (- slope)) Fmt_3f]) /\
    (exists w' final_estimate final_error,
        create_summary_report fs f w = (Returned tt, w') /\
        stdout w' =
          stdout w ++ report_head f df final_estimate final_error
          ++ report_convergence (Fin (- slope)) ++ [[Str rule]]).
Proof.
  intros Hfs Hs He Hlen Hex.
  pose proof (exact_counts_numeric df Hex) as Hnum.
  pose proof (series_det_pos df Hs Hlen) as Hd.
  assert (Hne : df <> []) by (apply series_nonempty; lia).
  assert (Hlt : (1 <? List.length df)%nat = true) by (apply Nat.ltb_lt; lia).
  set (c := normal_equations (log_log_points df)).
  exists (fst c), (snd c). split; [|split; [|split]].
  - intros a b. apply normal_equations_minimal, Hd.
  - intros a b Hab. apply normal_equations_unique; [exact Hd | apply Hab].
  - destruct (plot_error_analysis_table fs f out df (Fin (fst c), Fin (snd c)) w
                Hfs Hne Hnum (fun _ => series_fit df Hs He Hlt))
      as (w' & fig & Hrun & Hdisp & _ & _ & _ & H4 & _).
    rewrite Hlt in H4.
    exists w', fig, (rate_panel df (Fin (fst c), Fin (snd c))).
    repeat split; assumption || reflexivity.
  - destruct (create_summary_report_table fs f df (Fin (fst c), Fin (snd c)) w
                Hfs Hne (fun _ => series_report_fit df Hs He Hnum Hlt))
      as (w' & fe & fe' & Hrun & _ & _ & _ & Hout).
    rewrite Hlt in Hout.
    exists w', fe, fe'. split; [exact Hrun | exact Hout].
Qed.

Lemma convergence_rate_is_negated_ols_slope_witness :
  exists slope intercept,
    least_squares_line (log_log_points square_rows) slope intercept /\
    (forall a b, least_squares_line (log_log_points square_rows) a b ->
                 a = slope /\ b = intercept) /\
    (exists w' fig p,
        plot_error_analysis (sample_files (Table square_rows)) "results.csv"
          None empty_world = (Returned tt, w') /\
        display w' = [Show fig] /\
        subplot 4 fig = Some p /\
        title p = [Str "Convergence Rate Analysis"; Str nl; Str "Rate: ";
                   Val (Fin (- slope)) Fmt_3f]) /\
    (exists w' final_estimate final_error,
        create_summary_report (sample_files (Table square_rows)) "results.csv"
          empty_world = (Returned tt, w') /\
        stdout w' =
          report_head "results.csv" square_rows final_estimate final_error
          ++ report_convergence (Fin (- slope)) ++ [[Str rule]]).
Proof.
  apply (convergence_rate_is_negated_ols_slope
           (sample_files (Table square_rows)) "results.csv" None square_rows
           empty_world).
  - reflexivity.
  - exact square_rows_series.
  - exact square_rows_errors.
  - simpl. lia.
  - exact square_rows_exact.
Defined.

(** [ln (c / sqrt n) = ln c - ln n / 2]. *)
Lemma ln_inverse_sqrt (c x : R) :
  0 < c -> 0 < x -> ln (c / sqrt x) = ln c - ln x / 2.
Proof.
  intros Hc Hx. pose proof (sqrt_lt_R0 x Hx) as Hs.
  unfold Rdiv at 1. rewrite ln_mult, ln_Rinv; try assumption.
  - assert (E : ln x = ln (sqrt x) + ln (sqrt x)).
    { rewrite <- ln_mult by assumption. now rewrite sqrt_sqrt by lra. }
    lra.
  - now apply Rinv_0_lt_compat.
Qed.

(** A line through every point leaves no residual. *)
Lemma ssr_on_line (p : points) (a b : R) :
  (forall q, In q p -> snd q = a * fst q + b) -> ssr p a b = 0.
Proof.
  intros H. unfold ssr.
  rewrite (sum_constant _ 0); [ring|].
  intros y Hy. apply in_map_iff in Hy. destruct Hy as (q & <- & Hq).
  rewrite (H q Hq). unfold sq. ring.
Qed.






End ConvergenceRate.

(* ===================================================================== *)
(** ** Relative error and sample efficiency *)
(* ===================================================================== *)

Section DerivedColumns.

Local Open Scope string_scope.
Local Open Scope list_scope.
Local Open Scope R_scope.

Lemma relative_error_nth (df : DataFrame) (i : nat) (o : Observation) :
  nth_error df i = Some o ->
  nth_error (relative_error df) i = Some (100 * Error o / np_pi).
Proof.
  intros H. unfold relative_error, errors. rewrite map_map.
  rewrite nth_error_map, H. simpl. f_equal. unfold Rdiv. ring.
Qed.

(** On a valid non-empty series with a numeric count column
    [plot_error_analysis] completes. *)
Lemma plot_error_analysis_series (fs : FileSystem) (f : string)
  (out : option string) (df : DataFrame) (w : World) :
  fs f = Table df -> df <> [] ->
  ObservationSeries df -> errors_positive df ->
  numeric_column (counts df) = true ->
  exists w' fig,
    plot_error_analysis fs f out w = (Returned tt, w') /\
    display w' =
      display w ++ [if is_set out then SaveFig (str_of out) fig else Show fig] /\
    subplot 2 fig =
      Some {| title := [Str "Relative Error"];
              artists := [Semilogx (counts df)
                                   (map Fin (relative_error df)) []] |} /\
    subplot 6 fig =
      Some {| title := [Str "Sample Efficiency"];
              artists := [Semilogx (counts df) (efficiency df) []] |}.
Proof.
  intros Hfs Hne Hs He Hnum.
  destruct (plot_error_analysis_table fs f out df
              (Fin (fst (normal_equations (log_log_points df))),
               Fin (snd (normal_equations (log_log_points df)))) w
              Hfs Hne Hnum (series_fit df Hs He))
    as (w' & fig & Hrun & Hdisp & _ & _ & H2 & _ & H6 & _).
  exists w', fig. repeat split; assumption.
Qed.

(** C4.  The relative-error sequence has one entry per row, entry [i] being
    [100 * error_i / pi] with the double-precision value of pi (exactly so
    in exact arithmetic, hence within the tolerance that float64 rounding
    needs); it is the curve of the third sub-plot of [plot_convergence] and,
    when the series is not empty and its counts fit a 64-bit integer
    column, of the second sub-plot of [plot_error_analysis]. *)
Theorem relative_error_is_percent_of_pi (fs : FileSystem) (f : string)
  (out : option string) (df : DataFrame) (w : World) :
  fs f = Table df ->
  ObservationSeries df ->
  errors_positive df ->
  List.length (relative_error df) = List.length df /\
  (forall i o, nth_error df i = Some o ->
               nth_error (relative_error df) i = Some (100 * Error o / np_pi)) /\
  (exists w' fig,
      plot_convergence fs f out w = (Returned tt, w') /\
      display w' =
        display w ++ [if is_set out then SaveFig (str_of out) fig else Show fig] /\
      subplot 3 fig =
        Some {| title := [Str "Relative Error vs Sample Count"];
                artists := [Semilogx (counts df)
                                     (map Fin (relative_error df)) []] |}) /\
  (df <> [] -> numeric_column (counts df) = true ->
   exists w' fig,
      plot_error_analysis fs f out w = (Returned tt, w') /\
      display w' =
        display w ++ [if is_set out then SaveFig (str_of out) fig else Show fig] /\
      subplot 2 fig =
        Some {| title := [Str "Relative Error"];
                artists := [Semilogx (counts df)
                                     (map Fin (relative_error df)) []] |}).
Proof.
  intros Hfs Hs He. split; [|split; [|split]].
  - unfold relative_error, errors. now rewrite !length_map.
  - apply relative_error_nth.
  - destruct (plot_convergence_table fs f out df w Hfs)
      as (w' & fig & Hrun & Hdisp & _ & _ & H3 & _).
    exists w', fig. repeat split; assumption.
  - intros Hne Hnum.
    destruct (plot_error_analysis_series fs f out df w Hfs Hne Hs He Hnum)
      as (w' & fig & Hrun & Hdisp & H2 & _).
    exists w', fig. repeat split; assumption.
Qed.

Lemma relative_error_is_percent_of_pi_witness :
  List.length (relative_error square_rows) = 2%nat /\
  nth_error (relative_error square_rows) 1 = Some (100 * 0.25 / np_pi) /\
  exists w' fig,
    plot_error_analysis (sample_files (Table square_rows)) "results.csv" None
      empty_world = (Returned tt, w') /\
    display w' = [Show fig] /\
    subplot 2 fig =
      Some {| title := [Str "Relative Error"];
              artists := [Semilogx (counts square_rows)
                                   (map Fin (relative_error square_rows)) []] |}.
Proof.
  destruct (relative_error_is_percent_of_pi
              (sample_files (Table square_rows)) "results.csv" None square_rows
              empty_world eq_refl square_rows_series square_rows_errors)
    as (Hlen & Hnth & _ & Hplot).
  split; [exact Hlen|]. split.
  - exact (Hnth 1%nat _ eq_refl).
  - apply Hplot; [discriminate | reflexivity].
Defined.

Lemma efficiency_divisor_pos (o : Observation) :
  (0 < Sample_Count o)%Z -> 0 < Error o -> 0 < efficiency_divisor o.
Proof.
  intros Hn He. unfold efficiency_divisor.
  apply Rmult_lt_0_compat; [now apply IZR_lt | now apply Rmult_lt_0_compat].
Qed.

End DerivedColumns.

Section SampleEfficiency.

Local Open Scope string_scope.
Local Open Scope list_scope.
Local Open Scope R_scope.


(** In exact arithmetic the divisor vanishes only with the count or with
    the error. *)
Lemma efficiency_divisor_nonzero (o : Observation) :
  Sample_Count o <> 0%Z -> Error o <> 0 -> efficiency_divisor o <> 0.
Proof.
  intros Hn He. unfold efficiency_divisor. intros E.
  apply Rmult_integral in E. destruct E as [E | E].
  - apply Hn. now apply eq_IZR.
  - apply Rmult_integral in E. now destruct E.
Qed.

(** C5, as stated, fails on its own example: in binary64 the efficiency of
    the row with 100 samples and error 0.1 is not 1.0.  The square of the
    double nearest 0.1 is 0.010000000000000002, a hundred times that is
    1.0000000000000002, and its reciprocal is 0.9999999999999998. *)
Lemma efficiency_of_100_and_tenth_is_not_one :
  (Binary64.one_tenth * Binary64.one_tenth)%float = 0x1.47ae147ae147cp-7%float /\
  (Binary64.of_int64 100 * (Binary64.one_tenth * Binary64.one_tenth))%float
    = 0x1.0000000000001p+0%float /\
  Binary64.efficiency 100 Binary64.one_tenth <> 1%float.
Proof.
  split; [reflexivity|]. split; [reflexivity|].
  intros H.
  assert (E : PrimFloat.eqb (Binary64.efficiency 100 Binary64.one_tenth) 1 = true)
    by (rewrite H; reflexivity).
  vm_compute in E. discriminate E.
Qed.

(** C5, amended: the formula holds in exact arithmetic.  On every
    analysable table (at least one row, counts that fit a 64-bit integer
    column and, from two rows on, positive counts not all equal to one and
    positive errors; rendering and saving taken to succeed)
    [plot_error_analysis] completes and its sixth sub-plot draws one
    efficiency per row, which for a row with non-zero count and error is,
    in exact arithmetic, [1 / (sample_count * error^2)].  For 100 samples and error
    0.1 that quotient is 1; the binary64 evaluation gives
    0x1.ffffffffffffep-1, the double just below 1.0 (about
    0.9999999999999998).  In binary64 the square of a positive error can
    also underflow: for 1e-162 it is 0.0 and the efficiency is infinite. *)
Theorem efficiency_is_inverse_of_count_times_squared_error (fs : FileSystem)
  (f : string) (out : option string) (df : DataFrame) (w : World) :
  fs f = Table df ->
  analysable df ->
  (exists w' fig,
      plot_error_analysis fs f out w = (Returned tt, w') /\
      display w' =
        display w ++ [if is_set out then SaveFig (str_of out) fig else Show fig] /\
      subplot 6 fig =
        Some {| title := [Str "Sample Efficiency"];
                artists := [Semilogx (counts df) (efficiency df) []] |}) /\
  List.length (efficiency df) = List.length df /\
  (forall i o,
      nth_error df i = Some o ->
      Sample_Count o <> 0%Z -> Error o <> 0 ->
      nth_error (efficiency df) i =
      Some (Fin (1 / (IZR (Sample_Count o) * (Error o * Error o))))) /\
  (forall estimate,
      exists one,
        efficiency [ {| Sample_Count := 100; Pi_Estimate := estimate;
                        Error := 0.1 |} ] = [Fin one] /\ one = 1) /\
  Binary64.efficiency 100 Binary64.one_tenth = 0x1.ffffffffffffep-1%float /\
  PrimFloat.ltb (Binary64.efficiency 100 Binary64.one_tenth) 1 = true /\
  (1 - Binary64.efficiency 100 Binary64.one_tenth)%float = 0x1p-52%float /\
  PrimFloat.ltb 0 Binary64.tiny = true /\
  (Binary64.tiny * Binary64.tiny)%float = 0%float /\
  Binary64.efficiency 100 Binary64.tiny = infinity.
Proof.
  intros Hfs Han.
  destruct (analysable_fit df Han) as (c & Hfit).
  destruct Han as (Hne & Hnum & _).
  split; [|split; [|split; [|split; [|repeat split; reflexivity]]]].
  - destruct (plot_error_analysis_table fs f out df c w Hfs Hne Hnum Hfit)
      as (w' & fig & Hrun & Hdisp & _ & _ & _ & _ & H6 & _).
    exists w', fig. repeat split; assumption.
  - unfold efficiency. now rewrite length_map.
  - intros i o Hi Hn He.
    pose proof (efficiency_divisor_nonzero o Hn He) as Hd.
    unfold efficiency. rewrite nth_error_map, Hi. simpl.
    destruct (Req_dec_T (efficiency_divisor o) 0); [contradiction | reflexivity].
  - intros estimate. eexists. split.
    + unfold efficiency, efficiency_divisor. simpl.
      destruct (Req_dec_T (100 * (0.1 * 0.1)) 0) as [E | _]; [lra | reflexivity].
    + lra.
Qed.

Lemma efficiency_is_inverse_of_count_times_squared_error_witness :
  (exists w' fig,
     plot_error_analysis (sample_files (Table square_rows)) "results.csv" None
       empty_world = (Returned tt, w') /\
     display w' = [Show fig] /\
     subplot 6 fig =
       Some {| title := [Str "Sample Efficiency"];
               artists := [Semilogx [4; 16]%Z (efficiency square_rows) []] |}) /\
  nth_error (efficiency square_rows) 1 = Some (Fin (1 / (16 * (0.25 * 0.25)))).
Proof.
  destruct (efficiency_is_inverse_of_count_times_squared_error
              (sample_files (Table square_rows)) "results.csv" None square_rows
              empty_world eq_refl square_rows_analysable)
    as (H & _ & Hrow & _).
  split; [exact H|].
  apply (Hrow 1%nat {| Sample_Count := 16; Pi_Estimate := 3.25;
                       Error := 0.25 |} eq_refl).
  - discriminate.
  - simpl. lra.
Defined.

End SampleEfficiency.

(* ===================================================================== *)
(** ** Summary statistics *)
(* ===================================================================== *)

Section SummaryStatistics.

Local Open Scope string_scope.
Local Open Scope list_scope.
Local Open Scope R_scope.

(** The four statistics of a column of two values or more. *)
Lemma column_statistics (l : list R) :
  (2 <= List.length l)%nat ->
  exists mn mx me sd,
    col_min l = Fin mn /\ col_max l = Fin mx /\
    col_mean l = Fin me /\ col_std l = Fin sd /\
    is_minimum l mn /\ is_maximum l mx /\ is_mean l me /\ is_sample_std l sd /\
    (forall v, (forall x, In x l -> x = v) ->
               mn = v /\ mx = v /\ me = v /\ sd = 0).
Proof.
  intros Hlen.
  assert (Hne : l <> []) by (destruct l; [simpl in Hlen; lia | discriminate]).
  destruct (col_min_spec l Hne) as (mn & Emn & Hmn).
  destruct (col_max_spec l Hne) as (mx & Emx & Hmx).
  destruct (col_mean_spec l Hne) as (me & Eme & Hme).
  destruct (col_std_spec l Hlen) as (sd & Esd & Hsd).
  exists mn, mx, me, sd. repeat split; try assumption; try apply Hmn;
    try apply Hmx; try apply Hsd.
  all: destruct (constant_column l v Hlen H) as (C1 & C2 & C3 & C4);
    congruence.
Qed.

(** C6, as stated, fails in binary64: for three rows that all hold 0.1 the
    minimum and maximum are 0.1, but the mean is 0.10000000000000002 and
    the standard deviation 1.6996749443881478e-17, which the report prints
    as 1.70e-17 and not as zero. *)
Lemma repeated_tenth_has_nonzero_std_in_binary64 :
  let column := [Binary64.one_tenth; Binary64.one_tenth; Binary64.one_tenth] in
  Binary64.min column = Binary64.one_tenth /\
  Binary64.max column = Binary64.one_tenth /\
  Binary64.mean column = 0x1.999999999999bp-4%float /\
  Binary64.std column = 0x1.3988e1409212ep-56%float /\
  Binary64.mean column <> Binary64.one_tenth /\
  Binary64.std column <> 0%float.
Proof.
  cbv zeta. repeat split; try reflexivity.
  - intros H.
    assert (E : PrimFloat.eqb
                  (Binary64.mean [Binary64.one_tenth; Binary64.one_tenth;
                                  Binary64.one_tenth]) Binary64.one_tenth = true)
      by (rewrite H; reflexivity).
    vm_compute in E. discriminate E.
  - intros H.
    assert (E : PrimFloat.eqb
                  (Binary64.std [Binary64.one_tenth; Binary64.one_tenth;
                                 Binary64.one_tenth]) 0 = true)
      by (rewrite H; reflexivity).
    vm_compute in E. discriminate E.
Qed.

(** C6, amended.  For a table of two rows or more [create_summary_report]
    prints, for the error and for the estimate column, the minimum, the
    maximum, the arithmetic mean and the sample standard deviation with
    the [n - 1] denominator; in exact arithmetic a column that repeats one
    value [v] gives minimum = maximum = mean = [v] and standard deviation
    zero. *)
Theorem summary_statistics_exact_arithmetic (fs : FileSystem) (f : string)
  (df : DataFrame) (w : World) :
  fs f = Table df ->
  (2 <= List.length df)%nat ->
  exists r w' final_estimate final_error rest
         emin emax emean estd pmin pmax pmean pstd,
    create_summary_report fs f w = (r, w') /\
    stdout w' =
      stdout w ++ report_head f df final_estimate final_error ++ rest /\
    col_min (errors df) = Fin emin /\ col_max (errors df) = Fin emax /\
    col_mean (errors df) = Fin emean /\ col_std (errors df) = Fin estd /\
    col_min (estimates df) = Fin pmin /\ col_max (estimates df) = Fin pmax /\
    col_mean (estimates df) = Fin pmean /\ col_std (estimates df) = Fin pstd /\
    is_minimum (errors df) emin /\ is_maximum (errors df) emax /\
    is_mean (errors df) emean /\ is_sample_std (errors df) estd /\
    is_minimum (estimates df) pmin /\ is_maximum (estimates df) pmax /\
    is_mean (estimates df) pmean /\ is_sample_std (estimates df) pstd /\
    (forall v, (forall o, In o df -> Error o = v) ->
               emin = v /\ emax = v /\ emean = v /\ estd = 0) /\
    (forall v, (forall o, In o df -> Pi_Estimate o = v) ->
               pmin = v /\ pmax = v /\ pmean = v /\ pstd = 0).
Proof.
  intros Hfs Hlen.
  assert (Hne : df <> []) by (apply series_nonempty; lia).
  destruct (create_summary_report_head fs f df w Hfs Hne)
    as (r & w' & fe & fe' & rest & Hrun & _ & _ & Hout).
  destruct (column_statistics (errors df)) as
    (emin & emax & emean & estd & E1 & E2 & E3 & E4 & S1 & S2 & S3 & S4 & EC).
  { unfold errors. now rewrite length_map. }
  destruct (column_statistics (estimates df)) as
    (pmin & pmax & pmean & pstd & P1 & P2 & P3 & P4 & T1 & T2 & T3 & T4 & PC).
  { unfold estimates. now rewrite length_map. }
  exists r, w', fe, fe', rest, emin, emax, emean, estd, pmin, pmax, pmean, pstd.
  repeat (split; [assumption|]).
  split.
  - intros v Hv. apply EC. intros x Hx. unfold errors in Hx.
    apply in_map_iff in Hx. destruct Hx as (o & <- & Ho). now apply Hv.
  - intros v Hv. apply PC. intros x Hx. unfold estimates in Hx.
    apply in_map_iff in Hx. destruct Hx as (o & <- & Ho). now apply Hv.
Qed.

Lemma summary_statistics_exact_arithmetic_witness :
  col_min (errors repeated_rows) = Fin 0.5 /\
  col_max (errors repeated_rows) = Fin 0.5 /\
  col_mean (errors repeated_rows) = Fin 0.5 /\
  col_std (errors repeated_rows) = Fin 0 /\
  col_min (estimates repeated_rows) = Fin 3 /\
  col_max (estimates repeated_rows) = Fin 3 /\
  col_mean (estimates repeated_rows) = Fin 3 /\
  col_std (estimates repeated_rows) = Fin 0.
Proof.
  destruct (summary_statistics_exact_arithmetic
              (sample_files (Table repeated_rows)) "results.csv" repeated_rows
              empty_world eq_refl ltac:(simpl; lia))
    as (r & w' & fe & fe' & rest & emin & emax & emean & estd
        & pmin & pmax & pmean & pstd & _ & _
        & E1 & E2 & E3 & E4 & P1 & P2 & P3 & P4 & _ & _ & _ & _ & _ & _ & _ & _
        & EC & PC).
  destruct (EC 0.5) as (-> & -> & -> & ->).
  { intros o [<- | [<- | []]]; reflexivity. }
  destruct (PC 3) as (-> & -> & -> & ->).
  { intros o [<- | [<- | []]]; reflexivity. }
  repeat split; assumption.
Defined.

End SummaryStatistics.

(* ===================================================================== *)
(** ** The driver *)
(* ===================================================================== *)

Section Driver.

Local Open Scope string_scope.
Local Open Scope list_scope.

(** [main] after a dispatch that returned. *)
Lemma main_after_dispatch (fs : FileSystem) (args : Args) (w w' : World) :
  path_exists fs (csv_file args) = true ->
  match type args with
  | convergence => plot_convergence fs (csv_file args) (output args)
  | error => plot_error_analysis fs (csv_file args) (output args)
  | summary => create_summary_report fs (csv_file args)
  end w = (Returned tt, w') ->
  exists w'',
    main fs args w = (Returned tt, w'') /\
    display w'' = display w' /\
    stdout w'' = stdout w' ++ trailer args.
Proof.
  intros Hex Hrun. unfold main. rewrite Hex. simpl negb. cbv iota.
  unfold bind at 1. unfold ret at 1. unfold bind at 1. rewrite Hrun.
  unfold trailer.
  destruct (is_set (output args) && negb (no_display args)).
  - unfold bind, print. simpl. eexists. split; [reflexivity|]. simpl.
    split; [reflexivity|]. now rewrite <- app_assoc.
  - unfold ret. eexists. split; [reflexivity|]. simpl.
    split; [reflexivity|]. now rewrite app_nil_r.
Qed.

(** What [main] leaves behind when its dispatch returned on a table, mode
    by mode. *)
Lemma main_on_table (fs : FileSystem) (args : Args) (df : DataFrame) :
  fs (csv_file args) = Table df ->
  type args = convergence \/ analysable df ->
  exists w, run fs args = (0%Z, w) /\ selected_output_produced args df w.
Proof.
  intros Hfs Hcase.
  assert (Hex : path_exists fs (csv_file args) = true)
    by (unfold path_exists; now rewrite Hfs).
  unfold run, selected_output_produced, routed.
  destruct (type args) eqn:Hmode.
  - destruct (plot_convergence_table fs (csv_file args) (output args) df
                empty_world Hfs)
      as (w' & fig & Hrun & Hdisp & _ & Hlen & _ & _ & Hsize & H1).
    destruct (main_after_dispatch fs args empty_world w' Hex) as (w'' & Hm & Hd & _).
    { now rewrite Hmode. }
    rewrite Hm. eexists. split; [reflexivity|].
    exists fig. rewrite Hd, Hdisp. repeat split; assumption.
  - destruct Hcase as [Hc | Han]; [discriminate Hc|].
    destruct (analysable_fit df Han) as (c & Hfit).
    destruct Han as (Hne & Hnum & _).
    destruct (plot_error_analysis_table fs (csv_file args) (output args) df c
                empty_world Hfs Hne Hnum Hfit)
      as (w' & fig & Hrun & Hdisp & _ & Hlen & _ & _ & _ & Hsize & H1).
    destruct (main_after_dispatch fs args empty_world w' Hex) as (w'' & Hm & Hd & _).
    { now rewrite Hmode. }
    rewrite Hm. eexists. split; [reflexivity|].
    exists fig. rewrite Hd, Hdisp. repeat split; assumption.
  - destruct Hcase as [Hc | Han]; [discriminate Hc|].
    destruct (analysable_fit df Han) as (c & Hfit).
    destruct Han as (Hne & Hnum & _).
    destruct (create_summary_report_table fs (csv_file args) df c
                empty_world Hfs Hne (fun H => conj Hnum (Hfit H)))
      as (w' & fe & fe' & Hrun & _ & _ & Hdisp & Hout).
    destruct (main_after_dispatch fs args empty_world w' Hex) as (w'' & Hm & Hd & Ho).
    { now rewrite Hmode. }
    rewrite Hm. eexists. split; [reflexivity|].
    split; [now rewrite Hd, Hdisp|].
    exists fe, fe',
      (if (1 <? List.length df)%nat then report_convergence (np_neg (fst c))
       else []).
    rewrite Ho, Hout. cbn [stdout empty_world app].
    now rewrite <- !app_assoc.
Qed.

(** C7, as stated, fails for a file that exists but holds no column: in
    convergence mode the status is zero although no figure was produced,
    and in the other two modes the uncaught EmptyDataError gives status
    one. *)
Lemma existing_empty_file_breaks_exit_contract :
  path_exists (sample_files EmptyFile) "results.csv" = true /\
  run (sample_files EmptyFile) (sample_args convergence) =
    (0%Z, {| stdout := [msg_empty "results.csv"]; display := [] |}) /\
  (forall df,
     ~ selected_output_produced (sample_args convergence) df
         (snd (run (sample_files EmptyFile) (sample_args convergence)))) /\
  run (sample_files EmptyFile) (sample_args error) = (1%Z, empty_world) /\
  run (sample_files EmptyFile) (sample_args summary) = (1%Z, empty_world).
Proof.
  repeat split; try reflexivity.
  intros df (fig & H & _). discriminate H.
Qed.

(** C7, amended.  When the input path does not exist, [main] prints the
    diagnostic naming the file and exits with status one, having emitted
    nothing else.  When the path holds a table, [main] exits with status
    zero after producing the selected output and no other: in convergence
    mode for every table; in error and summary mode for every analysable
    table (at least one row, counts that fit a 64-bit integer column and,
    from two rows on, positive counts not all equal to one and positive
    errors), hence for every non-empty Observation Series with positive
    errors and such counts (rendering and saving taken to succeed).  When the path holds a file without columns,
    convergence mode prints the diagnostic of the empty file, produces no
    figure and still exits with status zero. *)
Theorem main_exit_status (fs : FileSystem) (args : Args) :
  (fs (csv_file args) = Missing ->
   run fs args =
   (1%Z, {| stdout := [msg_not_found (csv_file args)]; display := [] |})) /\
  (forall df,
     fs (csv_file args) = Table df ->
     type args = convergence \/ analysable df ->
     exists w, run fs args = (0%Z, w) /\ selected_output_produced args df w) /\
  (forall df,
     fs (csv_file args) = Table df ->
     df <> [] -> ObservationSeries df -> errors_positive df ->
     numeric_column (counts df) = true ->
     exists w, run fs args = (0%Z, w) /\ selected_output_produced args df w) /\
  (fs (csv_file args) = EmptyFile ->
   type args = convergence ->
   run fs args =
   (0%Z, {| stdout := msg_empty (csv_file args) :: trailer args;
            display := [] |})).
Proof.
  split; [|split; [|split]].
  - intros Hmiss. unfold run, main, path_exists. rewrite Hmiss. reflexivity.
  - intros df. apply main_on_table.
  - intros df Hfs Hne Hs He Hnum.
    apply (main_on_table fs args df Hfs).
    right. now apply series_analysable.
  - intros Hempty Hmode.
    unfold run, main, path_exists, plot_convergence, read_csv, trailer.
    rewrite Hempty, Hmode.
    destruct (is_set (output args) && negb (no_display args)); reflexivity.
Qed.

Lemma main_exit_status_witness :
  run (sample_files Missing) (sample_args error) =
    (1%Z, {| stdout := [msg_not_found "results.csv"]; display := [] |}) /\
  (exists w,
      run (sample_files (Table square_rows)) (sample_args error) = (0%Z, w) /\
      selected_output_produced (sample_args error) square_rows w) /\
  (exists w,
      run (sample_files (Table square_rows)) (sample_args summary) = (0%Z, w) /\
      selected_output_produced (sample_args summary) square_rows w) /\
  (exists w,
      run (sample_files (Table [])) (sample_args convergence) = (0%Z, w) /\
      selected_output_produced (sample_args convergence) [] w) /\
  run (sample_files EmptyFile) (sample_args convergence) =
    (0%Z, {| stdout := [msg_empty "results.csv"]; display := [] |}).
Proof.
  split; [|split; [|split; [|split]]].
  - apply (main_exit_status (sample_files Missing) (sample_args error)).
    reflexivity.
  - apply (main_exit_status (sample_files (Table square_rows))
             (sample_args error)); try reflexivity.
    + discriminate.
    + exact square_rows_series.
    + exact square_rows_errors.
  - apply (main_exit_status (sample_files (Table square_rows))
             (sample_args summary)); try reflexivity.
    + discriminate.
    + exact square_rows_series.
    + exact square_rows_errors.
  - destruct (main_exit_status (sample_files (Table [])) (sample_args convergence))
      as (_ & H & _).
    apply (H []); [reflexivity | now left].
  - apply (main_exit_status (sample_files EmptyFile) (sample_args convergence));
      reflexivity.
Defined.

End Driver.

(* ===================================================================== *)
(** ** Too few rows *)
(* ===================================================================== *)

Section FewRows.

Local Open Scope string_scope.
Local Open Scope list_scope.

(** Where the degraded output is produced.  With at most ten rows (none
    included) [plot_convergence] draws the placeholder text instead of the
    histogram.  With exactly one row, whose count fits a 64-bit integer
    column, [plot_error_analysis] leaves its fourth sub-plot empty and
    still emits its figure, and [create_summary_report] prints the whole
    report without the convergence section. *)
Lemma few_rows_degrade_output (fs : FileSystem) (f : string)
  (out : option string) (df : DataFrame) (w : World) :
  fs f = Table df ->
  (List.length df <= 10)%nat ->
  (exists w' fig,
      plot_convergence fs f out w = (Returned tt, w') /\
      display w' =
        display w ++ [if is_set out then SaveFig (str_of out) fig else Show fig] /\
      subplot 4 fig = Some histogram_placeholder) /\
  (List.length df = 1%nat ->
   numeric_column (counts df) = true ->
   (exists w' fig,
       plot_error_analysis fs f out w = (Returned tt, w') /\
       display w' =
         display w ++ [if is_set out then SaveFig (str_of out) fig else Show fig] /\
       List.length (panels fig) = 6%nat /\
       subplot 4 fig = Some empty_panel) /\
   (exists w' final_estimate final_error,
       create_summary_report fs f w = (Returned tt, w') /\
       display w' = display w /\
       stdout w' =
         stdout w ++ report_head f df final_estimate final_error
         ++ [[Str rule]])).
Proof.
  intros Hfs Hlen. split.
  - destruct (plot_convergence_table fs f out df w Hfs)
      as (w' & fig & Hrun & Hdisp & _ & _ & _ & H4 & _).
    assert (E : (10 <? List.length df)%nat = false) by (apply Nat.ltb_ge; lia).
    rewrite E in H4. exists w', fig. repeat split; assumption.
  - intros H1 Hnum.
    assert (Hne : df <> []) by (apply series_nonempty; lia).
    assert (E : (1 <? List.length df)%nat = false) by (apply Nat.ltb_ge; lia).
    split.
    + destruct (plot_error_analysis_table fs f out df (NaN, NaN) w Hfs Hne Hnum)
        as (w' & fig & Hrun & Hdisp & _ & H6 & _ & H4 & _).
      { rewrite E. discriminate. }
      rewrite E in H4. exists w', fig. repeat split; assumption.
    + destruct (create_summary_report_table fs f df (NaN, NaN) w Hfs Hne)
        as (w' & fe & fe' & Hrun & _ & _ & Hdisp & Hout).
      { rewrite E. discriminate. }
      rewrite E in Hout. exists w', fe, fe'. repeat split; assumption.
Qed.

(** C8 (the code departs from the claim).  A table without rows (a file
    that holds the header line only) has fewer than two rows, fewer than
    ten.  [plot_convergence] degrades as the claim says: it draws its
    figure with the placeholder text.  [plot_error_analysis] and
    [create_summary_report] skip the fit, and then end in the IndexError of
    [iloc[-1]], which neither guards: the former without a figure, the
    latter after the three title lines. *)
Theorem table_without_rows_raises_index_error (fs : FileSystem) (f : string)
  (out : option string) (w : World) :
  fs f = Table [] ->
  (exists w' fig,
      plot_convergence fs f out w = (Returned tt, w') /\
      display w' =
        display w ++ [if is_set out then SaveFig (str_of out) fig else Show fig] /\
      subplot 4 fig = Some histogram_placeholder) /\
  plot_error_analysis fs f out w = (Raised IndexError, w) /\
  create_summary_report fs f w =
    (Raised IndexError,
     {| stdout := stdout w ++ [ [Str (nl ++ rule)];
                                [Str "MONTE CARLO π ESTIMATION SUMMARY REPORT"];
                                [Str rule] ];
        display := display w |}).
Proof.
  intros Hfs. split; [|split].
  - destruct (plot_convergence_table fs f out [] w Hfs)
      as (w' & fig & Hrun & Hdisp & _ & _ & _ & H4 & _).
    exists w', fig. repeat split; assumption.
  - unfold plot_error_analysis, read_csv. rewrite Hfs. reflexivity.
  - unfold create_summary_report, read_csv. rewrite Hfs.
    cbv beta iota zeta delta [bind lift print emit ret raise stdout display
                              iloc_last estimates map].
    now rewrite <- !app_assoc.
Qed.

Lemma table_without_rows_raises_index_error_witness :
  plot_error_analysis (sample_files (Table [])) "results.csv" None empty_world =
    (Raised IndexError, empty_world) /\
  create_summary_report (sample_files (Table [])) "results.csv" empty_world =
    (Raised IndexError,
     {| stdout := [ [Str (nl ++ rule)];
                    [Str "MONTE CARLO π ESTIMATION SUMMARY REPORT"];
                    [Str rule] ];
        display := [] |}).
Proof.
  destruct (table_without_rows_raises_index_error (sample_files (Table []))
              "results.csv" None empty_world eq_refl) as (_ & H1 & H2).
  split; [exact H1 | exact H2].
Defined.

(** C10.  On a table of exactly one row [create_summary_report] returns
    after printing the complete report without the convergence section;
    the two standard deviations it prints are nan, since the sample
    standard deviation of a single value is undefined. *)
Theorem single_row_report_has_nan_std (fs : FileSystem) (f : string)
  (o : Observation) (w : World) :
  fs f = Table [o] ->
  col_std (errors [o]) = NaN /\
  col_std (estimates [o]) = NaN /\
  exists w',
    create_summary_report fs f w = (Returned tt, w') /\
    display w' = display w /\
    stdout w' =
      stdout w ++ report_head f [o] (Pi_Estimate o) (Error o) ++ [[Str rule]] /\
    In [Str "  Std Deviation: "; Val NaN Fmt_2e] (stdout w') /\
    In [Str "  Std Deviation:    "; Val NaN Fmt_10f] (stdout w') /\
    ~ In [Str "CONVERGENCE ANALYSIS:"]
         (report_head f [o] (Pi_Estimate o) (Error o) ++ [[Str rule]]).
Proof.
  intros Hfs. split; [reflexivity|]. split; [reflexivity|].
  destruct (create_summary_report_table fs f [o] (NaN, NaN) w Hfs)
    as (w' & fe & fe' & Hrun & Hfe & Hfe' & Hdisp & Hout).
  { discriminate. }
  { simpl. discriminate. }
  simpl in Hfe, Hfe'. injection Hfe as <-. injection Hfe' as <-.
  simpl in Hout.
  exists w'. split; [exact Hrun|]. split; [exact Hdisp|].
  split; [exact Hout|]. rewrite Hout. repeat split.
  - apply in_or_app. right. simpl. do 17 right. left. reflexivity.
  - apply in_or_app. right. simpl. do 23 right. left. reflexivity.
  - simpl. intros H.
    repeat (destruct H as [H | H]; [discriminate H|]). exact H.
Qed.

Lemma single_row_report_has_nan_std_witness :
  exists w',
    create_summary_report (sample_files (Table single_row)) "results.csv"
      empty_world = (Returned tt, w') /\
    In [Str "  Std Deviation: "; Val NaN Fmt_2e] (stdout w') /\
    In [Str "  Std Deviation:    "; Val NaN Fmt_10f] (stdout w').
Proof.
  destruct (single_row_report_has_nan_std (sample_files (Table single_row))
              "results.csv"
              {| Sample_Count := 10; Pi_Estimate := 3; Error := 0.5 |}
              empty_world eq_refl)
    as (_ & _ & w' & Hrun & _ & _ & H1 & H2 & _).
  exists w'. repeat split; assumption.
Defined.

End FewRows.

(* ===================================================================== *)
(** ** Logarithms and the division are not guarded *)
(* ===================================================================== *)

Section Guards.

Local Open Scope string_scope.
Local Open Scope list_scope.
Local Open Scope R_scope.




End Guards.

(* ===================================================================== *)
(** ** The theoretical bound and the sample efficiency *)
(* ===================================================================== *)

Section TheoreticalBound.

Local Open Scope R_scope.


Lemma inv_sqrt_pos (x : R) : 0 < x -> 0 < 1 / sqrt x.
Proof.
  intros Hx. apply Rdiv_lt_0_compat; [lra | now apply sqrt_lt_R0].
Qed.

Lemma inv_sqrt_decreasing (x y : R) :
  0 < x -> x < y -> 1 / sqrt y < 1 / sqrt x.
Proof.
  intros Hx Hxy.
  pose proof (sqrt_lt_R0 x Hx) as Hsx.
  assert (Hlt : sqrt x < sqrt y) by (apply sqrt_lt_1_alt; lra).
  unfold Rdiv. rewrite !Rmult_1_l.
  apply Rinv_lt_contravar; [|exact Hlt].
  apply Rmult_lt_0_compat; lra.
Qed.

Lemma theoretical_error_positive_row (df : DataFrame) (i : nat)
  (o : Observation) :
  nth_error df i = Some o ->
  (0 < Sample_Count o)%Z ->
  nth_error (theoretical_error df) i =
  Some (Fin (1 / sqrt (IZR (Sample_Count o)))).
Proof.
  intros H Hn. unfold theoretical_error, counts.
  rewrite map_map, nth_error_map, H. simpl. f_equal.
  apply IZR_lt in Hn. unfold np_sqrt.
  destruct (Rle_dec 0 (IZR (Sample_Count o))) as [_ | N]; [|lra].
  unfold np_recip. pose proof (sqrt_lt_R0 _ Hn).
  destruct (Req_dec_T (sqrt (IZR (Sample_Count o))) 0) as [E | _];
    [lra | reflexivity].
Qed.

(** X1.  [np.sqrt] raises TypeError on a Sample_Count column that fits no
    64-bit integer type, and [plot_error_analysis] ends with it before
    anything is printed or drawn.  On an analysable table (at least one
    row, counts that fit a 64-bit integer column and, from two rows on,
    positive counts not all equal to one and positive errors; rendering
    and saving taken to succeed) the first sub-plot draws the errors and
    the theoretical curve, which is, row by row and in exact arithmetic,
    [1 / sqrt n] for a positive count, plus infinity for a count of zero
    and nan for a negative count. *)
Theorem theoretical_error_by_row (fs : FileSystem) (f : string)
  (out : option string) (df : DataFrame) (w : World) :
  fs f = Table df ->
  (numeric_column (counts df) = false ->
   plot_error_analysis fs f out w = (Raised TypeError, w)) /\
  (analysable df ->
   exists w' fig,
       plot_error_analysis fs f out w = (Returned tt, w') /\
       display w' =
         display w ++ [if is_set out then SaveFig (str_of out) fig
                       else Show fig] /\
       subplot 1 fig =
         Some {| title := [Str "Error Convergence Analysis"];
                 artists := [Semilogx (counts df) (map Fin (errors df))
                                      [Str "Absolute Error"];
                             Semilogx (counts df) (theoretical_error df)
                                      [Str "Theoretical Bound (1/√n)"]] |}) /\
  (forall i o,
     nth_error df i = Some o ->
     nth_error (theoretical_error df) i =
     Some (match (Sample_Count o ?= 0)%Z with
           | Gt => Fin (1 / sqrt (IZR (Sample_Count o)))
           | Eq => PInf
           | Lt => NaN
           end)).
Proof.
  intros Hfs. split; [|split].
  - intros Hnum. exact (plot_error_analysis_objects fs f out df w Hfs Hnum).
  - intros Han.
    destruct (analysable_fit df Han) as (c & Hfit).
    destruct Han as (Hne & Hnum & _).
    destruct (plot_error_analysis_table fs f out df c w Hfs Hne Hnum Hfit)
      as (w' & fig & Hrun & Hdisp & _ & _ & _ & _ & _ & _ & H1).
    exists w', fig. repeat split; assumption.
  - intros i o H. unfold theoretical_error, counts.
    rewrite map_map, nth_error_map, H. simpl. f_equal.
    unfold np_sqrt.
    destruct (Z.compare_spec (Sample_Count o) 0) as [E | L | G].
    + rewrite E. destruct (Rle_dec 0 0) as [_ | N]; [|lra].
      unfold np_recip. rewrite sqrt_0.
      destruct (Req_dec_T 0 0) as [_ | N]; [reflexivity | contradiction].
    + apply IZR_lt in L.
      destruct (Rle_dec 0 (IZR (Sample_Count o))) as [P | _]; [lra | reflexivity].
    + apply IZR_lt in G.
      destruct (Rle_dec 0 (IZR (Sample_Count o))) as [_ | N]; [|lra].
      unfold np_recip. pose proof (sqrt_lt_R0 _ G).
      destruct (Req_dec_T (sqrt (IZR (Sample_Count o))) 0) as [E | _];
        [lra | reflexivity].
Qed.

Lemma theoretical_error_by_row_witness :
  plot_error_analysis (sample_files (Table oversized_row)) "results.csv" None
    empty_world = (Raised TypeError, empty_world) /\
  (exists w' fig,
      plot_error_analysis (sample_files (Table square_rows)) "results.csv"
        None empty_world = (Returned tt, w') /\
      display w' = [Show fig] /\
      subplot 1 fig = Some (error_panel square_rows)) /\
  nth_error (theoretical_error zero_error_rows) 1 = Some (Fin (1 / sqrt 100)).
Proof.
  split; [|split].
  - apply (theoretical_error_by_row (sample_files (Table oversized_row))
             "results.csv" None oversized_row empty_world eq_refl).
    reflexivity.
  - destruct (theoretical_error_by_row (sample_files (Table square_rows))
                "results.csv" None square_rows empty_world eq_refl)
      as (_ & H & _).
    exact (H square_rows_analysable).
  - destruct (theoretical_error_by_row (sample_files (Table zero_error_rows))
                "results.csv" None zero_error_rows empty_world eq_refl)
      as (_ & _ & H).
    exact (H 1%nat {| Sample_Count := 100; Pi_Estimate := 3.25; Error := 0 |}
             eq_refl).
Defined.

(** In binary64 neighbouring counts can share one value of the curve, from
    2^52 on. *)
Lemma theoretical_error_ties_in_binary64 :
  Binary64.theoretical_error (2 ^ 52 + 1) = Binary64.theoretical_error (2 ^ 52).
Proof. reflexivity. Qed.



(** X3.  In exact arithmetic, for a row with positive count and positive
    error the sample efficiency is the square of the ratio of the
    theoretical bound to the error; it is at least one exactly when the
    error does not exceed the bound [1 / sqrt n].  (In binary64 the
    comparison can fail by one rounding, as it does for 100 samples and
    error 0.1.) *)
Theorem efficiency_compares_error_with_bound (df : DataFrame) (i : nat)
  (o : Observation) :
  nth_error df i = Some o ->
  (0 < Sample_Count o)%Z ->
  0 < Error o ->
  exists v t,
    nth_error (efficiency df) i = Some (Fin v) /\
    nth_error (theoretical_error df) i = Some (Fin t) /\
    v = (t / Error o) * (t / Error o) /\
    (1 <= v <-> Error o <= t).
Proof.
  intros Hi Hn He.
  pose proof (IZR_lt _ _ Hn) as Hn'. simpl in Hn'.
  pose proof (sqrt_lt_R0 _ Hn') as Hs.
  pose proof (sqrt_sqrt (IZR (Sample_Count o)) ltac:(lra)) as Hss.
  pose proof (efficiency_divisor_pos o Hn He) as Hd.
  exists (1 / efficiency_divisor o), (1 / sqrt (IZR (Sample_Count o))).
  assert (Hv : 1 / efficiency_divisor o =
               1 / sqrt (IZR (Sample_Count o)) / Error o *
               (1 / sqrt (IZR (Sample_Count o)) / Error o)).
  { unfold efficiency_divisor. rewrite <- Hss at 1. field. lra. }
  split; [|split; [|split]].
  - unfold efficiency. rewrite nth_error_map, Hi. simpl.
    destruct (Req_dec_T (efficiency_divisor o) 0); [lra | reflexivity].
  - exact (theoretical_error_positive_row df i o Hi Hn).
  - exact Hv.
  - set (t := 1 / sqrt (IZR (Sample_Count o))) in *.
    assert (Ht : 0 < t) by (apply inv_sqrt_pos; exact Hn').
    rewrite Hv.
    assert (Hq : 0 < t / Error o) by (apply Rdiv_lt_0_compat; assumption).
    split.
    + intros H1.
      assert (Hq1 : 1 <= t / Error o) by nra.
      apply Rmult_le_compat_r with (r := Error o) in Hq1; [|lra].
      unfold Rdiv in Hq1. rewrite Rmult_assoc, Rinv_l in Hq1; lra.
    + intros Hle.
      assert (Hq1 : 1 <= t / Error o).
      { apply Rmult_le_reg_r with (r := Error o); [exact He|].
        unfold Rdiv. rewrite Rmult_assoc, Rinv_l; lra. }
      nra.
Qed.

Lemma efficiency_compares_error_with_bound_witness :
  exists v t,
    nth_error (efficiency square_rows) 0 = Some (Fin v) /\
    nth_error (theoretical_error square_rows) 0 = Some (Fin t) /\
    v = (t / 0.5) * (t / 0.5) /\
    (1 <= v <-> 0.5 <= t).
Proof.
  apply (efficiency_compares_error_with_bound square_rows 0
           {| Sample_Count := 4; Pi_Estimate := 3; Error := 0.5 |}).
  - reflexivity.
  - simpl. lia.
  - simpl. lra.
Defined.

(** X4.  In exact arithmetic, when every error is [c / sqrt(sample_count)]
    for one [c > 0], the sample efficiency is the same for every row,
    [1 / c^2].  (In binary64 the rows can differ in the last place.) *)
Theorem efficiency_is_constant_on_inverse_sqrt_errors (df : DataFrame) (c : R) :
  0 < c ->
  Forall (fun o => (0 < Sample_Count o)%Z) df ->
  (forall o, In o df -> Error o = c / sqrt (IZR (Sample_Count o))) ->
  efficiency df = map (fun _ => Fin (1 / (c * c))) df.
Proof.
  intros Hc Hpos Herr. rewrite Forall_forall in Hpos.
  unfold efficiency. apply map_ext_in. intros o Ho.
  pose proof (IZR_lt _ _ (Hpos o Ho)) as Hn. simpl in Hn.
  pose proof (sqrt_lt_R0 _ Hn) as Hs.
  pose proof (sqrt_sqrt (IZR (Sample_Count o)) ltac:(lra)) as Hss.
  assert (Hd : efficiency_divisor o = c * c).
  { unfold efficiency_divisor. rewrite (Herr o Ho).
    rewrite <- Hss at 1. field. lra. }
  rewrite Hd.
  destruct (Req_dec_T (c * c) 0) as [E | _]; [nra | reflexivity].
Qed.

Lemma efficiency_is_constant_on_inverse_sqrt_errors_witness :
  efficiency square_rows = [Fin (1 / (1 * 1)); Fin (1 / (1 * 1))].
Proof.
  apply (efficiency_is_constant_on_inverse_sqrt_errors square_rows 1).
  - lra.
  - exact (@counts_positive square_rows square_rows_series).
  - exact square_rows_inverse_sqrt.
Defined.

End TheoreticalBound.

(* ===================================================================== *)
(** ** More on the fitted rate *)
(* ===================================================================== *)

Section FittedRate.

Local Open Scope R_scope.

Lemma sum_nonpos {A : Type} (f : A -> R) (l : list A) :
  (forall x, In x l -> f x <= 0) -> sum (map f l) <= 0.
Proof.
  induction l as [|y l IH]; intros H; simpl.
  - lra.
  - assert (f y <= 0) by (apply H; now left).
    assert (sum (map f l) <= 0) by (apply IH; intros x Hx; apply H; now right).
    lra.
Qed.

Lemma sum_neg {A : Type} (f : A -> R) (l : list A) (x : A) :
  (forall y, In y l -> f y <= 0) -> In x l -> f x < 0 -> sum (map f l) < 0.
Proof.
  induction l as [|y l IH]; intros H Hin Hx; simpl.
  - contradiction.
  - assert (Hy : f y <= 0) by (apply H; now left).
    assert (Hl : sum (map f l) <= 0)
      by (apply sum_nonpos; intros z Hz; apply H; now right).
    destruct Hin as [-> | Hin]; [lra|].
    assert (sum (map f l) < 0)
      by (apply IH; [intros z Hz; apply H; now right | exact Hin | exact Hx]).
    lra.
Qed.

(** Adding a point changes the cross products by those of its deviations
    from the other points. *)
Lemma cov_cons (q : R * R) (p : points) :
  cov (q :: p) =
  cov p + sum (map (fun r => (fst r - fst q) * (snd r - snd q)) p).
Proof.
  assert (E : sum (map (fun r : R * R => (fst r - fst q) * (snd r - snd q)) p) =
              Sxy p - fst q * Sy p - snd q * Sx p + npts p * (fst q * snd q)).
  { induction p as [|r p IH].
    - unfold Sxy, Sy, Sx, npts. simpl. ring.
    - rewrite npts_cons. unfold Sxy, Sy, Sx in *. simpl map. rewrite !sum_cons.
      rewrite IH. ring. }
  rewrite E. unfold cov. rewrite npts_cons.
  unfold Sxy, Sy, Sx. simpl map. rewrite !sum_cons. ring.
Qed.

Lemma falling_term (q r : R * R) :
  (fst q < fst r -> snd r < snd q) ->
  (fst r < fst q -> snd q < snd r) ->
  (fst r - fst q) * (snd r - snd q) <= 0 /\
  (fst r <> fst q -> (fst r - fst q) * (snd r - snd q) < 0).
Proof.
  intros H1 H2.
  destruct (Rtotal_order (fst q) (fst r)) as [L | [E | G]].
  - specialize (H1 L). split; [|intros _]; nra.
  - split; [rewrite E; lra | intros N; now symmetry in E].
  - specialize (H2 G). split; [|intros _]; nra.
Qed.

Lemma falling_tail (q : R * R) (p : points) : falling (q :: p) -> falling p.
Proof.
  intros H a b Ha Hb. apply H; now right.
Qed.

Lemma cov_falling_nonpos (p : points) : falling p -> cov p <= 0.
Proof.
  induction p as [|q p IH]; intros H.
  - unfold cov, Sxy, Sx, Sy, npts. simpl. lra.
  - rewrite cov_cons. specialize (IH (falling_tail q p H)).
    assert (sum (map (fun r : R * R => (fst r - fst q) * (snd r - snd q)) p) <= 0).
    { apply sum_nonpos. intros r Hr.
      apply falling_term; intros L; apply H; simpl; auto. }
    lra.
Qed.

Lemma cov_falling_neg (p : points) (a b : R * R) :
  falling p -> In a p -> In b p -> fst a <> fst b -> cov p < 0.
Proof.
  destruct p as [|h p]; [contradiction|].
  intros H Ha Hb Hne. rewrite cov_cons.
  pose proof (cov_falling_nonpos p (falling_tail h p H)) as Hc.
  assert (Hex : exists s, In s p /\ fst s <> fst h).
  { destruct (Req_dec_T (fst a) (fst h)) as [Eq | Nq].
    - destruct Hb as [<- | Hb]; [congruence|].
      exists b. split; [exact Hb|]. congruence.
    - destruct Ha as [<- | Ha]; [congruence|].
      exists a. split; [exact Ha | exact Nq]. }
  destruct Hex as (s & Hs & Hsne).
  assert (sum (map (fun r : R * R => (fst r - fst h) * (snd r - snd h)) p) < 0).
  { apply sum_neg with s.
    - intros r Hr. apply falling_term; intros L; apply H; simpl; auto.
    - exact Hs.
    - apply falling_term; [intros L | intros L | exact Hsne];
        apply H; simpl; auto. }
  lra.
Qed.

(** X5.  On an Observation Series of two rows or more whose (positive)
    errors strictly decrease as the sample count grows, the fit succeeds
    and the convergence rate it yields is strictly positive. *)
Theorem decreasing_errors_give_positive_rate (df : DataFrame) :
  ObservationSeries df ->
  errors_positive df ->
  (2 <= List.length df)%nat ->
  (forall o1 o2, In o1 df -> In o2 df ->
     (Sample_Count o1 < Sample_Count o2)%Z -> Error o2 < Error o1) ->
  exists c rate,
    polyfit1 (log_samples df) (log_errors df) = Returned c /\
    np_neg (fst c) = Fin rate /\
    0 < rate.
Proof.
  intros Hs He Hlen Hdec.
  pose proof (series_det_pos df Hs Hlen) as Hd.
  assert (Hlt : (1 <? List.length df)%nat = true) by (apply Nat.ltb_lt; lia).
  pose proof (series_fit df Hs He Hlt) as Hfit.
  destruct (series_two_counts df Hs Hlen) as (o1 & o2 & H1 & H2 & Hne).
  destruct Hs as [Hpos _]. rewrite Forall_forall in Hpos.
  unfold errors_positive in He. rewrite Forall_forall in He.
  assert (Hfall : falling (log_log_points df)).
  { intros q r Hq Hr Hqr. unfold log_log_points in Hq, Hr.
    apply in_map_iff in Hq. destruct Hq as (a & <- & Ha).
    apply in_map_iff in Hr. destruct Hr as (b & <- & Hb).
    simpl in *. apply ln_increasing; [apply He, Hb|].
    apply Hdec; [exact Ha | exact Hb|].
    apply lt_IZR.
    destruct (Rlt_dec (IZR (Sample_Count a)) (IZR (Sample_Count b))) as [L | N];
      [exact L|].
    assert (Hle : IZR (Sample_Count b) <= IZR (Sample_Count a)) by lra.
    pose proof (IZR_lt _ _ (Hpos a Ha)) as Pa.
    pose proof (IZR_lt _ _ (Hpos b Hb)) as Pb. simpl in Pa, Pb.
    destruct Hle as [L | E].
    - pose proof (ln_increasing _ _ Pb L). lra.
    - rewrite E in Hqr. lra. }
  assert (Hcov : cov (log_log_points df) < 0).
  { apply cov_falling_neg with
      (a := (ln (IZR (Sample_Count o1)), ln (Error o1)))
      (b := (ln (IZR (Sample_Count o2)), ln (Error o2))).
    - exact Hfall.
    - unfold log_log_points.
      apply (in_map (fun o => (ln (IZR (Sample_Count o)), ln (Error o)))), H1.
    - unfold log_log_points.
      apply (in_map (fun o => (ln (IZR (Sample_Count o)), ln (Error o)))), H2.
    - simpl. intros E. apply Hne, eq_IZR.
      apply ln_inv; [apply IZR_lt, Hpos, H1 | apply IZR_lt, Hpos, H2 | exact E]. }
  eexists. eexists. split; [exact Hfit|]. split; [reflexivity|].
  unfold normal_equations. cbn [fst]. fold (cov (log_log_points df)).
  assert (Hq : cov (log_log_points df) / det (log_log_points df) < 0).
  { unfold Rdiv. rewrite <- (Rmult_0_l (/ det (log_log_points df))).
    apply Rmult_lt_compat_r; [now apply Rinv_0_lt_compat | exact Hcov]. }
  lra.
Qed.

Lemma decreasing_errors_give_positive_rate_witness :
  exists c rate,
    polyfit1 (log_samples sample_rows) (log_errors sample_rows) = Returned c /\
    np_neg (fst c) = Fin rate /\
    0 < rate.
Proof.
  apply (decreasing_errors_give_positive_rate sample_rows).
  - exact sample_rows_series.
  - exact sample_rows_errors.
  - simpl. lia.
  - intros o1 o2 [<- | [<- | []]] [<- | [<- | []]]; simpl; intros L; try lia.
    apply inv_sqrt_decreasing; lra.
Defined.

End FittedRate.

Section RateInvariance.

Local Open Scope R_scope.

(** Raising every ordinate by [d] keeps the slope and raises the
    intercept by [d]. *)
Lemma normal_equations_shift (p : points) (d : R) :
  0 < det p ->
  let p' := map (fun q => (fst q, snd q + d)) p in
  det p' = det p /\
  fst (normal_equations p') = fst (normal_equations p) /\
  snd (normal_equations p') = snd (normal_equations p) + d.
Proof.
  intros Hd p'. pose proof (det_pos_npts p Hd) as Hn.
  assert (En : npts p' = npts p) by (unfold p', npts; now rewrite length_map).
  assert (Ex : Sx p' = Sx p).
  { unfold p', Sx. rewrite map_map. reflexivity. }
  assert (Exx : Sxx p' = Sxx p).
  { unfold p', Sxx. rewrite map_map. reflexivity. }
  assert (Ey : Sy p' = Sy p + npts p * d).
  { unfold p'. clear. induction p as [|q p IH].
    - unfold Sy, npts. simpl. ring.
    - rewrite npts_cons. unfold Sy in *. simpl map. rewrite !sum_cons, IH.
      simpl. ring. }
  assert (Exy : Sxy p' = Sxy p + d * Sx p).
  { unfold p'. clear. induction p as [|q p IH].
    - unfold Sxy, Sx. simpl. ring.
    - unfold Sxy, Sx in *. simpl map. rewrite !sum_cons, IH. simpl. ring. }
  assert (Ed : det p' = det p) by (unfold det; now rewrite En, Ex, Exx).
  split; [exact Ed|].
  unfold normal_equations. cbn [fst snd]. rewrite Ed, En, Ex, Ey, Exy.
  split; field; lra.
Qed.

Lemma scale_errors_counts (k : R) (df : DataFrame) :
  counts (scale_errors k df) = counts df.
Proof. unfold counts, scale_errors. rewrite map_map. reflexivity. Qed.

Lemma scale_errors_series (k : R) (df : DataFrame) :
  ObservationSeries df -> ObservationSeries (scale_errors k df).
Proof.
  intros [Hpos Hsort]. split.
  - unfold scale_errors. apply Forall_map. exact Hpos.
  - now rewrite scale_errors_counts.
Qed.

Lemma scale_errors_positive (k : R) (df : DataFrame) :
  0 < k -> errors_positive df -> errors_positive (scale_errors k df).
Proof.
  intros Hk He. unfold errors_positive, scale_errors. apply Forall_map.
  unfold errors_positive in He. rewrite Forall_forall in *.
  intros o Ho. simpl. apply Rmult_lt_0_compat; [exact Hk | now apply He].
Qed.

Lemma scale_errors_points (k : R) (df : DataFrame) :
  0 < k -> errors_positive df ->
  log_log_points (scale_errors k df) =
  map (fun q => (fst q, snd q + ln k)) (log_log_points df).
Proof.
  intros Hk He. unfold log_log_points, scale_errors. rewrite !map_map.
  apply map_ext_in. intros o Ho. simpl.
  unfold errors_positive in He. rewrite Forall_forall in He.
  rewrite ln_mult; [f_equal; ring | exact Hk | now apply He].
Qed.

(** X6.  Multiplying every error of an Observation Series (two rows or
    more, positive errors) by one factor [k > 0] leaves the fitted slope,
    hence the convergence rate, unchanged; only the intercept moves, by
    [ln k]. *)
Theorem rate_ignores_the_scale_of_errors (df : DataFrame) (k : R) :
  ObservationSeries df ->
  errors_positive df ->
  (2 <= List.length df)%nat ->
  0 < k ->
  exists slope intercept,
    polyfit1 (log_samples df) (log_errors df) =
      Returned (Fin slope, Fin intercept) /\
    polyfit1 (log_samples (scale_errors k df)) (log_errors (scale_errors k df)) =
      Returned (Fin slope, Fin (intercept + ln k)).
Proof.
  intros Hs He Hlen Hk.
  assert (Hlt : (1 <? List.length df)%nat = true) by (apply Nat.ltb_lt; lia).
  assert (Hlt' : (1 <? List.length (scale_errors k df))%nat = true).
  { unfold scale_errors. now rewrite length_map. }
  pose proof (series_det_pos df Hs Hlen) as Hd.
  exists (fst (normal_equations (log_log_points df))),
         (snd (normal_equations (log_log_points df))).
  split; [exact (series_fit df Hs He Hlt)|].
  rewrite (series_fit (scale_errors k df) (scale_errors_series k df Hs)
             (scale_errors_positive k df Hk He) Hlt').
  rewrite (scale_errors_points k df Hk He).
  destruct (normal_equations_shift (log_log_points df) (ln k) Hd)
    as (_ & E1 & E2).
  cbv zeta in E1, E2. now rewrite E1, E2.
Qed.

Lemma rate_ignores_the_scale_of_errors_witness :
  exists slope intercept,
    polyfit1 (log_samples sample_rows) (log_errors sample_rows) =
      Returned (Fin slope, Fin intercept) /\
    polyfit1 (log_samples (scale_errors 2 sample_rows))
             (log_errors (scale_errors 2 sample_rows)) =
      Returned (Fin slope, Fin (intercept + ln 2)).
Proof.
  apply (rate_ignores_the_scale_of_errors sample_rows 2).
  - exact sample_rows_series.
  - exact sample_rows_errors.
  - simpl. lia.
  - lra.
Defined.

(** X7.  With exactly two rows of different positive sample counts and
    positive errors, the fitted line passes through both log-log points:
    the rate is [ln (e1 / e2) / ln (n2 / n1)], written with differences of
    logarithms. *)
Theorem two_rows_rate_is_log_ratio (o1 o2 : Observation) :
  (0 < Sample_Count o1)%Z -> (0 < Sample_Count o2)%Z ->
  Sample_Count o1 <> Sample_Count o2 ->
  0 < Error o1 -> 0 < Error o2 ->
  exists intercept,
    polyfit1 (log_samples [o1; o2]) (log_errors [o1; o2]) =
      Returned (Fin (- ((ln (Error o1) - ln (Error o2))
                        / (ln (IZR (Sample_Count o2))
                           - ln (IZR (Sample_Count o1))))),
                Fin intercept) /\
    ssr (log_log_points [o1; o2])
        (- ((ln (Error o1) - ln (Error o2))
            / (ln (IZR (Sample_Count o2)) - ln (IZR (Sample_Count o1)))))
        intercept = 0.
Proof.
  intros Hn1 Hn2 Hne He1 He2.
  set (x1 := ln (IZR (Sample_Count o1))).
  set (x2 := ln (IZR (Sample_Count o2))).
  set (y1 := ln (Error o1)). set (y2 := ln (Error o2)).
  assert (Hx : x2 - x1 <> 0).
  { intros E. apply Hne, eq_IZR.
    apply ln_inv; [now apply IZR_lt | now apply IZR_lt |].
    fold x1 x2. lra. }
  assert (Hpos : Forall (fun o => (0 < Sample_Count o)%Z) [o1; o2])
    by (repeat constructor; assumption).
  assert (Herr : errors_positive [o1; o2])
    by (repeat constructor; assumption).
  assert (Hd : 0 < det (log_log_points [o1; o2])).
  { apply (log_log_det_pos [o1; o2] o1 o2 Hpos); simpl; auto. }
  rewrite (polyfit1_log_log [o1; o2] o1 o2 Hpos Herr) by (simpl; auto).
  set (a := - ((y1 - y2) / (x2 - x1))).
  assert (Hline : ssr (log_log_points [o1; o2]) a (y1 - a * x1) = 0).
  { apply ssr_on_line. intros q [<- | [<- | []]]; simpl; fold x1 x2 y1 y2.
    - ring.
    - unfold a. field. exact Hx. }
  destruct (normal_equations_unique (log_log_points [o1; o2]) a (y1 - a * x1) Hd)
    as [Ea Eb].
  { rewrite Hline. apply ssr_nonneg. }
  exists (y1 - a * x1). rewrite <- Ea, <- Eb. split; [reflexivity | exact Hline].
Qed.

Lemma two_rows_rate_is_log_ratio_witness :
  exists intercept,
    polyfit1 (log_samples sample_rows) (log_errors sample_rows) =
      Returned (Fin (- ((ln (1 / sqrt 10) - ln (1 / sqrt 100))
                        / (ln 100 - ln 10))),
                Fin intercept) /\
    ssr (log_log_points sample_rows)
        (- ((ln (1 / sqrt 10) - ln (1 / sqrt 100)) / (ln 100 - ln 10)))
        intercept = 0.
Proof.
  apply (two_rows_rate_is_log_ratio
           {| Sample_Count := 10; Pi_Estimate := 3; Error := 1 / sqrt 10 |}
           {| Sample_Count := 100; Pi_Estimate := 3.1; Error := 1 / sqrt 100 |});
    simpl; try lia; try discriminate; apply inv_sqrt_pos; lra.
Defined.

End RateInvariance.

Section RateTolerance.

Local Open Scope R_scope.

(** The residuals of a line, weighted by the deviations of the abscissae,
    add up to what separates the cross products from the line's slope. *)
Lemma weighted_residuals (p : points) (a b N S : R) :
  sum (map (fun q => (snd q - (a * fst q + b)) * (N * fst q - S)) p) =
  N * Sxy p - S * Sy p - a * (N * Sxx p - S * Sx p) - b * (N * Sx p - npts p * S).
Proof.
  induction p as [|q p IH].
  - unfold Sxy, Sy, Sxx, Sx, npts. simpl. ring.
  - rewrite npts_cons. unfold Sxy, Sy, Sxx, Sx in *. simpl map.
    rewrite !sum_cons, IH. ring.
Qed.

Lemma sum_weighted_bound {A : Type} (r v : A -> R) (l : list A) (d : R) :
  (forall x, In x l -> Rabs (r x) <= d) ->
  Rabs (sum (map (fun x => r x * v x) l)) <= d * sum (map (fun x => Rabs (v x)) l).
Proof.
  induction l as [|y l IH]; intros H.
  - simpl. rewrite Rabs_R0. lra.
  - simpl map. rewrite !sum_cons.
    assert (Hy : Rabs (r y) <= d) by (apply H; now left).
    assert (Hl : Rabs (sum (map (fun x => r x * v x) l))
                 <= d * sum (map (fun x => Rabs (v x)) l))
      by (apply IH; intros x Hx; apply H; now right).
    pose proof (Rabs_triang (r y * v y) (sum (map (fun x => r x * v x) l))) as Ht.
    rewrite Rabs_mult in Ht.
    pose proof (Rabs_pos (v y)) as Hv. pose proof (Rabs_pos (r y)) as Hr.
    nra.
Qed.

(** Ordinates within [d] of a line give a fitted slope within
    [d * slope_sensitivity] of the slope of that line. *)
Lemma slope_perturbation (p : points) (a b d : R) :
  0 < det p ->
  (forall q, In q p -> Rabs (snd q - (a * fst q + b)) <= d) ->
  Rabs (fst (normal_equations p) - a) <= d * slope_sensitivity p.
Proof.
  intros Hd Hres.
  pose proof (weighted_residuals p a b (npts p) (Sx p)) as Hw.
  pose proof (sum_weighted_bound (fun q => snd q - (a * fst q + b))
                (fun q => npts p * fst q - Sx p) p d Hres) as Hb.
  cbv beta in Hb. rewrite Hw in Hb.
  unfold normal_equations, slope_sensitivity. cbn [fst].
  replace ((npts p * Sxy p - Sx p * Sy p) / det p - a)
    with ((npts p * Sxy p - Sx p * Sy p
           - a * (npts p * Sxx p - Sx p * Sx p)
           - b * (npts p * Sx p - npts p * Sx p)) / det p)
    by (unfold det; field; unfold det in Hd; lra).
  unfold Rdiv at 1. rewrite Rabs_mult, (Rabs_right (/ det p)).
  - unfold Rdiv. rewrite <- Rmult_assoc.
    apply Rmult_le_compat_r; [|exact Hb].
    left. now apply Rinv_0_lt_compat.
  - left. now apply Rinv_0_lt_compat.
Qed.

Lemma ln_le_minus_1 (t : R) : 0 < t -> ln t <= t - 1.
Proof.
  intros Ht. pose proof (exp_ineq1_le (t - 1)) as H.
  replace (1 + (t - 1)) with t in H by ring.
  destruct H as [H | H].
  - left. rewrite <- (ln_exp (t - 1)). now apply ln_increasing.
  - right. rewrite H at 1. apply ln_exp.
Qed.

(** Close to one the logarithm is at most twice the distance to one. *)
Lemma ln_near_one (t : R) : Rabs (t - 1) <= 1 / 2 -> Rabs (ln t) <= 2 * Rabs (t - 1).
Proof.
  intros H.
  assert (Ht : 1 / 2 <= t <= 3 / 2).
  { unfold Rabs in H. destruct (Rcase_abs (t - 1)); lra. }
  assert (Hpos : 0 < t) by lra.
  pose proof (ln_le_minus_1 t Hpos) as Hup.
  pose proof (ln_le_minus_1 (/ t) (Rinv_0_lt_compat _ Hpos)) as Hlo.
  rewrite ln_Rinv in Hlo by exact Hpos.
  assert (Hinv : / t - 1 <= 2 * (1 - t) \/ 1 <= t).
  { destruct (Rle_dec 1 t) as [L | N]; [now right | left].
    assert (Hti : / t <= 2).
    { rewrite <- (Rinv_inv 2). apply Rinv_le_contravar; lra. }
    assert (E : / t - 1 = / t * (1 - t)) by (field; lra).
    rewrite E. nra. }
  unfold Rabs. destruct (Rcase_abs (ln t)); destruct (Rcase_abs (t - 1)).
  - destruct Hinv as [Hi | Hi]; lra.
  - assert (/ t <= 1).
    { rewrite <- Rinv_1. apply Rinv_le_contravar; lra. }
    lra.
  - lra.
  - lra.
Qed.

Lemma ln_10_gt_2 : 2 < ln 10.
Proof.
  rewrite <- (ln_exp 2). apply ln_increasing; [apply exp_pos|].
  replace 2 with (1 + 1) by ring. rewrite exp_plus.
  pose proof exp_le_3 as H3. pose proof (exp_pos 1) as H0. nra.
Qed.

Lemma ln_decades :
  ln 100 = 2 * ln 10 /\ ln 1000 = 3 * ln 10 /\
  ln 10000 = 4 * ln 10 /\ ln 100000 = 5 * ln 10.
Proof.
  assert (H : forall n : nat, ln (10 ^ n) = INR n * ln 10)
    by (intros n; apply ln_pow; lra).
  pose proof (H 2%nat) as H2. pose proof (H 3%nat) as H3.
  pose proof (H 4%nat) as H4. pose proof (H 5%nat) as H5.
  simpl in H2, H3, H4, H5.
  replace (10 * (10 * 1)) with 100 in H2 by lra.
  replace (10 * (10 * (10 * 1))) with 1000 in H3 by lra.
  replace (10 * (10 * (10 * (10 * 1)))) with 10000 in H4 by lra.
  replace (10 * (10 * (10 * (10 * (10 * 1))))) with 100000 in H5 by lra.
  repeat split; lra.
Qed.

(** On the five decades the slope is not very sensitive. *)
Lemma decade_sensitivity (e1 e2 e3 e4 e5 : R) :
  slope_sensitivity (log_log_points (decade_rows e1 e2 e3 e4 e5)) =
  3 / (5 * ln 10).
Proof.
  destruct ln_decades as (L2 & L3 & L4 & L5).
  pose proof ln_10_gt_2 as HL.
  unfold slope_sensitivity, det, npts, Sxx, Sx, log_log_points, decade_rows.
  cbn [map fst snd List.length sum fold_right Sample_Count Error INR].
  rewrite L2, L3, L4, L5.
  set (L := ln 10) in *.
  assert (Hnum :
    Rabs ((1 + 1 + 1 + 1 + 1) * L - (L + (2 * L + (3 * L + (4 * L + (5 * L + 0))))))
    + (Rabs ((1 + 1 + 1 + 1 + 1) * (2 * L)
             - (L + (2 * L + (3 * L + (4 * L + (5 * L + 0))))))
    + (Rabs ((1 + 1 + 1 + 1 + 1) * (3 * L)
             - (L + (2 * L + (3 * L + (4 * L + (5 * L + 0))))))
    + (Rabs ((1 + 1 + 1 + 1 + 1) * (4 * L)
             - (L + (2 * L + (3 * L + (4 * L + (5 * L + 0))))))
    + (Rabs ((1 + 1 + 1 + 1 + 1) * (5 * L)
             - (L + (2 * L + (3 * L + (4 * L + (5 * L + 0))))))
    + 0)))) = 30 * L).
  { unfold Rabs. repeat destruct Rcase_abs; lra. }
  rewrite Hnum.
  match goal with
  | |- _ / ?d = _ => replace d with (50 * (L * L)) by ring
  end.
  field. lra.
Qed.

(** X20.  In exact arithmetic the rate tolerates errors that follow
    [c / sqrt(sample_count)] only approximately.  On an Observation Series
    of two rows or more whose (positive) errors have logarithms within
    [delta] of those of [c / sqrt(sample_count)], the fit returns and the
    convergence rate is within [delta] times the sensitivity of the slope
    of 0.5; on the five decades from 10 to 100000 that is within
    [0.3 * delta], and the rate ratio within [0.6 * delta] of 1. *)
Theorem rate_tolerates_errors_near_inverse_sqrt (df : DataFrame) (c delta : R) :
  ObservationSeries df ->
  (2 <= List.length df)%nat ->
  0 < c ->
  (forall o, In o df ->
     0 < Error o /\
     Rabs (ln (Error o) - ln (c / sqrt (IZR (Sample_Count o)))) <= delta) ->
  exists slope intercept,
    polyfit1 (log_samples df) (log_errors df) =
      Returned (Fin slope, Fin intercept) /\
    Rabs (- slope - 0.5) <= delta * slope_sensitivity (log_log_points df) /\
    (forall e1 e2 e3 e4 e5,
       df = decade_rows e1 e2 e3 e4 e5 ->
       Rabs (- slope - 0.5) <= 0.3 * delta /\
       Rabs (- slope / 0.5 - 1) <= 0.6 * delta).
Proof.
  intros Hs Hlen Hc Hnear.
  assert (He : errors_positive df).
  { apply Forall_forall. intros o Ho. apply (Hnear o Ho). }
  assert (Hlt : (1 <? List.length df)%nat = true) by (apply Nat.ltb_lt; lia).
  pose proof (series_det_pos df Hs Hlen) as Hd.
  pose proof (@counts_positive df Hs) as Hpos. rewrite Forall_forall in Hpos.
  assert (Hdelta : 0 <= delta).
  { destruct df as [|o df]; [simpl in Hlen; lia|].
    destruct (Hnear o (or_introl eq_refl)) as [_ H].
    pose proof (Rabs_pos (ln (Error o) - ln (c / sqrt (IZR (Sample_Count o))))).
    lra. }
  assert (Hbound :
    Rabs (fst (normal_equations (log_log_points df)) - - (1 / 2))
    <= delta * slope_sensitivity (log_log_points df)).
  { apply slope_perturbation with (b := ln c); [exact Hd|].
    intros q Hq. unfold log_log_points in Hq. apply in_map_iff in Hq.
    destruct Hq as (o & <- & Ho). cbn [fst snd].
    destruct (Hnear o Ho) as [_ H].
    rewrite ln_inverse_sqrt in H; [|exact Hc | apply IZR_lt, Hpos, Ho].
    replace (ln (Error o) - (- (1 / 2) * ln (IZR (Sample_Count o)) + ln c))
      with (ln (Error o) - (ln c - ln (IZR (Sample_Count o)) / 2)) by lra.
    exact H. }
  exists (fst (normal_equations (log_log_points df))),
         (snd (normal_equations (log_log_points df))).
  split; [exact (series_fit df Hs He Hlt)|].
  set (slope := fst (normal_equations (log_log_points df))) in *.
  assert (Hrate : Rabs (- slope - 0.5) = Rabs (slope - - (1 / 2))).
  { replace (- slope - 0.5) with (- (slope - - (1 / 2))) by lra.
    apply Rabs_Ropp. }
  split; [now rewrite Hrate|].
  intros e1 e2 e3 e4 e5 Edf.
  assert (Hsens : slope_sensitivity (log_log_points df) <= 0.3).
  { rewrite Edf, decade_sensitivity.
    pose proof ln_10_gt_2 as HL.
    apply Rmult_le_reg_r with (5 * ln 10); [lra|].
    unfold Rdiv. rewrite Rmult_assoc, Rinv_l by lra. lra. }
  assert (Hhalf : Rabs (- slope - 0.5) <= 0.3 * delta).
  { rewrite Hrate. eapply Rle_trans; [exact Hbound|]. nra. }
  split; [exact Hhalf|].
  replace (- slope / 0.5 - 1) with (2 * (- slope - 0.5)) by lra.
  rewrite Rabs_mult, (Rabs_right 2) by lra. lra.
Qed.

Lemma nearest_inverse_sqrt_rows_series :
  ObservationSeries nearest_inverse_sqrt_rows.
Proof.
  split.
  - repeat constructor; simpl; lia.
  - unfold counts, nearest_inverse_sqrt_rows, decade_rows. simpl.
    repeat constructor; lia.
Qed.

(** A positive error [e] whose square is close to [1 / n] has its
    logarithm close to that of [1 / sqrt n]. *)
Lemma ln_error_near_inverse_sqrt (e x : R) :
  0 < e -> 0 < x -> Rabs (x * (e * e) - 1) <= 1 / 2 ->
  Rabs (ln e - ln (1 / sqrt x)) <= Rabs (x * (e * e) - 1).
Proof.
  intros He Hx Hnear.
  rewrite ln_inverse_sqrt by lra. rewrite ln_1.
  assert (E : ln (x * (e * e)) = ln x + (ln e + ln e)).
  { rewrite ln_mult, ln_mult; try assumption; [reflexivity|].
    now apply Rmult_lt_0_compat. }
  pose proof (ln_near_one (x * (e * e)) Hnear) as H.
  rewrite E in H.
  replace (ln e - (0 - ln x / 2)) with ((ln x + (ln e + ln e)) / 2) by lra.
  unfold Rdiv. rewrite Rabs_mult, (Rabs_right (/ 2)) by lra. lra.
Qed.

Lemma rate_tolerates_errors_near_inverse_sqrt_witness :
  exists slope intercept,
    polyfit1 (log_samples nearest_inverse_sqrt_rows)
             (log_errors nearest_inverse_sqrt_rows) =
      Returned (Fin slope, Fin intercept) /\
    Rabs (- slope - 0.5) <= 0.3 * 1e-15 /\
    Rabs (- slope / 0.5 - 1) <= 0.6 * 1e-15.
Proof.
  destruct (rate_tolerates_errors_near_inverse_sqrt nearest_inverse_sqrt_rows
              1 1e-15 nearest_inverse_sqrt_rows_series ltac:(simpl; lia)
              ltac:(lra))
    as (slope & intercept & Hfit & _ & Hdec).
  - intros o Ho.
    assert (Hrow : 0 < Error o /\ 0 < IZR (Sample_Count o) /\
                   Rabs (IZR (Sample_Count o) * (Error o * Error o) - 1)
                   <= 1e-15).
    { destruct Ho as [<- | [<- | [<- | [<- | [<- | []]]]]]; cbn [Error Sample_Count];
        (split; [lra|]); (split; [lra|]);
        unfold Rabs; destruct Rcase_abs; lra. }
    destruct Hrow as (He & Hn & Hsq).
    split; [exact He|].
    eapply Rle_trans; [apply ln_error_near_inverse_sqrt|]; try assumption.
    lra.
  - exists slope, intercept. split; [exact Hfit|].
    exact (Hdec _ _ _ _ _ eq_refl).
Defined.

End RateTolerance.


(* ===================================================================== *)
(** ** Order of the printed statistics *)
(* ===================================================================== *)

Section StatisticsOrder.

Local Open Scope R_scope.

Lemma sum_lower_bound (l : list R) (m : R) :
  (forall x, In x l -> m <= x) -> INR (List.length l) * m <= sum l.
Proof.
  induction l as [|y l IH]; intros H.
  - simpl. lra.
  - simpl List.length. rewrite S_INR, sum_cons.
    assert (m <= y) by (apply H; now left).
    assert (INR (List.length l) * m <= sum l)
      by (apply IH; intros x Hx; apply H; now right).
    lra.
Qed.

Lemma sum_upper_bound (l : list R) (m : R) :
  (forall x, In x l -> x <= m) -> sum l <= INR (List.length l) * m.
Proof.
  induction l as [|y l IH]; intros H.
  - simpl. lra.
  - simpl List.length. rewrite S_INR, sum_cons.
    assert (y <= m) by (apply H; now left).
    assert (sum l <= INR (List.length l) * m)
      by (apply IH; intros x Hx; apply H; now right).
    lra.
Qed.

Lemma column_order (l : list R) :
  l <> [] ->
  exists mn me mx,
    col_min l = Fin mn /\ col_mean l = Fin me /\ col_max l = Fin mx /\
    mn <= me <= mx.
Proof.
  intros Hne. pose proof (length_INR_pos l Hne) as Hn.
  destruct (col_min_spec l Hne) as (mn & Emn & _ & Hmn).
  destruct (col_max_spec l Hne) as (mx & Emx & _ & Hmx).
  destruct (col_mean_spec l Hne) as (me & Eme & Hme).
  exists mn, me, mx. repeat split; try assumption.
  - unfold is_mean in Hme. pose proof (sum_lower_bound l mn Hmn). nra.
  - unfold is_mean in Hme. pose proof (sum_upper_bound l mx Hmx). nra.
Qed.

(** X8.  For a table with at least one row, [create_summary_report]
    prints its statistics, and the minimum, mean and maximum it prints for
    the errors and for the estimates are finite numbers which, in exact
    arithmetic, come in that order: minimum <= mean <= maximum.  (In
    binary64 the mean of a column can leave the interval by a rounding, as
    it does for three rows of 0.1.) *)
Theorem printed_statistics_are_ordered (fs : FileSystem) (f : string)
  (df : DataFrame) (w : World) :
  fs f = Table df ->
  df <> [] ->
  exists r w' final_estimate final_error rest emn eme emx pmn pme pmx,
    create_summary_report fs f w = (r, w') /\
    stdout w' =
      stdout w ++ report_head f df final_estimate final_error ++ rest /\
    col_min (errors df) = Fin emn /\ col_mean (errors df) = Fin eme /\
    col_max (errors df) = Fin emx /\ emn <= eme <= emx /\
    col_min (estimates df) = Fin pmn /\ col_mean (estimates df) = Fin pme /\
    col_max (estimates df) = Fin pmx /\ pmn <= pme <= pmx.
Proof.
  intros Hfs Hne.
  destruct (create_summary_report_head fs f df w Hfs Hne)
    as (r & w' & fe & fe' & rest & Hrun & _ & _ & Hout).
  destruct (column_order (errors df)) as (emn & eme & emx & E1 & E2 & E3 & E4).
  { unfold errors. destruct df; [contradiction | discriminate]. }
  destruct (column_order (estimates df)) as (pmn & pme & pmx & P1 & P2 & P3 & P4).
  { unfold estimates. destruct df; [contradiction | discriminate]. }
  exists r, w', fe, fe', rest, emn, eme, emx, pmn, pme, pmx.
  repeat (split; [assumption|]). assumption.
Qed.

Lemma printed_statistics_are_ordered_witness :
  exists emn eme emx,
    col_min (errors square_rows) = Fin emn /\
    col_mean (errors square_rows) = Fin eme /\
    col_max (errors square_rows) = Fin emx /\ emn <= eme <= emx.
Proof.
  destruct (printed_statistics_are_ordered (sample_files (Table square_rows))
              "results.csv" square_rows empty_world eq_refl ltac:(discriminate))
    as (r & w' & fe & fe' & rest & emn & eme & emx & pmn & pme & pmx
        & _ & _ & E1 & E2 & E3 & E4 & _).
  exists emn, eme, emx. repeat split; try assumption; apply E4.
Defined.

End StatisticsOrder.

(* ===================================================================== *)
(** ** What a call appends to the output *)
(* ===================================================================== *)

Section Appended.

Local Open Scope string_scope.
Local Open Scope list_scope.

Ltac run_program :=
  cbv beta iota zeta delta [bind lift print emit ret raise stdout display].

(** Closes [emits] goals once the lists of lines and actions are known or
    can be read off the evaluated program. *)
Ltac frame_done :=
  intros [so di]; run_program; rewrite <- ?app_assoc;
  apply (f_equal (pair _)); apply f_equal2;
  first [ reflexivity | symmetry; apply app_nil_r ].

Lemma world_eta (w : World) :
  {| stdout := stdout w ++ []; display := display w ++ [] |} = w.
Proof. destruct w. simpl. now rewrite !app_nil_r. Qed.

Lemma emits_ret {A : Type} (a : A) : emits (ret a) (Returned a) [] [].
Proof. intros w. unfold ret. now rewrite world_eta. Qed.

Lemma emits_raise {A : Type} (e : exn) : emits (@raise A e) (Raised e) [] [].
Proof. intros w. unfold raise. now rewrite world_eta. Qed.

Lemma emits_print (l : Line) : emits (print l) (Returned tt) [l] [].
Proof. intros w. unfold print. now rewrite app_nil_r. Qed.

Lemma emits_bind {A B : Type} (m : M A) (k : A -> M B) (a : A)
  (r : result B) (l1 l2 : list Line) (a1 a2 : list Action) :
  emits m (Returned a) l1 a1 -> emits (k a) r l2 a2 ->
  emits (bind m k) r (l1 ++ l2) (a1 ++ a2).
Proof.
  intros H1 H2 w. unfold bind. rewrite H1, H2. simpl.
  now rewrite !app_assoc.
Qed.

Lemma emits_bind_raised {A B : Type} (m : M A) (k : A -> M B) (e : exn)
  (l : list Line) (a : list Action) :
  emits m (Raised e) l a -> emits (bind m k) (Raised e) l a.
Proof. intros H w. unfold bind. now rewrite H. Qed.

(** [np.polyfit] raises nothing but TypeError and LinAlgError. *)
Lemma polyfit1_raises (x y : list npfloat) (e : exn) :
  polyfit1 x y = Raised e -> e = TypeError \/ e = LinAlgError.
Proof.
  unfold polyfit1. destruct x as [|v x]; [intros H; injection H; auto|].
  destruct (all_finite (v :: x)) as [xs|]; [|intros H; injection H; auto].
  destruct (Req_dec_T _ 0); [intros H; injection H; auto|].
  destruct (all_finite y) as [ys|]; [|discriminate].
  destruct (Req_dec_T _ 0); discriminate.
Qed.

Lemma plot_convergence_emits (fs : FileSystem) (f : string)
  (out : option string) :
  exists lines acts, emits (plot_convergence fs f out) (Returned tt) lines acts.
Proof.
  unfold plot_convergence, read_csv.
  destruct (fs f) as [| |df].
  - exists [msg_not_found f], []. frame_done.
  - exists [msg_empty f], []. frame_done.
  - destruct (is_set out).
    + do 2 eexists. frame_done.
    + exists []. eexists. frame_done.
Qed.

Lemma plot_error_analysis_emits (fs : FileSystem) (f : string)
  (out : option string) :
  exists r lines acts,
    emits (plot_error_analysis fs f out) r lines acts /\
    (forall e, r = Raised e -> exit_status (@Raised unit e) = 1%Z).
Proof.
  unfold plot_error_analysis, read_csv.
  destruct (fs f) as [| |df].
  - exists (Returned tt), [msg_not_found f], [].
    split; [frame_done | discriminate].
  - exists (Raised EmptyDataError), [], [].
    split; [frame_done | intros e E; now injection E as <-].
  - unfold ufunc_on_counts.
    destruct (numeric_column (counts df)).
    2:{ exists (Raised TypeError), [], [].
        split; [frame_done | intros e E; now injection E as <-]. }
    destruct df as [|o df].
    + exists (Raised IndexError), [], [].
      split; [frame_done | intros e E; now injection E as <-].
    + assert (Hest : iloc_last (estimates (o :: df)) =
                     Returned (last (estimates df) (Pi_Estimate o)))
        by reflexivity.
      assert (Herr : iloc_last (errors (o :: df)) =
                     Returned (last (errors df) (Error o))) by reflexivity.
      assert (Hrel : iloc_last (relative_error (o :: df)) =
                     Returned (last (relative_error df)
                                 (Error o / np_pi * 100)%R)) by reflexivity.
      rewrite Hest, Herr, Hrel.
      destruct (1 <? List.length (o :: df))%nat.
      * run_program.
        destruct (polyfit1 (log_samples (o :: df)) (log_errors (o :: df)))
          as [c | e] eqn:Hfit.
        -- destruct (is_set out).
           ++ exists (Returned tt). do 2 eexists.
              split; [frame_done | discriminate].
           ++ exists (Returned tt), []. eexists.
              split; [frame_done | discriminate].
        -- exists (Raised e), [], []. split; [frame_done|].
           intros e' E. injection E as <-.
           destruct (polyfit1_raises _ _ _ Hfit) as [-> | ->]; reflexivity.
      * destruct (is_set out).
        -- exists (Returned tt). do 2 eexists.
           split; [frame_done | discriminate].
        -- exists (Returned tt), []. eexists.
           split; [frame_done | discriminate].
Qed.

Lemma create_summary_report_emits (fs : FileSystem) (f : string) :
  exists r lines,
    emits (create_summary_report fs f) r lines [] /\
    (forall e, r = Raised e -> exit_status (@Raised unit e) = 1%Z).
Proof.
  unfold create_summary_report, read_csv.
  destruct (fs f) as [| |df].
  - exists (Returned tt), [msg_not_found f].
    split; [frame_done | discriminate].
  - exists (Raised EmptyDataError), [].
    split; [frame_done | intros e E; now injection E as <-].
  - destruct df as [|o df].
    + exists (Raised IndexError). eexists.
      split; [frame_done | intros e E; now injection E as <-].
    + assert (Hest : iloc_last (estimates (o :: df)) =
                     Returned (last (estimates df) (Pi_Estimate o)))
        by reflexivity.
      assert (Herr : iloc_last (errors (o :: df)) =
                     Returned (last (errors df) (Error o))) by reflexivity.
      rewrite !Hest, !Herr. unfold ufunc_on_counts.
      destruct (1 <? List.length (o :: df))%nat.
      * destruct (numeric_column (counts (o :: df))).
        -- run_program.
           destruct (polyfit1 (log_samples (o :: df)) (log_errors (o :: df)))
             as [c | e] eqn:Hfit.
           ++ exists (Returned tt). eexists.
              split; [frame_done | discriminate].
           ++ exists (Raised e). eexists. split; [frame_done|].
              intros e' E. injection E as <-.
              destruct (polyfit1_raises _ _ _ Hfit) as [-> | ->]; reflexivity.
        -- exists (Raised TypeError). eexists.
           split; [frame_done | intros e E; now injection E as <-].
      * exists (Returned tt). eexists.
        split; [frame_done | discriminate].
Qed.

(** The dispatch of [main]: what it emits, and that an exception out of
    it is never a SystemExit. *)
Lemma dispatch_emits (fs : FileSystem) (args : Args) :
  exists r lines acts,
    emits (match type args with
           | convergence => plot_convergence fs (csv_file args) (output args)
           | error => plot_error_analysis fs (csv_file args) (output args)
           | summary => create_summary_report fs (csv_file args)
           end) r lines acts /\
    (forall e, r = Raised e -> exit_status (@Raised unit e) = 1%Z).
Proof.
  destruct (type args).
  - destruct (plot_convergence_emits fs (csv_file args) (output args))
      as (l & a & H).
    exists (Returned tt), l, a. split; [exact H | discriminate].
  - apply plot_error_analysis_emits.
  - destruct (create_summary_report_emits fs (csv_file args))
      as (r & l & H & Hr).
    exists r, l, []. split; assumption.
Qed.

End Appended.

(* ===================================================================== *)
(** ** Where the figure goes *)
(* ===================================================================== *)

Section Routing.

Local Open Scope string_scope.
Local Open Scope list_scope.

Lemma is_set_true (out : option string) :
  is_set out = true <-> exists p, out = Some p /\ p <> EmptyString.
Proof.
  destruct out as [p|]; simpl.
  - rewrite negb_true_iff, String.eqb_neq. split.
    + intros H. exists p. now split.
    + intros (q & E & H). now injection E as ->.
  - split; [discriminate | intros (q & E & _); discriminate].
Qed.

Lemma is_set_false (out : option string) :
  is_set out = false <-> out = None \/ out = Some EmptyString.
Proof.
  destruct out as [p|]; simpl.
  - rewrite negb_false_iff, String.eqb_eq. split.
    + intros ->. now right.
    + intros [E | E]; [discriminate | now injection E].
  - split; [now left | reflexivity].
Qed.

(** X10.  On a table, [plot_convergence] either saves its figure or shows
    it, never both (rendering and saving taken to succeed).  With a
    non-empty output name the figure is saved under exactly that name and
    one confirmation line is printed; without an output name, or with the
    empty string, the figure is shown and nothing is printed.
    [plot_error_analysis] routes its figure the same way on every
    analysable table: at least one row, counts that fit a 64-bit integer
    column and, from two rows on, positive counts not all equal to one and
    positive errors. *)
Theorem figure_is_saved_or_shown (fs : FileSystem) (f : string)
  (out : option string) (df : DataFrame) (w : World) :
  fs f = Table df ->
  (exists w' fig,
      plot_convergence fs f out w = (Returned tt, w') /\
      (forall p, out = Some p -> p <> EmptyString ->
         display w' = display w ++ [SaveFig p fig] /\
         stdout w' = stdout w ++ [[Str "Plot saved to "; Str p]]) /\
      (out = None \/ out = Some EmptyString ->
         display w' = display w ++ [Show fig] /\ stdout w' = stdout w)) /\
  (analysable df ->
   exists w' fig,
      plot_error_analysis fs f out w = (Returned tt, w') /\
      (forall p, out = Some p -> p <> EmptyString ->
         display w' = display w ++ [SaveFig p fig] /\
         stdout w' = stdout w ++ [[Str "Error analysis plot saved to "; Str p]]) /\
      (out = None \/ out = Some EmptyString ->
         display w' = display w ++ [Show fig] /\ stdout w' = stdout w)).
Proof.
  intros Hfs. split.
  - destruct (plot_convergence_table fs f out df w Hfs)
      as (w' & fig & Hrun & Hdisp & Hout & _).
    exists w', fig. split; [exact Hrun|]. split.
    + intros p -> Hp.
      assert (E : is_set (Some p) = true)
        by (apply is_set_true; exists p; now split).
      rewrite E in Hdisp, Hout. now split.
    + intros Hnone. apply is_set_false in Hnone.
      rewrite Hnone in Hdisp, Hout. rewrite app_nil_r in Hout. now split.
  - intros Han.
    destruct (analysable_fit df Han) as (c & Hfit).
    destruct Han as (Hne & Hnum & _).
    destruct (plot_error_analysis_table fs f out df c w Hfs Hne Hnum Hfit)
      as (w' & fig & Hrun & Hdisp & Hout & _).
    exists w', fig. split; [exact Hrun|]. split.
    + intros p -> Hp.
      assert (E : is_set (Some p) = true)
        by (apply is_set_true; exists p; now split).
      rewrite E in Hdisp, Hout. now split.
    + intros Hnone. apply is_set_false in Hnone.
      rewrite Hnone in Hdisp, Hout. rewrite app_nil_r in Hout. now split.
Qed.

Lemma figure_is_saved_or_shown_witness :
  (exists w' fig,
     plot_convergence (sample_files (Table square_rows)) "results.csv"
       (Some "plot.png") empty_world = (Returned tt, w') /\
     display w' = [SaveFig "plot.png" fig] /\
     stdout w' = [[Str "Plot saved to "; Str "plot.png"]]) /\
  (exists w' fig,
     plot_error_analysis (sample_files (Table square_rows)) "results.csv"
       (Some "plot.png") empty_world = (Returned tt, w') /\
     display w' = [SaveFig "plot.png" fig] /\
     stdout w' = [[Str "Error analysis plot saved to "; Str "plot.png"]]).
Proof.
  destruct (figure_is_saved_or_shown (sample_files (Table square_rows))
              "results.csv" (Some "plot.png") square_rows
              empty_world eq_refl)
    as ((w1 & fig1 & Hrun1 & Hsave1 & _) & H2).
  split.
  - exists w1, fig1. split; [exact Hrun1|].
    apply (Hsave1 "plot.png" eq_refl). discriminate.
  - destruct (H2 square_rows_analysable)
      as (w2 & fig2 & Hrun2 & Hsave2 & _).
    exists w2, fig2. split; [exact Hrun2|].
    apply (Hsave2 "plot.png" eq_refl). discriminate.
Defined.

(** X11.  With more than ten rows [plot_convergence] draws the histogram
    of the estimates with [min(20, len(df) // 5)] bins: at least 2, at
    most 20, never more than a fifth of the rows, and 20 exactly from one
    hundred rows on. *)
Theorem histogram_has_2_to_20_bins (fs : FileSystem) (f : string)
  (out : option string) (df : DataFrame) (w : World) :
  fs f = Table df ->
  (10 < List.length df)%nat ->
  exists w' fig bins,
    plot_convergence fs f out w = (Returned tt, w') /\
    display w' =
      display w ++ [if is_set out then SaveFig (str_of out) fig else Show fig] /\
    subplot 4 fig =
      Some {| title := [Str "Distribution of π Estimates"];
              artists := [Hist (estimates df) bins;
                          Axvline np_pi [Str "Actual π"]] |} /\
    (2 <= bins <= 20)%Z /\
    (5 * bins <= Z.of_nat (List.length df))%Z /\
    (bins = 20%Z <-> (100 <= List.length df)%nat).
Proof.
  intros Hfs Hlen.
  destruct (plot_convergence_table fs f out df w Hfs)
    as (w' & fig & Hrun & Hdisp & _ & _ & _ & H4 & _).
  assert (E : (10 <? List.length df)%nat = true) by (apply Nat.ltb_lt; lia).
  rewrite E in H4.
  exists w', fig, (Z.min 20 (Z.of_nat (List.length df) / 5)).
  split; [exact Hrun|]. split; [exact Hdisp|]. split; [exact H4|].
  set (n := Z.of_nat (List.length df)).
  assert (Hn : (10 < n)%Z) by (unfold n; lia).
  pose proof (Z.div_mod n 5 ltac:(lia)) as Hdm.
  pose proof (Z.mod_pos_bound n 5 ltac:(lia)) as Hmod.
  assert (Hl : (100 <= List.length df)%nat <-> (100 <= n)%Z)
    by (unfold n; lia).
  rewrite Hl.
  destruct (Z.min_spec 20 (n / 5)) as [[Hc ->] | [Hc ->]]; lia.
Qed.

Lemma histogram_has_2_to_20_bins_witness :
  let rows := repeat {| Sample_Count := 10; Pi_Estimate := 3; Error := 0.5%R |} 11 in
  exists w' fig bins,
    plot_convergence (sample_files (Table rows)) "results.csv" None empty_world
      = (Returned tt, w') /\
    display w' = [] ++ [Show fig] /\
    subplot 4 fig =
      Some {| title := [Str "Distribution of π Estimates"];
              artists := [Hist (estimates rows) bins;
                          Axvline np_pi [Str "Actual π"]] |} /\
    (2 <= bins <= 20)%Z /\
    (5 * bins <= 11)%Z /\
    (bins = 20%Z <-> (100 <= 11)%nat).
Proof.
  intros rows.
  apply (histogram_has_2_to_20_bins (sample_files (Table rows)) "results.csv"
           None rows empty_world).
  - reflexivity.
  - simpl. lia.
Defined.

End Routing.

(* ===================================================================== *)
(** ** Which exceptions escape, and the exit status *)
(* ===================================================================== *)

Section Exceptions.

Local Open Scope string_scope.
Local Open Scope list_scope.

Ltac run_program :=
  cbv beta iota zeta delta [bind lift print emit ret raise stdout display].

(** X12.  [plot_convergence] never lets an exception escape: it returns
    whatever the path holds, having drawn one figure when the path holds a
    table and none otherwise. *)
Theorem plot_convergence_never_raises (fs : FileSystem) (f : string)
  (out : option string) (w : World) :
  exists w',
    plot_convergence fs f out w = (Returned tt, w') /\
    match fs f with
    | Table _ => exists a, display w' = display w ++ [a]
    | _ => display w' = display w
    end.
Proof.
  unfold plot_convergence, read_csv.
  destruct (fs f) as [| |df].
  - eexists. split; reflexivity.
  - eexists. split; reflexivity.
  - destruct (is_set out); run_program.
    + eexists. split; [reflexivity|]. eexists. reflexivity.
    + eexists. split; [reflexivity|]. eexists. reflexivity.
Qed.

(** X13.  Whether the path is missing, holds a file without columns or
    holds a table of the three columns, an exception that escapes
    [plot_error_analysis] is the EmptyDataError of a file without columns,
    the TypeError that [np.sqrt] raises on a Sample_Count column that fits
    no 64-bit integer type, the IndexError of a table without rows, or the
    exception [np.polyfit] raised on a table of two rows or more; in every
    case nothing has been printed or drawn (rendering and saving taken to
    succeed). *)
Theorem plot_error_analysis_exceptions (fs : FileSystem) (f : string)
  (out : option string) (w w' : World) (e : exn) :
  plot_error_analysis fs f out w = (Raised e, w') ->
  w' = w /\
  ((e = EmptyDataError /\ fs f = EmptyFile) \/
   (exists df, e = TypeError /\ fs f = Table df /\
               numeric_column (counts df) = false) \/
   (e = IndexError /\ fs f = Table []) \/
   (exists df, fs f = Table df /\ numeric_column (counts df) = true /\
               (2 <= List.length df)%nat /\
               polyfit1 (log_samples df) (log_errors df) = Raised e)).
Proof.
  unfold plot_error_analysis, read_csv.
  destruct (fs f) as [| |df] eqn:Hfs.
  - unfold print. discriminate.
  - unfold raise. intros H. injection H as <- <-. auto.
  - unfold ufunc_on_counts.
    destruct (numeric_column (counts df)) eqn:Hnum.
    2:{ run_program. intros H. injection H as <- <-.
        split; [reflexivity|]. right. left. exists df. auto. }
    destruct df as [|o df].
    + change (1 <? List.length (@nil Observation))%nat with false.
      change (iloc_last (estimates [])) with (@Raised R IndexError).
      run_program. intros H. injection H as <- <-.
      split; [reflexivity|]. right. right. left. split; reflexivity.
    + assert (Hest : iloc_last (estimates (o :: df)) =
                     Returned (last (estimates df) (Pi_Estimate o)))
        by reflexivity.
      assert (Herr : iloc_last (errors (o :: df)) =
                     Returned (last (errors df) (Error o))) by reflexivity.
      assert (Hrel : iloc_last (relative_error (o :: df)) =
                     Returned (last (relative_error df)
                                 (Error o / np_pi * 100)%R)) by reflexivity.
      rewrite Hest, Herr, Hrel.
      destruct (1 <? List.length (o :: df))%nat eqn:Hlen.
      * run_program.
        destruct (polyfit1 (log_samples (o :: df)) (log_errors (o :: df)))
          as [c | e0] eqn:Hfit.
        -- destruct (is_set out); run_program; discriminate.
        -- run_program. intros H. injection H as <- <-.
           split; [reflexivity|]. right. right. right.
           exists (o :: df). split; [reflexivity|]. split; [exact Hnum|].
           split; [apply Nat.ltb_lt in Hlen; lia | exact Hfit].
      * destruct (is_set out); run_program; discriminate.
Qed.

Lemma plot_error_analysis_exceptions_witness :
  empty_world = empty_world /\
  ((TypeError = EmptyDataError /\
    sample_files (Table oversized_row) "results.csv" = EmptyFile) \/
   (exists df, TypeError = TypeError /\
               sample_files (Table oversized_row) "results.csv" = Table df /\
               numeric_column (counts df) = false) \/
   (TypeError = IndexError /\
    sample_files (Table oversized_row) "results.csv" = Table []) \/
   (exists df, sample_files (Table oversized_row) "results.csv" = Table df /\
               numeric_column (counts df) = true /\
               (2 <= List.length df)%nat /\
               polyfit1 (log_samples df) (log_errors df) = Raised TypeError)).
Proof.
  apply (plot_error_analysis_exceptions (sample_files (Table oversized_row))
           "results.csv" None empty_world empty_world TypeError).
  reflexivity.
Defined.

(** X14.  Whether the path is missing, holds a file without columns or
    holds a table of the three columns whose counts fit a 64-bit integer
    column, an exception that escapes [create_summary_report] is the
    EmptyDataError of a file without columns (nothing printed), the
    IndexError of a table without rows (after the three title lines), or
    the exception [np.polyfit] raised on a table of two rows or more,
    after every statistic has been printed and before the convergence
    section; nothing is ever drawn. *)
Theorem create_summary_report_exceptions (fs : FileSystem) (f : string)
  (w w' : World) (e : exn) :
  create_summary_report fs f w = (Raised e, w') ->
  (forall df, fs f = Table df -> numeric_column (counts df) = true) ->
  display w' = display w /\
  ((e = EmptyDataError /\ fs f = EmptyFile /\ stdout w' = stdout w) \/
   (e = IndexError /\ fs f = Table [] /\
    stdout w' =
      stdout w ++ [ [Str (nl ++ rule)];
                    [Str "MONTE CARLO π ESTIMATION SUMMARY REPORT"];
                    [Str rule] ]) \/
   (exists df final_estimate final_error,
      fs f = Table df /\ (2 <= List.length df)%nat /\
      polyfit1 (log_samples df) (log_errors df) = Raised e /\
      stdout w' =
        stdout w ++ report_head f df final_estimate final_error)).
Proof.
  unfold create_summary_report, read_csv.
  destruct (fs f) as [| |df] eqn:Hfs.
  - unfold print. discriminate.
  - unfold raise. intros H _. injection H as <- <-. auto.
  - intros H Hnum. specialize (Hnum df eq_refl). revert H.
    destruct df as [|o df].
    + change (iloc_last (estimates [])) with (@Raised R IndexError).
      run_program. intros H. injection H as <- <-.
      cbv beta iota delta [stdout display].
      split; [reflexivity|]. right. left.
      split; [reflexivity|]. split; [reflexivity|].
      rewrite <- !app_assoc. reflexivity.
    + assert (Hest : iloc_last (estimates (o :: df)) =
                     Returned (last (estimates df) (Pi_Estimate o)))
        by reflexivity.
      assert (Herr : iloc_last (errors (o :: df)) =
                     Returned (last (errors df) (Error o))) by reflexivity.
      rewrite !Hest, !Herr. unfold ufunc_on_counts. rewrite Hnum.
      destruct (1 <? List.length (o :: df))%nat eqn:Hlen.
      * run_program.
        destruct (polyfit1 (log_samples (o :: df)) (log_errors (o :: df)))
          as [c | e0] eqn:Hfit.
        -- run_program. discriminate.
        -- run_program. intros H.
           assert (Ee : e0 = e) by congruence.
           apply (f_equal snd) in H. cbn [snd] in H. subst e w'.
           cbv beta iota delta [stdout display].
           split; [reflexivity|]. right. right.
           exists (o :: df), (last (estimates df) (Pi_Estimate o)),
             (last (errors df) (Error o)).
           split; [reflexivity|].
           split; [apply Nat.ltb_lt in Hlen; lia|].
           split; [exact Hfit|].
           unfold report_head. rewrite <- !app_assoc. reflexivity.
      * run_program. discriminate.
Qed.

Lemma create_summary_report_exceptions_witness :
  exists w',
    create_summary_report (sample_files (Table [])) "results.csv" empty_world
      = (Raised IndexError, w') /\
    display w' = [] /\
    stdout w' = [ [Str (nl ++ rule)];
                  [Str "MONTE CARLO π ESTIMATION SUMMARY REPORT"];
                  [Str rule] ].
Proof.
  eexists. split; [reflexivity|].
  destruct (create_summary_report_exceptions (sample_files (Table []))
              "results.csv" empty_world _ IndexError eq_refl)
    as (Hd & [(E & _) | [(_ & _ & Ho) | (df & fe & fe' & E & Hlen & _)]]).
  - intros df E. injection E as <-. reflexivity.
  - discriminate E.
  - split; [exact Hd | exact Ho].
  - injection E as <-. simpl in Hlen. lia.
Defined.

(** [main] after a dispatch that raised. *)
Lemma main_after_raise (fs : FileSystem) (args : Args) (w w' : World) (e : exn) :
  path_exists fs (csv_file args) = true ->
  match type args with
  | convergence => plot_convergence fs (csv_file args) (output args)
  | error => plot_error_analysis fs (csv_file args) (output args)
  | summary => create_summary_report fs (csv_file args)
  end w = (Raised e, w') ->
  main fs args w = (Raised e, w').
Proof.
  intros Hex Hrun. unfold main. rewrite Hex. simpl negb. cbv iota.
  unfold bind at 1. unfold ret at 1. unfold bind at 1. now rewrite Hrun.
Qed.

Lemma main_missing (fs : FileSystem) (args : Args) (w : World) :
  path_exists fs (csv_file args) = false ->
  main fs args w =
  (Raised (SystemExit 1),
   {| stdout := stdout w ++ [msg_not_found (csv_file args)];
      display := display w |}).
Proof.
  intros Hex. unfold main. rewrite Hex. reflexivity.
Qed.

(** The dispatch of [main] raises no SystemExit. *)
Lemma dispatch_exit_status (fs : FileSystem) (args : Args) (w w' : World)
  (e : exn) :
  match type args with
  | convergence => plot_convergence fs (csv_file args) (output args)
  | error => plot_error_analysis fs (csv_file args) (output args)
  | summary => create_summary_report fs (csv_file args)
  end w = (Raised e, w') ->
  exit_status (@Raised unit e) = 1%Z.
Proof.
  intros H.
  destruct (dispatch_emits fs args) as (r & lines & acts & Hd & Hr).
  rewrite Hd in H. injection H as -> _. now apply Hr.
Qed.

(** X15.  Once the command line has been parsed, the exit status of the
    script is 0 or 1, whatever the file system and the arguments: 0
    exactly when [main] returns, 1 after [sys.exit(1)] and after any
    uncaught exception. *)
Theorem exit_status_is_zero_or_one (fs : FileSystem) (args : Args) :
  (fst (run fs args) = 0%Z /\
   exists w, main fs args empty_world = (Returned tt, w)) \/
  (fst (run fs args) = 1%Z /\
   exists e w, main fs args empty_world = (Raised e, w)).
Proof.
  unfold run.
  destruct (path_exists fs (csv_file args)) eqn:Hex.
  - destruct (match type args with
              | convergence => plot_convergence fs (csv_file args) (output args)
              | error => plot_error_analysis fs (csv_file args) (output args)
              | summary => create_summary_report fs (csv_file args)
              end empty_world) as [[[] | e] w'] eqn:Hd.
    + destruct (main_after_dispatch fs args empty_world w' Hex Hd)
        as (w'' & Hm & _).
      rewrite Hm. left. split; [reflexivity | eauto].
    + rewrite (main_after_raise fs args empty_world w' e Hex Hd).
      right. split; [|eauto].
      exact (dispatch_exit_status fs args empty_world w' e Hd).
  - rewrite (main_missing fs args empty_world Hex).
    right. split; [reflexivity | eauto].
Qed.

(** X16.  The [--no-display] flag changes neither the exit status nor
    what is shown or saved: it only decides whether the two closing lines
    are printed, which without the flag happens exactly when [main]
    returns and a non-empty output name was given.  In particular a figure
    without output file is shown even under [--no-display]. *)
Theorem no_display_only_affects_closing_lines (fs : FileSystem) (args : Args) :
  fst (run fs (with_no_display true args)) =
    fst (run fs (with_no_display false args)) /\
  display (snd (run fs (with_no_display true args))) =
    display (snd (run fs (with_no_display false args))) /\
  stdout (snd (run fs (with_no_display false args))) =
    stdout (snd (run fs (with_no_display true args)))
    ++ (if (fst (run fs (with_no_display false args)) =? 0)%Z
           && is_set (output args)
        then [ [Str nl; Str "Plot saved to: "; Str (str_of (output args))];
               [Str "You can also view it with: display"; Str " ";
                Str (str_of (output args))] ]
        else []) /\
  (forall df,
     fs (csv_file args) = Table df ->
     type args = convergence ->
     is_set (output args) = false ->
     exists fig,
       display (snd (run fs (with_no_display true args))) = [Show fig]).
Proof.
  assert (Hsplit :
    fst (run fs (with_no_display true args)) =
      fst (run fs (with_no_display false args)) /\
    display (snd (run fs (with_no_display true args))) =
      display (snd (run fs (with_no_display false args))) /\
    stdout (snd (run fs (with_no_display false args))) =
      stdout (snd (run fs (with_no_display true args)))
      ++ (if (fst (run fs (with_no_display false args)) =? 0)%Z
             && is_set (output args)
          then [ [Str nl; Str "Plot saved to: "; Str (str_of (output args))];
                 [Str "You can also view it with: display"; Str " ";
                  Str (str_of (output args))] ]
          else [])).
  { unfold run.
    assert (Hex1 : path_exists fs (csv_file (with_no_display true args)) =
                   path_exists fs (csv_file args)) by reflexivity.
    destruct (path_exists fs (csv_file args)) eqn:Hex.
    - destruct (match type args with
                | convergence => plot_convergence fs (csv_file args) (output args)
                | error => plot_error_analysis fs (csv_file args) (output args)
                | summary => create_summary_report fs (csv_file args)
                end empty_world) as [[[] | e] w'] eqn:Hd.
      + destruct (main_after_dispatch fs (with_no_display true args)
                    empty_world w' Hex Hd) as (w1 & Hm1 & Hd1 & Ho1).
        destruct (main_after_dispatch fs (with_no_display false args)
                    empty_world w' Hex Hd) as (w2 & Hm2 & Hd2 & Ho2).
        rewrite Hm1, Hm2. cbn [fst snd exit_status].
        split; [reflexivity|]. split; [congruence|].
        rewrite Ho1, Ho2. unfold trailer, with_no_display.
        cbn [output no_display negb]. rewrite andb_false_r, andb_true_r.
        rewrite app_nil_r. reflexivity.
      + rewrite (main_after_raise fs (with_no_display true args) empty_world
                   w' e Hex Hd).
        rewrite (main_after_raise fs (with_no_display false args) empty_world
                   w' e Hex Hd).
        cbn [fst snd].
        rewrite (dispatch_exit_status fs args empty_world w' e Hd).
        split; [reflexivity|]. split; [reflexivity|].
        now rewrite app_nil_r.
    - rewrite (main_missing fs (with_no_display true args) empty_world Hex).
      rewrite (main_missing fs (with_no_display false args) empty_world Hex).
      cbn [fst snd exit_status].
      split; [reflexivity|]. split; [reflexivity|].
      now rewrite app_nil_r. }
  destruct Hsplit as (H1 & H2 & H3).
  split; [exact H1|]. split; [exact H2|]. split; [exact H3|].
  intros df Hfs Hmode Hout.
  assert (Hex : path_exists fs (csv_file args) = true)
    by (unfold path_exists; now rewrite Hfs).
  destruct (plot_convergence_table fs (csv_file args) (output args) df
              empty_world Hfs) as (w' & fig & Hrun & Hdisp & _).
  destruct (main_after_dispatch fs (with_no_display true args) empty_world w'
              Hex) as (w'' & Hm & Hd & _).
  { cbn [type with_no_display]. now rewrite Hmode. }
  unfold run. rewrite Hm. cbn [snd].
  exists fig. rewrite Hd, Hdisp, Hout. reflexivity.
Qed.

Lemma no_display_only_affects_closing_lines_witness :
  exists fig,
    display (snd (run (sample_files (Table square_rows))
                      (with_no_display true (sample_args convergence))))
    = [Show fig].
Proof.
  destruct (no_display_only_affects_closing_lines
              (sample_files (Table square_rows)) (sample_args convergence))
    as (_ & _ & _ & H).
  exact (H square_rows eq_refl eq_refl eq_refl).
Defined.

End Exceptions.

(* ===================================================================== *)
(** ** The two summaries agree; the closing lines of the driver *)
(* ===================================================================== *)

Section Summaries.

Local Open Scope string_scope.
Local Open Scope list_scope.

Ltac run_program :=
  cbv beta iota zeta delta [bind lift print emit ret raise stdout display].

Lemma last_map {A B : Type} (g : A -> B) (l : list A) (d : A) :
  last (map g l) (g d) = g (last l d).
Proof.
  revert d. induction l as [|x l IH]; intros d; [reflexivity|].
  destruct l as [|y l]; [reflexivity|].
  change (last (map g (x :: y :: l)) (g d)) with (last (map g (y :: l)) (g d)).
  change (last (x :: y :: l) d) with (last (y :: l) d).
  apply IH.
Qed.

(** The fifth sub-plot of [plot_error_analysis]. *)
Lemma plot_error_analysis_stats (fs : FileSystem) (f : string)
  (out : option string) (df : DataFrame) (c : npfloat * npfloat) (w : World) :
  fs f = Table df ->
  df <> [] ->
  numeric_column (counts df) = true ->
  ((1 <? List.length df)%nat = true ->
   polyfit1 (log_samples df) (log_errors df) = Returned c) ->
  exists w' fig final_estimate final_error,
    plot_error_analysis fs f out w = (Returned tt, w') /\
    display w' =
      display w ++ [if is_set out then SaveFig (str_of out) fig else Show fig] /\
    iloc_last (estimates df) = Returned final_estimate /\
    iloc_last (errors df) = Returned final_error /\
    subplot 5 fig =
      Some (stats_panel df final_estimate final_error
              (final_error / np_pi * 100)%R).
Proof.
  intros Hfs Hne Hnum Hfit. unfold plot_error_analysis, read_csv. rewrite Hfs.
  destruct df as [|o df]; [contradiction|].
  assert (Hest : iloc_last (estimates (o :: df)) =
                 Returned (last (estimates df) (Pi_Estimate o))) by reflexivity.
  assert (Herr : iloc_last (errors (o :: df)) =
                 Returned (last (errors df) (Error o))) by reflexivity.
  assert (Hrel : iloc_last (relative_error (o :: df)) =
                 Returned (last (errors df) (Error o) / np_pi * 100)%R).
  { unfold relative_error. cbn [errors map iloc_last].
    now rewrite (last_map (fun e => (e / np_pi * 100)%R)). }
  unfold ufunc_on_counts. rewrite Hnum.
  destruct (1 <? List.length (o :: df))%nat eqn:Hlen.
  - run_program. rewrite (Hfit eq_refl), Hest, Herr, Hrel.
    destruct (is_set out); run_program.
    + do 4 eexists. split; [reflexivity|].
      cbv beta iota delta [stdout display]. repeat split; reflexivity.
    + do 4 eexists. split; [reflexivity|].
      cbv beta iota delta [stdout display]. repeat split; reflexivity.
  - rewrite Hest, Herr, Hrel.
    destruct (is_set out); run_program.
    + do 4 eexists. split; [reflexivity|].
      cbv beta iota delta [stdout display]. repeat split; reflexivity.
    + do 4 eexists. split; [reflexivity|].
      cbv beta iota delta [stdout display]. repeat split; reflexivity.
Qed.

(** X17.  On a non-empty Observation Series with positive errors whose
    counts fit a 64-bit integer column, the text box drawn by
    [plot_error_analysis] and the report printed by
    [create_summary_report] show the same numbers: the same final
    estimate, final error and final relative error (the error of the last
    row over pi, in percent), and the same minimum, maximum, mean and
    standard deviation of the errors (rendering and saving taken to
    succeed). *)
Theorem stats_box_agrees_with_report (fs : FileSystem) (f : string)
  (out : option string) (df : DataFrame) (w : World) :
  fs f = Table df ->
  df <> [] ->
  ObservationSeries df ->
  errors_positive df ->
  numeric_column (counts df) = true ->
  exists final_estimate final_error w1 fig w2 rest,
    iloc_last (estimates df) = Returned final_estimate /\
    iloc_last (errors df) = Returned final_error /\
    plot_error_analysis fs f out w = (Returned tt, w1) /\
    display w1 =
      display w ++ [if is_set out then SaveFig (str_of out) fig else Show fig] /\
    subplot 5 fig =
      Some (stats_panel df final_estimate final_error
              (final_error / np_pi * 100)%R) /\
    create_summary_report fs f w = (Returned tt, w2) /\
    stdout w2 =
      stdout w ++ report_head f df final_estimate final_error ++ rest.
Proof.
  intros Hfs Hne Hs He Hnum.
  destruct (plot_error_analysis_stats fs f out df
              (Fin (fst (normal_equations (log_log_points df))),
               Fin (snd (normal_equations (log_log_points df)))) w
              Hfs Hne Hnum (series_fit df Hs He))
    as (w1 & fig & fe & fe' & Hrun1 & Hdisp & Hfe & Hfe' & H5).
  destruct (create_summary_report_table fs f df
              (Fin (fst (normal_equations (log_log_points df))),
               Fin (snd (normal_equations (log_log_points df)))) w
              Hfs Hne (series_report_fit df Hs He Hnum))
    as (w2 & ge & ge' & Hrun2 & Hge & Hge' & _ & Hout).
  assert (ge = fe) by congruence. assert (ge' = fe') by congruence. subst ge ge'.
  exists fe, fe', w1, fig, w2. eexists.
  repeat (split; [eassumption|]). exact Hout.
Qed.

Lemma stats_box_agrees_with_report_witness :
  exists final_estimate final_error w1 fig w2 rest,
    iloc_last (estimates square_rows) = Returned final_estimate /\
    iloc_last (errors square_rows) = Returned final_error /\
    plot_error_analysis (sample_files (Table square_rows)) "results.csv" None
      empty_world = (Returned tt, w1) /\
    display w1 = [] ++ [Show fig] /\
    subplot 5 fig =
      Some (stats_panel square_rows final_estimate final_error
              (final_error / np_pi * 100)%R) /\
    create_summary_report (sample_files (Table square_rows)) "results.csv"
      empty_world = (Returned tt, w2) /\
    stdout w2 =
      [] ++ report_head "results.csv" square_rows final_estimate final_error
      ++ rest.
Proof.
  apply (stats_box_agrees_with_report (sample_files (Table square_rows))
           "results.csv" None square_rows empty_world).
  - reflexivity.
  - discriminate.
  - exact square_rows_series.
  - exact square_rows_errors.
  - reflexivity.
Defined.

(** X18.  In summary mode nothing is ever drawn or saved, whatever the
    path holds.  Still, when a non-empty output file is named and display
    is not suppressed, a run on an analysable table (at least one row,
    counts that fit a 64-bit integer column and, from two rows on,
    positive counts not all equal to one and positive errors) exits with
    status zero and ends with the two lines announcing that the plot was
    saved to that file. *)
Theorem summary_mode_announces_a_plot_it_never_saves (fs : FileSystem)
  (args : Args) :
  type args = summary ->
  display (snd (run fs args)) = [] /\
  (forall df p,
     output args = Some p ->
     p <> EmptyString ->
     no_display args = false ->
     fs (csv_file args) = Table df ->
     analysable df ->
     exists w before,
       run fs args = (0%Z, w) /\
       display w = [] /\
       stdout w =
         before ++ [ [Str nl; Str "Plot saved to: "; Str p];
                     [Str "You can also view it with: display"; Str " ";
                      Str p] ]).
Proof.
  intros Hmode. split.
  - unfold run.
    destruct (path_exists fs (csv_file args)) eqn:Hex.
    + destruct (create_summary_report_emits fs (csv_file args))
        as (r & lines & Hem & _).
      pose proof (Hem empty_world) as Hrun.
      set (w' := {| stdout := stdout empty_world ++ lines;
                    display := display empty_world ++ [] |}) in Hrun.
      destruct r as [[] | e].
      * destruct (main_after_dispatch fs args empty_world w' Hex)
          as (w'' & Hm & Hd & _).
        { rewrite Hmode. exact Hrun. }
        rewrite Hm. cbn [snd]. rewrite Hd. reflexivity.
      * rewrite (main_after_raise fs args empty_world w' e Hex).
        -- reflexivity.
        -- rewrite Hmode. exact Hrun.
    + rewrite (main_missing fs args empty_world Hex). reflexivity.
  - intros df p Hout Hp Hnd Hfs Han.
    destruct (analysable_fit df Han) as (c & Hfit).
    destruct Han as (Hne & Hnum & _).
    assert (Hex : path_exists fs (csv_file args) = true)
      by (unfold path_exists; now rewrite Hfs).
    destruct (create_summary_report_table fs (csv_file args) df c
                empty_world Hfs Hne (fun H => conj Hnum (Hfit H)))
      as (w' & fe & fe' & Hrun & _ & _ & Hdisp & _).
    destruct (main_after_dispatch fs args empty_world w' Hex)
      as (w'' & Hm & Hd & Ho).
    { now rewrite Hmode. }
    unfold run. rewrite Hm. exists w'', (stdout w').
    split; [reflexivity|]. split; [now rewrite Hd, Hdisp|].
    rewrite Ho. unfold trailer. rewrite Hout, Hnd.
    assert (E : is_set (Some p) = true).
    { simpl. apply negb_true_iff, String.eqb_neq. exact Hp. }
    rewrite E. reflexivity.
Qed.

Lemma summary_mode_announces_a_plot_it_never_saves_witness :
  exists w before,
    run (sample_files (Table square_rows))
        {| csv_file := "results.csv"; output := Some "plot.png";
           type := summary; no_display := false |} = (0%Z, w) /\
    display w = [] /\
    stdout w =
      before ++ [ [Str nl; Str "Plot saved to: "; Str "plot.png"];
                  [Str "You can also view it with: display"; Str " ";
                   Str "plot.png"] ].
Proof.
  destruct (summary_mode_announces_a_plot_it_never_saves
              (sample_files (Table square_rows))
              {| csv_file := "results.csv"; output := Some "plot.png";
                 type := summary; no_display := false |} eq_refl)
    as (_ & H).
  apply (H square_rows "plot.png"); try reflexivity; try discriminate.
  exact square_rows_analysable.
Defined.

(** X19.  Called on a path that does not exist, each of the three
    functions prints the one line naming the file, draws nothing and
    returns. *)
Theorem missing_file_is_reported_by_each_function (fs : FileSystem)
  (f : string) (out : option string) (w : World) :
  fs f = Missing ->
  plot_convergence fs f out w =
    (Returned tt, {| stdout := stdout w ++ [msg_not_found f];
                     display := display w |}) /\
  plot_error_analysis fs f out w =
    (Returned tt, {| stdout := stdout w ++ [msg_not_found f];
                     display := display w |}) /\
  create_summary_report fs f w =
    (Returned tt, {| stdout := stdout w ++ [msg_not_found f];
                     display := display w |}) /\
  msg_not_found f = [Str ("Error: File '" ++ f ++ "' not found.")].
Proof.
  intros H. unfold plot_convergence, plot_error_analysis, create_summary_report,
    read_csv. rewrite H. repeat split; reflexivity.
Qed.

Lemma missing_file_is_reported_by_each_function_witness :
  plot_error_analysis (sample_files Missing) "results.csv" None empty_world =
    (Returned tt,
     {| stdout := [[Str "Error: File 'results.csv' not found."]];
        display := [] |}).
Proof.
  destruct (missing_file_is_reported_by_each_function (sample_files Missing)
              "results.csv" None empty_world eq_refl) as (_ & H & _).
  exact H.
Defined.

End Summaries.
